(** * MoodAgent: sentiment aggregation, policy decisions, risk gate and executor

    A shallow embedding of the TypeScript core of the repository:

    - [lib/utils/math]            MovingAverage, ExponentialMovingAverage,
                                  calculateZScore, calculateStdDev,
                                  calculateMean, detectCrossover
    - [sentiment/aggregator]      SentimentAggregator
    - [policy/risk-manager]       RiskManager
    - [policy/decision-engine]    DecisionEngine
    - [executor/executor]         Executor, and the methods of SolanaClient
                                  it calls
    - [executor/worker]           the body of the main loop of ExecutorWorker

    How the program is modelled.

    - Numbers.  A JavaScript [number] is an IEEE 754 binary64 value; it is
      modelled by Rocq's primitive [float], whose operations are the same
      binary64 operations.  Counters that only ever hold integers (the loss
      count, array lengths, timestamps in milliseconds) are [Z] or [nat].
    - Strings.  A template literal is kept as the list of its pieces
      ([Text.t]), so that the numbers printed into a message can be read
      back from it.
    - Asynchronous methods are trees of effects ([Task.t]): synchronous
      effects on the world ([new Date()], [logger], the fields of the
      service objects) and awaited requests to the store or the chain.  An
      interpreter runs a tree against a [World] under a schedule that says,
      for each awaited request, what the other tasks have done meanwhile and
      whether the request fails; [try/catch] is a function on trees.
    - The store.  The Redis keys are fields of a record, each at the type
      its reader parses it to.  The daily spend counters carry their TTL.
      INCRBYFLOAT is binary64 addition, INCR is addition on [Z].
    - The chain.  The answers of the Solana RPC and of the swap API are
      functions carried by the world; the services only look at the parts
      that are listed in [Chain.t].
    - The logger.  Every call of [logger] is appended to the log of the
      world, whatever the configured level. *)

From Stdlib Require Import ZArith List String Ascii Bool Lia.
From Stdlib Require Import Floats Uint63.
From stdpp Require Import base option gmap.

Import ListNotations.
#[local] Open Scope string_scope.
#[local] Open Scope Z_scope.
#[local] Set Warnings "-inexact-float".

(* ===================================================================== *)
(** * JavaScript numbers *)
(* ===================================================================== *)

Module Js.

(** The relational operators of JavaScript on numbers.  Each of them is
    [false] as soon as one operand is NaN. *)
Definition lt (a b : float) : bool := PrimFloat.ltb a b.
Definition gt (a b : float) : bool := PrimFloat.ltb b a.
Definition le (a b : float) : bool := PrimFloat.leb a b.
Definition ge (a b : float) : bool := PrimFloat.leb b a.

(** [a === b] on numbers: [+0 === -0] holds and [NaN === NaN] does not. *)
Definition strict_eq (a b : float) : bool := PrimFloat.eqb a b.

Definition isNaN (a : float) : bool := negb (PrimFloat.eqb a a).

(** ToBoolean on a number: [0], [-0] and [NaN] are falsy. *)
Definition truthy (a : float) : bool :=
  negb (PrimFloat.eqb a 0%float || isNaN a).

(** [a || b] on numbers. *)
Definition or_else (a b : float) : float := if truthy a then a else b.

(** The length of an array as a number.  A JavaScript array has fewer than
    2^32 elements, so the conversion is exact. *)
Definition of_nat (n : nat) : float :=
  PrimFloat.of_uint63 (Uint63.of_Z (Z.of_nat n)).

(** [Math.pow(x, 2)]. *)
Definition square (x : float) : float := (x * x)%float.

(** [balance.toString()] followed by [Number.parseFloat]: the round trip is
    the identity on every number but [-0], which is printed as ["0"]. *)
Definition print_parse (x : float) : float :=
  if PrimFloat.eqb x 0%float then 0%float else x.

End Js.

(* ===================================================================== *)
(** * lib/utils/math *)
(* ===================================================================== *)

Module MathUtils.

#[local] Open Scope float_scope.

(** [values.reduce((acc, val) => acc + val, 0)] *)
Definition sum (values : list float) : float :=
  fold_left (fun acc val => acc + val) values 0.

(** ** class MovingAverage *)

Record MovingAverage := {
  ma_values : list float;
  ma_window : float;
}.

Definition MovingAverage_new (window : float) : MovingAverage :=
  {| ma_values := []; ma_window := window |}.

Definition MovingAverage_calculate (m : MovingAverage) : float :=
  match ma_values m with
  | [] => 0
  | _ => sum (ma_values m) / Js.of_nat (length (ma_values m))
  end.

(** [add]: push, then one [shift] when the window is exceeded. *)
Definition MovingAverage_add (m : MovingAverage) (value : float)
  : float * MovingAverage :=
  let pushed := (ma_values m ++ [value])%list in
  let kept :=
    if Js.gt (Js.of_nat (length pushed)) (ma_window m) then tl pushed else pushed in
  let m' := {| ma_values := kept; ma_window := ma_window m |} in
  (MovingAverage_calculate m', m').

Definition MovingAverage_reset (m : MovingAverage) : MovingAverage :=
  {| ma_values := []; ma_window := ma_window m |}.

(** ** class ExponentialMovingAverage *)

Record ExponentialMovingAverage := {
  ema : option float;          (* [number | null] *)
  alpha : float;
}.

Definition ExponentialMovingAverage_new (window : float)
  : ExponentialMovingAverage :=
  {| ema := None; alpha := 2 / (window + 1) |}.

Definition ExponentialMovingAverage_add
  (e : ExponentialMovingAverage) (value : float)
  : float * ExponentialMovingAverage :=
  let v :=
    match ema e with
    | None => value
    | Some old => alpha e * value + (1 - alpha e) * old
    end in
  (v, {| ema := Some v; alpha := alpha e |}).

(** [get value()] : [this.ema ?? 0] *)
Definition ExponentialMovingAverage_value (e : ExponentialMovingAverage)
  : float :=
  match ema e with Some v => v | None => 0 end.

Definition ExponentialMovingAverage_reset (e : ExponentialMovingAverage)
  : ExponentialMovingAverage :=
  {| ema := None; alpha := alpha e |}.

(** ** free functions *)

Definition calculateZScore (value mean stdDev : float) : float :=
  if Js.strict_eq stdDev 0 then 0 else (value - mean) / stdDev.

Definition calculateMean (values : list float) : float :=
  match values with
  | [] => 0
  | _ => sum values / Js.of_nat (length values)
  end.

Definition calculateStdDev (values : list float) : float :=
  match values with
  | [] => 0
  | _ =>
      let mean := sum values / Js.of_nat (length values) in
      let squaredDiffs := map (fun val => Js.square (val - mean)) values in
      let variance := sum squaredDiffs / Js.of_nat (length values) in
      PrimFloat.sqrt variance
  end.

Inductive Crossover := up | down | none.

Definition detectCrossover (fastValues slowValues : list float) : Crossover :=
  if (length fastValues <? 2)%nat || (length slowValues <? 2)%nat then none
  else
    let fastPrev := nth (length fastValues - 2) fastValues 0 in
    let fastCurr := nth (length fastValues - 1) fastValues 0 in
    let slowPrev := nth (length slowValues - 2) slowValues 0 in
    let slowCurr := nth (length slowValues - 1) slowValues 0 in
    let wasBelowNowAbove := Js.le fastPrev slowPrev && Js.gt fastCurr slowCurr in
    let wasAboveNowBelow := Js.ge fastPrev slowPrev && Js.lt fastCurr slowCurr in
    if wasBelowNowAbove then up
    else if wasAboveNowBelow then down
    else none.

End MathUtils.

(* ===================================================================== *)
(** * Template strings and the logger *)
(* ===================================================================== *)

(** A template literal is kept as the list of its pieces, so that the
    numbers interpolated into a message stay numbers:
    [`Too many consecutive losses (${n})`] is
    [[Lit "Too many consecutive losses ("; Int n; Lit ")"]]. *)
Module Text.

Inductive Piece :=
| Lit (s : string)
| Num (x : float)                    (* [${x}] *)
| Fixed (x : float) (digits : nat)   (* [${x.toFixed(digits)}] *)
| Int (n : Z).                       (* [${n}], [n] an integer counter *)

Definition t := list Piece.

Definition lit (s : string) : t := [Lit s].

End Text.

Module Logger.

Inductive LogLevel := debug | info | warn | error.

Inductive Value :=
| VNum (x : float)
| VInt (n : Z)
| VBool (b : bool)
| VStr (s : Text.t)
| VList (l : list string).

(** One call of [logger.debug/info/warn/error(message, context)].  The
    Logger prints the calls at or above the configured level; the model keeps
    every call, in order. *)
Record Entry := {
  level : LogLevel;
  message : string;
  context : list (string * Value);
}.

Definition is_message (m : string) (e : Entry) : bool :=
  String.eqb (message e) m.

End Logger.

(* ===================================================================== *)
(** * lib/config *)
(* ===================================================================== *)

Module Config.

Record Policy := {
  hypeThreshold : float;
  fudThreshold : float;
  momentumPositive : float;
  momentumNegative : float;
  emaShort : float;
  emaMedium : float;
  emaLong : float;
  maxDailySpendPercent : float;
  maxSlippagePercent : float;
  minTreasuryThreshold : float;
  maxConsecutiveLosses : Z;
}.

(** [process.env.ENABLE_AUTO_EXECUTION === "true"] and the like: fixed when
    the process starts. *)
Record Features := {
  enableAutoExecution : bool;
  enableBurn : bool;
  enableKillSwitch : bool;
}.

(** The environment variables the executor reads: [process.env.X] is
    [undefined] ([None]) or a string. *)
Record Env := {
  USDC_MINT : option string;
  TOKEN_MINT : option string;
  TREASURY_ADDRESS : option string;
}.

Record t := {
  policy : Policy;
  features : Features;
  env : Env;
}.

(** The policy block of [config] as the repository ships it. *)
Definition default_policy : Policy := {|
  hypeThreshold := 1.5;
  fudThreshold := -1.0;
  momentumPositive := 0;
  momentumNegative := 0;
  emaShort := 5;
  emaMedium := 15;
  emaLong := 60;
  maxDailySpendPercent := 5;
  maxSlippagePercent := 2;
  minTreasuryThreshold := 0.1;
  maxConsecutiveLosses := 3;
|}.

End Config.

(* ===================================================================== *)
(** * lib/types *)
(* ===================================================================== *)

(** Timestamps ([Date]) are milliseconds since the epoch. *)
Definition Date := Z.

Module SentimentScore.
Record t := {
  value : float;
  confidence : float;
  volatility : float;
}.
End SentimentScore.

Module ProcessedTweet.
Record t := {
  text : string;
  sentiment : SentimentScore.t;
  authorWeight : float;
}.
End ProcessedTweet.

Module TopicBreakdown.
Record t := {
  ourCoin : float;
  generalMarket : float;
}.
End TopicBreakdown.

Module AggregatedMood.
Record t := {
  timestamp : Date;
  rawScore : float;
  zScore : float;
  ema5 : float;
  ema15 : float;
  ema60 : float;
  volume : nat;
  topicBreakdown : TopicBreakdown.t;
}.
End AggregatedMood.

Module MarketSignal.
Record t := {
  timestamp : Date;
  price : float;
  priceChange24h : float;
  volume24h : float;
  liquidity : float;
  momentum : float;
  largeTransfers : float;
}.
End MarketSignal.

Inductive Action := HODL_TREASURY | BUYBACK | BURN | NOOP.

Module Signals.
Record t := {
  moodZScore : float;
  priceMomentum : float;
  liquidityOk : bool;
}.
End Signals.

Module ExecutionParams.
Record t := {
  size : option float;
  maxSlippage : option float;
  dcaFactor : option float;
}.
End ExecutionParams.

Module PolicyDecision.
Record t := {
  timestamp : Date;
  action : Action;
  reason : Text.t;
  signals : Signals.t;
  executionParams : option ExecutionParams.t;
}.

(** [decision.executionParams?.size] *)
Definition size (d : t) : option float :=
  match executionParams d with
  | Some p => ExecutionParams.size p
  | None => None
  end.

(** [decision.executionParams?.size || 0] *)
Definition size_or_0 (d : t) : float :=
  match size d with
  | Some s => Js.or_else s 0%float
  | None => 0%float
  end.
End PolicyDecision.

Module ExecutionResult.
Record t := {
  timestamp : Date;
  decision : PolicyDecision.t;
  txSignature : option string;
  success : bool;
  amountProcessed : option float;
  error : option Text.t;
}.
End ExecutionResult.

(* ===================================================================== *)
(** * The world the services run in *)
(* ===================================================================== *)

(** ** The Redis key space

    One field per key (or family of keys) the services use.  A value is kept
    at the type the readers parse it to; a key that does not exist is [None]
    (or absent from the map). *)
Module Redis.

Record Risk := {
  kill_switch : option string;             (* risk:kill_switch *)
  kill_switch_reason : option string;      (* risk:kill_switch_reason *)
  (** risk:daily_spent:<day>, with the time (ms) its TTL runs out, if any *)
  daily_spent : gmap Z (float * option Z);
  consecutive_losses : option Z;           (* risk:consecutive_losses *)
  last_execution : option Date;            (* risk:last_execution *)
  treasury_balance : option float;         (* treasury:balance *)
}.

Record Published := {
  policy_latest : option PolicyDecision.t;         (* policy:latest *)
  policy_history : gmap Z PolicyDecision.t;        (* policy:history:<ms> *)
  policy_timeline : gset Z;                        (* policy:timeline *)
  execution_latest : option ExecutionResult.t;     (* execution:latest *)
  execution_history : gmap Z ExecutionResult.t;    (* execution:history:<ms> *)
  execution_timeline : gset Z;                     (* execution:timeline *)
}.

Record t := {
  risk : Risk;
  published : Published;
}.

Definition empty : t := {|
  risk := {|
    kill_switch := None; kill_switch_reason := None; daily_spent := ∅;
    consecutive_losses := None; last_execution := None;
    treasury_balance := None |};
  published := {|
    policy_latest := None; policy_history := ∅; policy_timeline := ∅;
    execution_latest := None; execution_history := ∅;
    execution_timeline := ∅ |};
|}.

Definition with_risk (f : Risk -> Risk) (r : t) : t :=
  {| risk := f (risk r); published := published r |}.

Definition with_published (f : Published -> Published) (r : t) : t :=
  {| risk := risk r; published := f (published r) |}.

Definition set_kill_switch (v : option string) (k : Risk) : Risk :=
  {| kill_switch := v; kill_switch_reason := kill_switch_reason k;
     daily_spent := daily_spent k; consecutive_losses := consecutive_losses k;
     last_execution := last_execution k; treasury_balance := treasury_balance k |}.

Definition set_kill_switch_reason (v : option string) (k : Risk) : Risk :=
  {| kill_switch := kill_switch k; kill_switch_reason := v;
     daily_spent := daily_spent k; consecutive_losses := consecutive_losses k;
     last_execution := last_execution k; treasury_balance := treasury_balance k |}.

Definition set_daily_spent (v : gmap Z (float * option Z)) (k : Risk) : Risk :=
  {| kill_switch := kill_switch k; kill_switch_reason := kill_switch_reason k;
     daily_spent := v; consecutive_losses := consecutive_losses k;
     last_execution := last_execution k; treasury_balance := treasury_balance k |}.

Definition set_consecutive_losses (v : option Z) (k : Risk) : Risk :=
  {| kill_switch := kill_switch k; kill_switch_reason := kill_switch_reason k;
     daily_spent := daily_spent k; consecutive_losses := v;
     last_execution := last_execution k; treasury_balance := treasury_balance k |}.

Definition set_last_execution (v : option Date) (k : Risk) : Risk :=
  {| kill_switch := kill_switch k; kill_switch_reason := kill_switch_reason k;
     daily_spent := daily_spent k; consecutive_losses := consecutive_losses k;
     last_execution := v; treasury_balance := treasury_balance k |}.

Definition set_treasury_balance (v : option float) (k : Risk) : Risk :=
  {| kill_switch := kill_switch k; kill_switch_reason := kill_switch_reason k;
     daily_spent := daily_spent k; consecutive_losses := consecutive_losses k;
     last_execution := last_execution k; treasury_balance := v |}.

(** A key with a TTL is gone once the clock has passed its expiry time. *)
Definition live (now : Z) (expiry : option Z) : bool :=
  match expiry with
  | Some at_ms => now <=? at_ms
  | None => true
  end.

(** GET risk:daily_spent:<day> *)
Definition get_daily_spent (now : Z) (day : Z) (k : Risk) : option float :=
  match daily_spent k !! day with
  | Some (v, expiry) => if live now expiry then Some v else None
  | None => None
  end.

(** INCRBYFLOAT risk:daily_spent:<day> amount: a missing (or expired) key
    counts as 0 and is created without a TTL; an existing key keeps its TTL. *)
Definition incrbyfloat_daily_spent
  (now : Z) (day : Z) (amount : float) (k : Risk) : Risk :=
  let entry :=
    match daily_spent k !! day with
    | Some (v, expiry) =>
        if live now expiry then ((v + amount)%float, expiry)
        else ((0 + amount)%float, None)
    | None => ((0 + amount)%float, None)
    end in
  set_daily_spent (<[day := entry]> (daily_spent k)) k.

(** EXPIRE risk:daily_spent:<day> seconds: only an existing key gets a TTL. *)
Definition expire_daily_spent
  (now : Z) (day : Z) (seconds : Z) (k : Risk) : Risk :=
  match daily_spent k !! day with
  | Some (v, expiry) =>
      if live now expiry
      then set_daily_spent
             (<[day := (v, Some (now + seconds * 1000))]> (daily_spent k)) k
      else k
  | None => k
  end.

(** INCR risk:consecutive_losses: a missing key counts as 0. *)
Definition incr_consecutive_losses (k : Risk) : Risk :=
  let old := match consecutive_losses k with Some n => n | None => 0 end in
  set_consecutive_losses (Some (old + 1)) k.

End Redis.

(** ** The chain RPC and the swap API

    What the Solana connection and the Jupiter endpoint answer.  The
    services never look inside these answers beyond what is listed here. *)
Module Chain.

(** [status.value] of [getSignatureStatus]: [null], or a status whose [err]
    is set or not. *)
Inductive SignatureStatus :=
| value_null
| value_ok
| value_err.

Record t := {
  getSignatureStatus : string -> SignatureStatus;
  (** [new PublicKey(s)] throws on a string that is no public key *)
  is_public_key : string -> bool;
  getAssociatedTokenAddress : string -> string -> string;
  (** [balance.value.uiAmount] : [number | null] *)
  getTokenAccountBalance : string -> option float;
  getLatestBlockhash : string;
  (** the [swapTransaction] field of the answer of the swap endpoint *)
  jupiter_swapTransaction : string -> string -> float -> float -> string;
  (** [Transaction.from(buffer)] throws on bytes that are no transaction *)
  is_transaction : string -> bool;
  (** the message of the error it throws on such bytes *)
  transaction_error : string -> string;
}.

End Chain.

(** ** The objects of the process

    The private fields of the three service objects.  They are part of the
    world because they are mutated in place: what a method has written before
    it throws, or before it is suspended at an [await], stays written. *)
Module Fields.

(** [Map<string, PolicyDecision>], in insertion order. *)
Definition PendingMap := list (string * PolicyDecision.t).

Record SentimentAggregator := {
  ema5 : MathUtils.ExponentialMovingAverage;
  ema15 : MathUtils.ExponentialMovingAverage;
  ema60 : MathUtils.ExponentialMovingAverage;
  historicalScores : list float;
  maxHistorySize : nat;
}.

Record DecisionEngine := {
  ema15History : list float;
  ema60History : list float;
}.

Record Executor := {
  pendingExecutions : PendingMap;
  (** [SolanaClient.treasuryPubkey] *)
  treasuryPubkey : option string;
}.

End Fields.

Record World := {
  redis : Redis.t;
  now : Date;                       (* what [new Date()] returns *)
  log : list Logger.Entry;          (* the calls of [logger], oldest first *)
  chain : Chain.t;
  aggregator : Fields.SentimentAggregator;
  engine : Fields.DecisionEngine;
  executor : Fields.Executor;
}.

Definition with_redis (f : Redis.t -> Redis.t) (w : World) : World :=
  {| redis := f (redis w); now := now w; log := log w; chain := chain w;
     aggregator := aggregator w; engine := engine w; executor := executor w |}.

Definition with_now (t : Date) (w : World) : World :=
  {| redis := redis w; now := t; log := log w; chain := chain w;
     aggregator := aggregator w; engine := engine w; executor := executor w |}.

Definition with_log (f : list Logger.Entry -> list Logger.Entry) (w : World)
  : World :=
  {| redis := redis w; now := now w; log := f (log w); chain := chain w;
     aggregator := aggregator w; engine := engine w; executor := executor w |}.

Definition with_chain (c : Chain.t) (w : World) : World :=
  {| redis := redis w; now := now w; log := log w; chain := c;
     aggregator := aggregator w; engine := engine w; executor := executor w |}.

Definition with_aggregator (a : Fields.SentimentAggregator) (w : World)
  : World :=
  {| redis := redis w; now := now w; log := log w; chain := chain w;
     aggregator := a; engine := engine w; executor := executor w |}.

Definition with_engine (e : Fields.DecisionEngine) (w : World) : World :=
  {| redis := redis w; now := now w; log := log w; chain := chain w;
     aggregator := aggregator w; engine := e; executor := executor w |}.

Definition with_executor (e : Fields.Executor) (w : World) : World :=
  {| redis := redis w; now := now w; log := log w; chain := chain w;
     aggregator := aggregator w; engine := engine w; executor := e |}.

(** The calendar day (UTC) of a timestamp: the date part of
    [toISOString()], as a day number. *)
Definition day_of (t : Date) : Z := t / 86400000.

(* ===================================================================== *)
(** * Asynchronous computations *)
(* ===================================================================== *)

(** An [async] method is a tree: it returns, throws, runs a synchronous
    effect ([new Date()], a [logger] call), or awaits a request to the store
    or the chain, whose promise is fulfilled with an answer or rejected with
    an error message. *)
Module Task.

Inductive t (A : Type) : Type :=
| Ret (a : A)
| Throw (e : string)
| Sync {X : Type} (op : World -> X * World) (k : X -> t A)
| Await {X : Type} (op : World -> X * World) (k : string + X -> t A).

Arguments Ret {A} a.
Arguments Throw {A} e.
Arguments Sync {A X} op k.
Arguments Await {A X} op k.

Fixpoint bind {A B} (m : t A) (f : A -> t B) : t B :=
  match m with
  | Ret a => f a
  | Throw e => Throw e
  | Sync op k => Sync op (fun x => bind (k x) f)
  | Await op k => Await op (fun r => bind (k r) f)
  end.

(** [try { body } catch (error) { handler(error.message) }] *)
Fixpoint try_catch {A} (body : t A) (handler : string -> t A) : t A :=
  match body with
  | Ret a => Ret a
  | Throw e => handler e
  | Sync op k => Sync op (fun x => try_catch (k x) handler)
  | Await op k => Await op (fun r => try_catch (k r) handler)
  end.

(** [await request]: a rejected promise throws at the [await]. *)
Definition await {X} (op : World -> X * World) : t X :=
  Await op (fun r => match r with inl e => Throw e | inr x => Ret x end).

Definition sync {X} (op : World -> X * World) : t X := Sync op Ret.

(** ** Running a task

    Between two requests of one task the other tasks of the process (and
    other clients of the store) may run.  A [Slot] says what happens at one
    [await]: how the world has changed by the time the request is served,
    and whether the request fails.  With no slot left the world is touched
    by this task alone and every request succeeds. *)
Record Slot := {
  interference : World -> World;
  failure : option string;
}.

Inductive Outcome (A : Type) :=
| Returned (a : A)
| Thrown (e : string).
Arguments Returned {A} a.
Arguments Thrown {A} e.

Fixpoint run {A} (m : t A) (schedule : list Slot) (w : World)
  : Outcome A * World * list Slot :=
  match m with
  | Ret a => (Returned a, w, schedule)
  | Throw e => (Thrown e, w, schedule)
  | Sync op k => let (x, w') := op w in run (k x) schedule w'
  | Await op k =>
      match schedule with
      | [] => let (x, w') := op w in run (k (inr x)) [] w'
      | slot :: rest =>
          let w1 := interference slot w in
          match failure slot with
          | Some e => run (k (inl e)) rest w1
          | None => let (x, w') := op w1 in run (k (inr x)) rest w'
          end
      end
  end.

(** What the task answers under a schedule. *)
Definition answer {A} (m : t A) (schedule : list Slot) (w : World)
  : Outcome A :=
  fst (fst (run m schedule w)).

(** The task run alone, every request succeeding. *)
Definition exec {A} (m : t A) (w : World) : Outcome A * World :=
  fst (run m [] w).

Definition result {A} (m : t A) (w : World) : Outcome A := fst (exec m w).
Definition after {A} (m : t A) (w : World) : World := snd (exec m w).

(** Every effect of [m] leaves the part [f] of the world as it is. *)
Fixpoint keeps {X A} (f : World -> X) (m : t A) : Prop :=
  match m with
  | Ret _ => True
  | Throw _ => True
  | Sync op k =>
      (forall w, f (snd (op w)) = f w) /\ (forall x, keeps f (k x))
  | Await op k =>
      (forall w, f (snd (op w)) = f w) /\ (forall r, keeps f (k r))
  end.

(** A task without [await] runs the same under every schedule. *)
Fixpoint synchronous {A} (m : t A) : Prop :=
  match m with
  | Ret _ | Throw _ => True
  | Sync op k => forall x, synchronous (k x)
  | Await _ _ => False
  end.

(** No slot of the schedule changes the part [f] of the world. *)
Definition undisturbed {X} (f : World -> X) (schedule : list Slot) : Prop :=
  Forall (fun slot => forall w, f (interference slot w) = f w) schedule.

(** Run alone, [m] returns (it does not throw) from every world. *)
Definition returns {A} (m : t A) : Prop :=
  forall w, exists a w', exec m w = (Returned a, w').

(** The world after [m] has run alone with the clock at [time]. *)
Definition after_at {A} (time : Date) (m : t A) (w : World) : World :=
  after m (with_now time w).

End Task.

Notation "x <- m ;; k" := (Task.bind m (fun x => k))
  (at level 100, m at next level, right associativity).
Notation "m ;;; k" := (Task.bind m (fun _ => k))
  (at level 100, right associativity).

(* ===================================================================== *)
(** * Primitive effects *)
(* ===================================================================== *)

Module Effects.

(** [new Date()] *)
Definition new_Date : Task.t Date := Task.sync (fun w => (now w, w)).

(** [logger.<level>(message, context)] *)
Definition logger (level : Logger.LogLevel) (message : string)
  (context : list (string * Logger.Value)) : Task.t unit :=
  Task.sync (fun w =>
    (tt, with_log (fun l => (l ++ [{| Logger.level := level;
                                      Logger.message := message;
                                      Logger.context := context |}])%list) w)).

(** A read of the Redis risk keys. *)
Definition redis_read {X} (f : Z -> Redis.Risk -> X) : Task.t X :=
  Task.await (fun w => (f (now w) (Redis.risk (redis w)), w)).

(** A write to the Redis risk keys. *)
Definition redis_write (f : Z -> Redis.Risk -> Redis.Risk) : Task.t unit :=
  Task.await (fun w => (tt, with_redis (Redis.with_risk (f (now w))) w)).

(** A write to the published artifacts. *)
Definition redis_publish (f : Redis.Published -> Redis.Published)
  : Task.t unit :=
  Task.await (fun w => (tt, with_redis (Redis.with_published f) w)).

(** A request to the chain RPC or the swap API. *)
Definition rpc {X} (f : Chain.t -> X) : Task.t X :=
  Task.await (fun w => (f (chain w), w)).

End Effects.

(* ===================================================================== *)
(** * policy/risk-manager *)
(* ===================================================================== *)

Module RiskManager.

Import Effects.

Record RiskMetrics := {
  dailySpent : float;
  consecutiveLosses : Z;
  lastExecutionTime : option Date;
  treasuryBalance : float;
  killSwitchActive : bool;
}.

(** The answer of [canExecute]: [{ allowed, reason? }]. *)
Record RiskCheck := {
  allowed : bool;
  reason : option Text.t;
}.

(** ** private readers *)

Definition isKillSwitchActive : Task.t bool :=
  status <- redis_read (fun _ k => Redis.kill_switch k) ;;
  Task.Ret (match status with
            | Some s => String.eqb s "active"
            | None => false
            end).

Definition getDailySpent : Task.t float :=
  today <- new_Date ;;
  let key := day_of today in
  spent <- redis_read (fun now k => Redis.get_daily_spent now key k) ;;
  Task.Ret (match spent with Some v => v | None => 0%float end).

Definition getConsecutiveLosses : Task.t Z :=
  losses <- redis_read (fun _ k => Redis.consecutive_losses k) ;;
  Task.Ret (match losses with Some n => n | None => 0 end).

Definition getLastExecutionTime : Task.t (option Date) :=
  time <- redis_read (fun _ k => Redis.last_execution k) ;;
  Task.Ret time.

Definition getTreasuryBalance : Task.t float :=
  balance <- redis_read (fun _ k => Redis.treasury_balance k) ;;
  Task.Ret (match balance with Some v => v | None => 0%float end).

Section WithPolicy.

Variable policy : Config.Policy.

(** ** canExecute *)

Definition canExecute (amount : float) : Task.t RiskCheck :=
  Task.try_catch
    ((* Check kill switch *)
     killSwitch <- isKillSwitchActive ;;
     if killSwitch : bool then
       Task.Ret {| allowed := false;
                   reason := Some (Text.lit "Kill switch is active") |}
     else
     (* Check treasury balance *)
     treasuryBalance <- getTreasuryBalance ;;
     let minReserve :=
       (treasuryBalance * Config.minTreasuryThreshold policy)%float in
     if Js.lt (treasuryBalance - amount)%float minReserve then
       Task.Ret {| allowed := false;
                   reason := Some [Text.Lit "Insufficient treasury balance (min reserve: ";
                                   Text.Num minReserve; Text.Lit ")"] |}
     else
     (* Check daily spend limit *)
     dailySpent <- getDailySpent ;;
     let maxDailySpend :=
       (treasuryBalance * (Config.maxDailySpendPercent policy / 100))%float in
     if Js.gt (dailySpent + amount)%float maxDailySpend then
       Task.Ret {| allowed := false;
                   reason := Some [Text.Lit "Daily spend limit exceeded (";
                                   Text.Fixed dailySpent 2; Text.Lit "/";
                                   Text.Fixed maxDailySpend 2; Text.Lit ")"] |}
     else
     (* Check consecutive losses *)
     consecutiveLosses <- getConsecutiveLosses ;;
     if consecutiveLosses >=? Config.maxConsecutiveLosses policy then
       Task.Ret {| allowed := false;
                   reason := Some [Text.Lit "Too many consecutive losses (";
                                   Text.Int consecutiveLosses; Text.Lit ")"] |}
     else
     Task.Ret {| allowed := true; reason := None |})
    (fun error =>
       logger Logger.error "Risk check failed"
         [("error", Logger.VStr (Text.lit error))] ;;;
       Task.Ret {| allowed := false;
                   reason := Some (Text.lit "Risk check error") |}).

End WithPolicy.

(** ** recordExecution *)

Definition recordExecution (amount : float) (success : bool) : Task.t unit :=
  Task.try_catch
    ((* Update daily spent *)
     today <- new_Date ;;
     let key := day_of today in
     redis_write (fun now k => Redis.incrbyfloat_daily_spent now key amount k) ;;;
     redis_write (fun now k => Redis.expire_daily_spent now key (24 * 60 * 60) k) ;;;
     (* Update consecutive losses *)
     (if success
      then redis_write (fun _ k => Redis.set_consecutive_losses (Some 0) k)
      else redis_write (fun _ k => Redis.incr_consecutive_losses k)) ;;;
     (* Update last execution time *)
     stamp <- new_Date ;;
     redis_write (fun _ k => Redis.set_last_execution (Some stamp) k) ;;;
     logger Logger.info "Execution recorded"
       [("amount", Logger.VNum amount); ("success", Logger.VBool success)])
    (fun error =>
       logger Logger.error "Failed to record execution"
         [("error", Logger.VStr (Text.lit error))]).

(** ** getRiskMetrics

    The five readers of [Promise.all] send their requests in the order of the
    array; the answers are awaited together. *)
Definition getRiskMetrics : Task.t RiskMetrics :=
  Task.try_catch
    (dailySpent <- getDailySpent ;;
     consecutiveLosses <- getConsecutiveLosses ;;
     lastExecution <- getLastExecutionTime ;;
     treasuryBalance <- getTreasuryBalance ;;
     killSwitch <- isKillSwitchActive ;;
     Task.Ret {| dailySpent := dailySpent;
                 consecutiveLosses := consecutiveLosses;
                 lastExecutionTime := lastExecution;
                 treasuryBalance := treasuryBalance;
                 killSwitchActive := killSwitch |})
    (fun error =>
       logger Logger.error "Failed to get risk metrics"
         [("error", Logger.VStr (Text.lit error))] ;;;
       Task.Throw error).

(** ** kill switch and treasury balance *)

Definition activateKillSwitch (reason : string) : Task.t unit :=
  redis_write (fun _ k => Redis.set_kill_switch (Some "active") k) ;;;
  redis_write (fun _ k => Redis.set_kill_switch_reason (Some reason) k) ;;;
  logger Logger.warn "Kill switch activated"
    [("reason", Logger.VStr (Text.lit reason))].

Definition deactivateKillSwitch : Task.t unit :=
  redis_write (fun _ k => Redis.set_kill_switch None k) ;;;
  redis_write (fun _ k => Redis.set_kill_switch_reason None k) ;;;
  logger Logger.info "Kill switch deactivated" [].

Definition updateTreasuryBalance (balance : float) : Task.t unit :=
  redis_write (fun _ k =>
    Redis.set_treasury_balance (Some (Js.print_parse balance)) k).

End RiskManager.

(* ===================================================================== *)
(** * sentiment/aggregator *)
(* ===================================================================== *)

Module SentimentAggregator.

Import Effects.
#[local] Open Scope float_scope.

(** [text.toLowerCase()], on the ASCII letters of a byte string. *)
Fixpoint toLowerCase (s : string) : string :=
  match s with
  | EmptyString => EmptyString
  | String c rest =>
      let n := nat_of_ascii c in
      String (if ((65 <=? n) && (n <=? 90))%nat then ascii_of_nat (n + 32) else c)
             (toLowerCase rest)
  end.

(** [text.includes(needle)] *)
Fixpoint includes (text needle : string) : bool :=
  String.prefix needle text ||
  match text with
  | EmptyString => false
  | String _ rest => includes rest needle
  end.

(** The constructor: three EMAs over the configured windows, no history. *)
Definition create (policy : Config.Policy) : Fields.SentimentAggregator := {|
  Fields.ema5 := MathUtils.ExponentialMovingAverage_new (Config.emaShort policy);
  Fields.ema15 := MathUtils.ExponentialMovingAverage_new (Config.emaMedium policy);
  Fields.ema60 := MathUtils.ExponentialMovingAverage_new (Config.emaLong policy);
  Fields.historicalScores := [];
  Fields.maxHistorySize := 1000;
|}.

Definition this : Task.t Fields.SentimentAggregator :=
  Task.sync (fun w => (aggregator w, w)).

Definition assign (a : Fields.SentimentAggregator) : Task.t unit :=
  Task.sync (fun w => (tt, with_aggregator a w)).

(** [this.ema5.add(v)], and the same for the two other accumulators *)
Definition ema5_add (v : float) : Task.t float :=
  a <- this ;;
  let (r, e) := MathUtils.ExponentialMovingAverage_add (Fields.ema5 a) v in
  assign {| Fields.ema5 := e; Fields.ema15 := Fields.ema15 a;
            Fields.ema60 := Fields.ema60 a;
            Fields.historicalScores := Fields.historicalScores a;
            Fields.maxHistorySize := Fields.maxHistorySize a |} ;;;
  Task.Ret r.

Definition ema15_add (v : float) : Task.t float :=
  a <- this ;;
  let (r, e) := MathUtils.ExponentialMovingAverage_add (Fields.ema15 a) v in
  assign {| Fields.ema5 := Fields.ema5 a; Fields.ema15 := e;
            Fields.ema60 := Fields.ema60 a;
            Fields.historicalScores := Fields.historicalScores a;
            Fields.maxHistorySize := Fields.maxHistorySize a |} ;;;
  Task.Ret r.

Definition ema60_add (v : float) : Task.t float :=
  a <- this ;;
  let (r, e) := MathUtils.ExponentialMovingAverage_add (Fields.ema60 a) v in
  assign {| Fields.ema5 := Fields.ema5 a; Fields.ema15 := Fields.ema15 a;
            Fields.ema60 := e;
            Fields.historicalScores := Fields.historicalScores a;
            Fields.maxHistorySize := Fields.maxHistorySize a |} ;;;
  Task.Ret r.

Definition set_historicalScores (h : list float) : Task.t unit :=
  a <- this ;;
  assign {| Fields.ema5 := Fields.ema5 a; Fields.ema15 := Fields.ema15 a;
            Fields.ema60 := Fields.ema60 a;
            Fields.historicalScores := h;
            Fields.maxHistorySize := Fields.maxHistorySize a |}.

Definition analyzeTopics (tweets : list ProcessedTweet.t) : TopicBreakdown.t :=
  let '(ourCoinCount, generalCount) :=
    fold_left
      (fun '(ourCoinCount, generalCount) tweet =>
         let text := toLowerCase (ProcessedTweet.text tweet) in
         if includes text "$yourcoin" || includes text "yourcoin"
         then (S ourCoinCount, generalCount)
         else (ourCoinCount, S generalCount))
      tweets (O, O) in
  let total := (ourCoinCount + generalCount)%nat in
  {| TopicBreakdown.ourCoin :=
       if (0 <? total)%nat then Js.of_nat ourCoinCount / Js.of_nat total else 0;
     TopicBreakdown.generalMarket :=
       if (0 <? total)%nat then Js.of_nat generalCount / Js.of_nat total else 0 |}.

Definition getEmptyMood : Task.t AggregatedMood.t :=
  stamp <- new_Date ;;
  Task.Ret {| AggregatedMood.timestamp := stamp;
              AggregatedMood.rawScore := 0;
              AggregatedMood.zScore := 0;
              AggregatedMood.ema5 := 0;
              AggregatedMood.ema15 := 0;
              AggregatedMood.ema60 := 0;
              AggregatedMood.volume := 0;
              AggregatedMood.topicBreakdown :=
                {| TopicBreakdown.ourCoin := 0;
                   TopicBreakdown.generalMarket := 0 |} |}.

Definition aggregate (tweets : list ProcessedTweet.t)
  : Task.t AggregatedMood.t :=
  match tweets with
  | [] => getEmptyMood
  | _ =>
    (* Calculate weighted average sentiment *)
    let '(totalSentiment, totalWeight) :=
      fold_left
        (fun '(totalSentiment, totalWeight) tweet =>
           let weight :=
             ProcessedTweet.authorWeight tweet *
             SentimentScore.confidence (ProcessedTweet.sentiment tweet) in
           (totalSentiment
              + SentimentScore.value (ProcessedTweet.sentiment tweet) * weight,
            totalWeight + weight))
        tweets (0, 0) in
    let rawScore :=
      if Js.gt totalWeight 0 then totalSentiment / totalWeight else 0 in
    (* Update EMAs *)
    ema5 <- ema5_add rawScore ;;
    ema15 <- ema15_add rawScore ;;
    ema60 <- ema60_add rawScore ;;
    (* Store in history for z-score calculation *)
    a <- this ;;
    set_historicalScores (Fields.historicalScores a ++ [rawScore])%list ;;;
    a <- this ;;
    (if (Fields.maxHistorySize a <? length (Fields.historicalScores a))%nat
     then set_historicalScores (tl (Fields.historicalScores a))
     else Task.Ret tt) ;;;
    (* Calculate z-score *)
    a <- this ;;
    let mean := MathUtils.calculateMean (Fields.historicalScores a) in
    let stdDev := MathUtils.calculateStdDev (Fields.historicalScores a) in
    let zScore := MathUtils.calculateZScore rawScore mean stdDev in
    (* Topic breakdown (simplified) *)
    let topicBreakdown := analyzeTopics tweets in
    stamp <- new_Date ;;
    let mood := {| AggregatedMood.timestamp := stamp;
                   AggregatedMood.rawScore := rawScore;
                   AggregatedMood.zScore := zScore;
                   AggregatedMood.ema5 := ema5;
                   AggregatedMood.ema15 := ema15;
                   AggregatedMood.ema60 := ema60;
                   AggregatedMood.volume := length tweets;
                   AggregatedMood.topicBreakdown := topicBreakdown |} in
    logger Logger.debug "Aggregated mood"
      [("rawScore", Logger.VStr [Text.Fixed rawScore 3]);
       ("zScore", Logger.VStr [Text.Fixed zScore 3]);
       ("volume", Logger.VInt (Z.of_nat (length tweets)))] ;;;
    Task.Ret mood
  end.

Definition getCurrentEMAs : Task.t (float * float * float) :=
  a <- this ;;
  Task.Ret (MathUtils.ExponentialMovingAverage_value (Fields.ema5 a),
            MathUtils.ExponentialMovingAverage_value (Fields.ema15 a),
            MathUtils.ExponentialMovingAverage_value (Fields.ema60 a)).

Definition reset : Task.t unit :=
  a <- this ;;
  assign {| Fields.ema5 := MathUtils.ExponentialMovingAverage_reset (Fields.ema5 a);
            Fields.ema15 := MathUtils.ExponentialMovingAverage_reset (Fields.ema15 a);
            Fields.ema60 := MathUtils.ExponentialMovingAverage_reset (Fields.ema60 a);
            Fields.historicalScores := [];
            Fields.maxHistorySize := Fields.maxHistorySize a |}.

End SentimentAggregator.

(* ===================================================================== *)
(** * policy/decision-engine *)
(* ===================================================================== *)

Module DecisionEngine.

Import Effects.

(** The field initialisers: both histories start empty. *)
Definition create : Fields.DecisionEngine :=
  {| Fields.ema15History := []; Fields.ema60History := [] |}.

Definition this : Task.t Fields.DecisionEngine :=
  Task.sync (fun w => (engine w, w)).

Definition assign (e : Fields.DecisionEngine) : Task.t unit :=
  Task.sync (fun w => (tt, with_engine e w)).

(** [this.ema15History.push(v)] *)
Definition ema15History_push (v : float) : Task.t unit :=
  e <- this ;;
  assign {| Fields.ema15History := (Fields.ema15History e ++ [v])%list;
            Fields.ema60History := Fields.ema60History e |}.

Definition ema60History_push (v : float) : Task.t unit :=
  e <- this ;;
  assign {| Fields.ema15History := Fields.ema15History e;
            Fields.ema60History := (Fields.ema60History e ++ [v])%list |}.

(** [this.ema15History.shift()] *)
Definition ema15History_shift : Task.t unit :=
  e <- this ;;
  assign {| Fields.ema15History := tl (Fields.ema15History e);
            Fields.ema60History := Fields.ema60History e |}.

Definition ema60History_shift : Task.t unit :=
  e <- this ;;
  assign {| Fields.ema15History := Fields.ema15History e;
            Fields.ema60History := tl (Fields.ema60History e) |}.

(** Detect bearish crossover (EMA15 crosses below EMA60) *)
Definition detectBearishCrossover : Task.t bool :=
  e <- this ;;
  if (length (Fields.ema15History e) <? 2)%nat
     || (length (Fields.ema60History e) <? 2)%nat
  then Task.Ret false
  else
    let crossover :=
      MathUtils.detectCrossover (Fields.ema15History e) (Fields.ema60History e) in
    Task.Ret (match crossover with MathUtils.down => true | _ => false end).

(** Store decision in Redis *)
Definition storeDecision (decision : PolicyDecision.t) : Task.t unit :=
  Task.try_catch
    (let stamp := PolicyDecision.timestamp decision in
     (* Store latest decision *)
     redis_publish (fun p =>
       {| Redis.policy_latest := Some decision;
          Redis.policy_history := Redis.policy_history p;
          Redis.policy_timeline := Redis.policy_timeline p;
          Redis.execution_latest := Redis.execution_latest p;
          Redis.execution_history := Redis.execution_history p;
          Redis.execution_timeline := Redis.execution_timeline p |}) ;;;
     (* Store in time series *)
     redis_publish (fun p =>
       {| Redis.policy_latest := Redis.policy_latest p;
          Redis.policy_history := <[stamp := decision]> (Redis.policy_history p);
          Redis.policy_timeline := Redis.policy_timeline p;
          Redis.execution_latest := Redis.execution_latest p;
          Redis.execution_history := Redis.execution_history p;
          Redis.execution_timeline := Redis.execution_timeline p |}) ;;;
     (* Add to sorted set *)
     redis_publish (fun p =>
       {| Redis.policy_latest := Redis.policy_latest p;
          Redis.policy_history := Redis.policy_history p;
          Redis.policy_timeline := {[ stamp ]} ∪ Redis.policy_timeline p;
          Redis.execution_latest := Redis.execution_latest p;
          Redis.execution_history := Redis.execution_history p;
          Redis.execution_timeline := Redis.execution_timeline p |}))
    (fun error =>
       logger Logger.error "Failed to store decision"
         [("error", Logger.VStr (Text.lit error))]).

Definition getNoopDecision (reason : string) : Task.t PolicyDecision.t :=
  stamp <- new_Date ;;
  Task.Ret {| PolicyDecision.timestamp := stamp;
              PolicyDecision.action := NOOP;
              PolicyDecision.reason := Text.lit reason;
              PolicyDecision.signals :=
                {| Signals.moodZScore := 0%float;
                   Signals.priceMomentum := 0%float;
                   Signals.liquidityOk := false |};
              PolicyDecision.executionParams := None |}.

Definition action_name (a : Action) : string :=
  match a with
  | HODL_TREASURY => "HODL_TREASURY"
  | BUYBACK => "BUYBACK"
  | BURN => "BURN"
  | NOOP => "NOOP"
  end.

Section WithPolicy.

Variable policy : Config.Policy.

(** What [makeDecision] does once the rule chain has fixed [action],
    [reason] and [executionParams]: build the decision, store it, log it. *)
Definition conclude (mood : AggregatedMood.t) (market : MarketSignal.t)
  (liquidityOk : bool) (action : Action) (reason : Text.t)
  (executionParams : option ExecutionParams.t) : Task.t PolicyDecision.t :=
  stamp <- new_Date ;;
  let decision :=
    {| PolicyDecision.timestamp := stamp;
       PolicyDecision.action := action;
       PolicyDecision.reason := reason;
       PolicyDecision.signals :=
         {| Signals.moodZScore := AggregatedMood.zScore mood;
            Signals.priceMomentum := MarketSignal.momentum market;
            Signals.liquidityOk := liquidityOk |};
       PolicyDecision.executionParams := executionParams |} in
  (* Store decision *)
  storeDecision decision ;;;
  logger Logger.info "Decision made"
    [("action", Logger.VStr (Text.lit (action_name action)));
     ("reason", Logger.VStr reason);
     ("zScore", Logger.VStr [Text.Fixed (AggregatedMood.zScore mood) 2]);
     ("momentum", Logger.VStr [Text.Fixed (MarketSignal.momentum market) 3])] ;;;
  Task.Ret decision.

(** The first statements of [makeDecision]:
    update EMA history for crossover detection. *)
Definition updateEmaHistory (mood : AggregatedMood.t) : Task.t unit :=
  ema15History_push (AggregatedMood.ema15 mood) ;;;
  ema60History_push (AggregatedMood.ema60 mood) ;;;
  e <- this ;;
  if (100 <? length (Fields.ema15History e))%nat
  then ema15History_shift ;;; ema60History_shift
  else Task.Ret tt.

(** The rest of the [try] block of [makeDecision]: the liquidity check and
    the decision logic (V0 - rule-based), up to [return decision]. *)
Definition decisionLogic (mood : AggregatedMood.t) (market : MarketSignal.t)
  : Task.t PolicyDecision.t :=
    ((* Check liquidity *)
     let liquidityOk := Js.gt (MarketSignal.liquidity market) 10000 in
     let zScore := AggregatedMood.zScore mood in
     let momentum := MarketSignal.momentum market in
     (* Rule 1: HODL during hype *)
     if Js.ge zScore (Config.hypeThreshold policy)
        && Js.ge momentum (Config.momentumPositive policy)
     then
       conclude mood market liquidityOk HODL_TREASURY
         [Text.Lit "High sentiment (z="; Text.Fixed zScore 2;
          Text.Lit ") and positive momentum - waiting"]
         None
     (* Rule 2: BUYBACK during FUD dips *)
     else if Js.le zScore (Config.fudThreshold policy)
             && Js.le momentum (Config.momentumNegative policy)
     then
       (* Calculate buyback size *)
       metrics <- RiskManager.getRiskMetrics ;;
       let treasuryBalance := RiskManager.treasuryBalance metrics in
       let k1 := 0.01%float in
       let dcaFactor := 0.5%float in
       let size := (k1 * PrimFloat.abs zScore * treasuryBalance * dcaFactor)%float in
       (* Check if execution is allowed *)
       riskCheck <- RiskManager.canExecute policy size ;;
       if negb (RiskManager.allowed riskCheck)
       then
         conclude mood market liquidityOk NOOP
           (Text.Lit "Buyback blocked: " ::
              match RiskManager.reason riskCheck with
              | Some r => r
              | None => Text.lit "undefined"
              end)
           None
       else
         conclude mood market liquidityOk BUYBACK
           [Text.Lit "Low sentiment (z="; Text.Fixed zScore 2;
            Text.Lit ") and negative momentum - buying opportunity"]
           (Some {| ExecutionParams.size := Some size;
                    ExecutionParams.maxSlippage :=
                      Some (Config.maxSlippagePercent policy);
                    ExecutionParams.dcaFactor := Some dcaFactor |})
     else
       (* Rule 3: BURN after bearish crossover *)
       bearish <- detectBearishCrossover ;;
       if bearish && liquidityOk
       then
         conclude mood market liquidityOk BURN
           (Text.lit "Bearish EMA crossover detected - burning tokens") None
       (* Default: No action *)
       else
         conclude mood market liquidityOk NOOP
           (Text.lit "No clear signal - waiting") None).

(** Make trading decision based on mood and market signals *)
Definition makeDecision (mood : AggregatedMood.t) (market : MarketSignal.t)
  : Task.t PolicyDecision.t :=
  Task.try_catch
    (updateEmaHistory mood ;;;
     decisionLogic mood market)
    (fun error =>
       logger Logger.error "Decision making failed"
         [("error", Logger.VStr (Text.lit error))] ;;;
       getNoopDecision "Error in decision making").

End WithPolicy.

End DecisionEngine.

(* ===================================================================== *)
(** * executor/solana-client (the methods the executor calls) *)
(* ===================================================================== *)

Module SolanaClient.

Import Effects.

Inductive TransactionStatus := confirmed | failed | pending.

Definition treasuryPubkey : Task.t (option string) :=
  Task.sync (fun w => (Fields.treasuryPubkey (executor w), w)).

(** [new PublicKey(s)] *)
Definition new_PublicKey (s : string) : Task.t string :=
  valid <- Task.sync (fun w => (Chain.is_public_key (chain w) s, w)) ;;
  if valid : bool then Task.Ret s else Task.Throw "Invalid public key input".

(** Get token balance for treasury *)
Definition getTokenBalance (tokenMint : string) : Task.t float :=
  treasury <- treasuryPubkey ;;
  match treasury with
  | None => Task.Throw "Treasury address not configured"
  | Some treasury =>
    Task.try_catch
      (mintPubkey <- new_PublicKey tokenMint ;;
       tokenAccount <-
         rpc (fun c => Chain.getAssociatedTokenAddress c mintPubkey treasury) ;;
       balance <- rpc (fun c => Chain.getTokenAccountBalance c tokenAccount) ;;
       Task.Ret (match balance with
                 | Some uiAmount => Js.print_parse uiAmount
                 | None => 0%float
                 end))
      (fun error =>
         logger Logger.error "Failed to get token balance"
           [("error", Logger.VStr (Text.lit error))] ;;;
         Task.Throw error)
  end.

(** Execute Jupiter swap (buyback) *)
Definition executeSwap (inputMint outputMint : string)
  (amount slippageBps : float) : Task.t string :=
  Task.try_catch
    ((* Get quote from Jupiter: [fetch], then [json()] *)
     rpc (fun _ => tt) ;;;
     rpc (fun _ => tt) ;;;
     (* Get swap transaction: [fetch], then [json()] *)
     rpc (fun _ => tt) ;;;
     swapTransaction <-
       rpc (fun c =>
         Chain.jupiter_swapTransaction c inputMint outputMint amount slippageBps) ;;
     (* Deserialize transaction *)
     thrown <-
       Task.sync (fun w =>
         (if Chain.is_transaction (chain w) swapTransaction then None
          else Some (Chain.transaction_error (chain w) swapTransaction), w)) ;;
     match thrown with
     | None =>
         logger Logger.info "Swap transaction prepared"
           [("inputMint", Logger.VStr (Text.lit inputMint));
            ("outputMint", Logger.VStr (Text.lit outputMint));
            ("amount", Logger.VNum amount)] ;;;
         Task.Ret "PLACEHOLDER_TX_SIGNATURE"
     | Some message => Task.Throw message
     end)
    (fun error =>
       logger Logger.error "Swap execution failed"
         [("error", Logger.VStr (Text.lit error))] ;;;
       Task.Throw error).

(** Burn tokens *)
Definition burnTokens (tokenMint : string) (amount : float) : Task.t string :=
  treasury <- treasuryPubkey ;;
  match treasury with
  | None => Task.Throw "Treasury address not configured"
  | Some treasury =>
    Task.try_catch
      (mintPubkey <- new_PublicKey tokenMint ;;
       rpc (fun c => Chain.getAssociatedTokenAddress c mintPubkey treasury) ;;;
       (* Get recent blockhash *)
       rpc (fun c => Chain.getLatestBlockhash c) ;;;
       logger Logger.info "Burn transaction prepared"
         [("tokenMint", Logger.VStr (Text.lit tokenMint));
          ("amount", Logger.VNum amount)] ;;;
       Task.Ret "PLACEHOLDER_BURN_TX_SIGNATURE")
      (fun error =>
         logger Logger.error "Burn execution failed"
           [("error", Logger.VStr (Text.lit error))] ;;;
         Task.Throw error)
  end.

(** Check transaction status *)
Definition getTransactionStatus (signature : string)
  : Task.t TransactionStatus :=
  Task.try_catch
    (status <- rpc (fun c => Chain.getSignatureStatus c signature) ;;
     match status with
     | Chain.value_null => Task.Ret pending
     | Chain.value_err => Task.Ret failed
     | Chain.value_ok => Task.Ret confirmed
     end)
    (fun error =>
       logger Logger.error "Failed to get transaction status"
         [("error", Logger.VStr (Text.lit error))] ;;;
       Task.Ret pending).

End SolanaClient.

(* ===================================================================== *)
(** * executor/executor *)
(* ===================================================================== *)

Module Executor.

Import Effects.

(** ** [Map<string, PolicyDecision>] *)

Definition Map_get (key : string) (m : Fields.PendingMap)
  : option PolicyDecision.t :=
  match List.find (fun '(k, _) => String.eqb k key) m with
  | Some (_, d) => Some d
  | None => None
  end.

(** [map.set(key, value)]: a key already there keeps its place. *)
Fixpoint Map_set (key : string) (value : PolicyDecision.t)
  (m : Fields.PendingMap) : Fields.PendingMap :=
  match m with
  | [] => [(key, value)]
  | (k, d) :: rest =>
      if String.eqb k key then (k, value) :: rest
      else (k, d) :: Map_set key value rest
  end.

Definition Map_delete (key : string) (m : Fields.PendingMap)
  : Fields.PendingMap :=
  List.filter (fun '(k, _) => negb (String.eqb k key)) m.

Definition pendingExecutions : Task.t Fields.PendingMap :=
  Task.sync (fun w => (Fields.pendingExecutions (executor w), w)).

Definition update_pendingExecutions
  (f : Fields.PendingMap -> Fields.PendingMap) : Task.t unit :=
  Task.sync (fun w =>
    (tt, with_executor
           {| Fields.pendingExecutions := f (Fields.pendingExecutions (executor w));
              Fields.treasuryPubkey := Fields.treasuryPubkey (executor w) |} w)).

(** Create execution result *)
Definition createResult (decision : PolicyDecision.t) (success : bool)
  (error : option Text.t) (txSignature : option string)
  (amountProcessed : option float) : Task.t ExecutionResult.t :=
  stamp <- new_Date ;;
  Task.Ret {| ExecutionResult.timestamp := stamp;
              ExecutionResult.decision := decision;
              ExecutionResult.txSignature := txSignature;
              ExecutionResult.success := success;
              ExecutionResult.amountProcessed := amountProcessed;
              ExecutionResult.error := error |}.

(** Store execution result *)
Definition storeResult (result : ExecutionResult.t) : Task.t unit :=
  Task.try_catch
    (let stamp := ExecutionResult.timestamp result in
     (* Store latest result *)
     redis_publish (fun p =>
       {| Redis.policy_latest := Redis.policy_latest p;
          Redis.policy_history := Redis.policy_history p;
          Redis.policy_timeline := Redis.policy_timeline p;
          Redis.execution_latest := Some result;
          Redis.execution_history := Redis.execution_history p;
          Redis.execution_timeline := Redis.execution_timeline p |}) ;;;
     (* Store in time series *)
     redis_publish (fun p =>
       {| Redis.policy_latest := Redis.policy_latest p;
          Redis.policy_history := Redis.policy_history p;
          Redis.policy_timeline := Redis.policy_timeline p;
          Redis.execution_latest := Redis.execution_latest p;
          Redis.execution_history := <[stamp := result]> (Redis.execution_history p);
          Redis.execution_timeline := Redis.execution_timeline p |}) ;;;
     (* Add to sorted set *)
     redis_publish (fun p =>
       {| Redis.policy_latest := Redis.policy_latest p;
          Redis.policy_history := Redis.policy_history p;
          Redis.policy_timeline := Redis.policy_timeline p;
          Redis.execution_latest := Redis.execution_latest p;
          Redis.execution_history := Redis.execution_history p;
          Redis.execution_timeline := {[ stamp ]} ∪ Redis.execution_timeline p |}))
    (fun error =>
       logger Logger.error "Failed to store execution result"
         [("error", Logger.VStr (Text.lit error))]).

(** [process.env.X || fallback] *)
Definition env_or (v : option string) (fallback : string) : string :=
  match v with
  | Some s => if String.eqb s "" then fallback else s
  | None => fallback
  end.

Section WithConfig.

Variable config : Config.t.

Let policy := Config.policy config.

(** Execute buyback operation *)
Definition executeBuyback (decision : PolicyDecision.t)
  : Task.t ExecutionResult.t :=
  match PolicyDecision.executionParams decision with
  | None =>
      createResult decision false
        (Some (Text.lit "Missing execution parameters")) None None
  | Some params =>
    match ExecutionParams.size params with
    | None =>
        createResult decision false
          (Some (Text.lit "Missing execution parameters")) None None
    | Some size =>
      if negb (Js.truthy size) then
        createResult decision false
          (Some (Text.lit "Missing execution parameters")) None None
      else
      Task.try_catch
        (let maxSlippage := ExecutionParams.maxSlippage params in
         (* Check risk limits *)
         riskCheck <- RiskManager.canExecute policy size ;;
         if negb (RiskManager.allowed riskCheck) then
           createResult decision false
             (Some (match RiskManager.reason riskCheck with
                    | Some ((_ :: _) as r) => r
                    | _ => Text.lit "Risk check failed"
                    end)) None None
         else
         (* Get token mints from environment *)
         let usdcMint :=
           env_or (Config.USDC_MINT (Config.env config))
             "EPjFWdd5AufqSSqeM2qN1xzybapC8G4wEGGkZwyTDt1v" in
         let tokenMint := env_or (Config.TOKEN_MINT (Config.env config)) "" in
         if String.eqb tokenMint "" then
           createResult decision false
             (Some (Text.lit "Token mint not configured")) None None
         else
         (* Execute swap via Jupiter *)
         let slippageBps :=
           (match maxSlippage with
            | Some s => Js.or_else s 2
            | None => 2
            end * 100)%float in
         txSignature <-
           SolanaClient.executeSwap usdcMint tokenMint size slippageBps ;;
         (* Add to pending executions for monitoring *)
         update_pendingExecutions (Map_set txSignature decision) ;;;
         logger Logger.info "Buyback executed"
           [("size", Logger.VNum size);
            ("txSignature", Logger.VStr (Text.lit txSignature))] ;;;
         createResult decision true (Some (Text.lit "Buyback executed"))
           (Some txSignature) (Some size))
        (fun error =>
           logger Logger.error "Buyback failed"
             [("error", Logger.VStr (Text.lit error))] ;;;
           createResult decision false (Some (Text.lit error)) None None)
    end
  end.

(** Execute burn operation *)
Definition executeBurn (decision : PolicyDecision.t)
  : Task.t ExecutionResult.t :=
  if negb (Config.enableBurn (Config.features config)) then
    createResult decision false
      (Some (Text.lit "Burn feature disabled")) None None
  else
  Task.try_catch
    (let tokenMint := env_or (Config.TOKEN_MINT (Config.env config)) "" in
     if String.eqb tokenMint "" then
       createResult decision false
         (Some (Text.lit "Token mint not configured")) None None
     else
     (* Get current token balance *)
     balance <- SolanaClient.getTokenBalance tokenMint ;;
     (* Burn 10% of holdings (configurable) *)
     let burnAmount := (balance * 0.1)%float in
     if Js.strict_eq burnAmount 0 then
       createResult decision false
         (Some (Text.lit "No tokens to burn")) None None
     else
     (* Execute burn *)
     txSignature <- SolanaClient.burnTokens tokenMint burnAmount ;;
     logger Logger.info "Burn executed"
       [("amount", Logger.VNum burnAmount);
        ("txSignature", Logger.VStr (Text.lit txSignature))] ;;;
     createResult decision true (Some (Text.lit "Burn executed"))
       (Some txSignature) (Some burnAmount))
    (fun error =>
       logger Logger.error "Burn failed"
         [("error", Logger.VStr (Text.lit error))] ;;;
       createResult decision false (Some (Text.lit error)) None None).

(** Execute a policy decision *)
Definition execute (decision : PolicyDecision.t) : Task.t ExecutionResult.t :=
  startTime <- new_Date ;;
  Task.try_catch
    ((* Check if auto-execution is enabled *)
     if negb (Config.enableAutoExecution (Config.features config)) then
       logger Logger.info "Auto-execution disabled, skipping"
         [("action", Logger.VStr
                       (Text.lit (DecisionEngine.action_name
                                    (PolicyDecision.action decision))))] ;;;
       createResult decision false
         (Some (Text.lit "Auto-execution disabled")) None None
     else
     (* Execute based on action type *)
     result <-
       match PolicyDecision.action decision with
       | BUYBACK => executeBuyback decision
       | BURN => executeBurn decision
       | HODL_TREASURY
       | NOOP =>
           createResult decision true
             (Some (Text.lit "No action required")) None None
       end ;;
     (* Record execution for risk tracking *)
     RiskManager.recordExecution
       (PolicyDecision.size_or_0 decision) (ExecutionResult.success result) ;;;
     (* Store result *)
     storeResult result ;;;
     finish <- new_Date ;;
     let duration := finish - startTime in
     logger Logger.info "Execution complete"
       [("action", Logger.VStr
                     (Text.lit (DecisionEngine.action_name
                                  (PolicyDecision.action decision))));
        ("success", Logger.VBool (ExecutionResult.success result));
        ("duration", Logger.VInt duration)] ;;;
     Task.Ret result)
    (fun error =>
       logger Logger.error "Execution failed"
         [("error", Logger.VStr (Text.lit error))] ;;;
       createResult decision false (Some (Text.lit error)) None None).

End WithConfig.

(** ** Monitor pending transactions

    One turn of the [for ... of] loop, for the entry under [txSignature].
    The iterator of a Map is live: an entry deleted before its turn is
    skipped, and the value is the one the map holds at that turn. *)
Definition monitor_entry (txSignature : string) : Task.t unit :=
  m <- pendingExecutions ;;
  match Map_get txSignature m with
  | None => Task.Ret tt
  | Some decision =>
    Task.try_catch
      (status <- SolanaClient.getTransactionStatus txSignature ;;
       match status with
       | SolanaClient.confirmed =>
           logger Logger.info "Transaction confirmed"
             [("txSignature", Logger.VStr (Text.lit txSignature))] ;;;
           update_pendingExecutions (Map_delete txSignature)
       | SolanaClient.failed =>
           logger Logger.error "Transaction failed"
             [("txSignature", Logger.VStr (Text.lit txSignature))] ;;;
           update_pendingExecutions (Map_delete txSignature) ;;;
           (* Record as failed execution *)
           RiskManager.recordExecution (PolicyDecision.size_or_0 decision) false
       | SolanaClient.pending => Task.Ret tt
       end)
      (fun error =>
         logger Logger.error "Failed to check transaction status"
           [("error", Logger.VStr (Text.lit error));
            ("txSignature", Logger.VStr (Text.lit txSignature))])
  end.

Fixpoint monitor_entries (keys : list string) : Task.t unit :=
  match keys with
  | [] => Task.Ret tt
  | txSignature :: rest => monitor_entry txSignature ;;; monitor_entries rest
  end.

(** The loop visits the entries the map holds when the loop starts, in
    insertion order.  (An entry added while the loop is suspended at an
    [await] would be visited too: the model is exact for the polls during
    which no entry is added.) *)
Definition monitorPendingTransactions : Task.t unit :=
  m <- pendingExecutions ;;
  monitor_entries (map fst m).

End Executor.

(* ===================================================================== *)
(** * History buffers *)
(* ===================================================================== *)

Module History.

(** [history.push(v)] followed by one [history.shift()] when the length
    has passed [cap]: the pattern of both services that keep a history. *)
Definition bounded_push (cap : nat) (history : list float) (v : float)
  : list float :=
  let pushed := (history ++ [v])%list in
  if (cap <? length pushed)%nat then tl pushed else pushed.

(** The states a DecisionEngine can be in: as constructed, or after one more
    [makeDecision], whatever its arguments, the failures of its requests and
    the other tasks do meanwhile (they have no access to the private
    histories). *)
Inductive engine_reachable : Fields.DecisionEngine -> Prop :=
| engine_created : engine_reachable DecisionEngine.create
| engine_decided policy mood market schedule w :
    engine_reachable (engine w) ->
    Task.undisturbed engine schedule ->
    engine_reachable
      (engine (snd (fst (Task.run (DecisionEngine.makeDecision policy mood market)
                           schedule w)))).

(** The states a SentimentAggregator can be in: as constructed, or after one
    more [aggregate]. *)
Inductive aggregator_reachable : Fields.SentimentAggregator -> Prop :=
| aggregator_created policy :
    aggregator_reachable (SentimentAggregator.create policy)
| aggregator_aggregated tweets schedule w :
    aggregator_reachable (aggregator w) ->
    aggregator_reachable
      (aggregator (snd (fst (Task.run (SentimentAggregator.aggregate tweets)
                               schedule w)))).

End History.

(* ===================================================================== *)
(** * The risk state a world holds *)
(* ===================================================================== *)

(** What the private readers of RiskManager would return in a world, as
    functions of the world. *)
Module RiskState.

Definition killSwitchActive (w : World) : bool :=
  match Redis.kill_switch (Redis.risk (redis w)) with
  | Some s => String.eqb s "active"
  | None => false
  end.

Definition treasuryBalance (w : World) : float :=
  match Redis.treasury_balance (Redis.risk (redis w)) with
  | Some v => v
  | None => 0%float
  end.

(** The spend counter of the current day. *)
Definition dailySpent (w : World) : float :=
  match Redis.get_daily_spent (now w) (day_of (now w)) (Redis.risk (redis w)) with
  | Some v => v
  | None => 0%float
  end.

Definition consecutiveLosses (w : World) : Z :=
  match Redis.consecutive_losses (Redis.risk (redis w)) with
  | Some n => n
  | None => 0
  end.

Definition lastExecutionTime (w : World) : option Date :=
  Redis.last_execution (Redis.risk (redis w)).

End RiskState.

(* ===================================================================== *)
(** * The answers of the risk gate *)
(* ===================================================================== *)

Module Verdict.

(** The answers of the four checks. *)
Definition rejected_kill_switch : RiskManager.RiskCheck :=
  {| RiskManager.allowed := false; RiskManager.reason := Some (Text.lit "Kill switch is active") |}.

Definition rejected_reserve (minReserve : float) : RiskManager.RiskCheck :=
  {| RiskManager.allowed := false;
     RiskManager.reason := Some [Text.Lit "Insufficient treasury balance (min reserve: ";
                     Text.Num minReserve; Text.Lit ")"] |}.

Definition rejected_daily_limit (dailySpent maxDailySpend : float) : RiskManager.RiskCheck :=
  {| RiskManager.allowed := false;
     RiskManager.reason := Some [Text.Lit "Daily spend limit exceeded (";
                     Text.Fixed dailySpent 2; Text.Lit "/";
                     Text.Fixed maxDailySpend 2; Text.Lit ")"] |}.

Definition rejected_losses (consecutiveLosses : Z) : RiskManager.RiskCheck :=
  {| RiskManager.allowed := false;
     RiskManager.reason := Some [Text.Lit "Too many consecutive losses (";
                     Text.Int consecutiveLosses; Text.Lit ")"] |}.

Definition permitted : RiskManager.RiskCheck := {| RiskManager.allowed := true; RiskManager.reason := None |}.

(** What [canExecute(amount)] answers in [w] when it runs alone (see
    [RiskManagerFacts.exec_canExecute]). *)
Definition gate (policy : Config.Policy) (amount : float) (w : World)
  : RiskManager.RiskCheck :=
  let treasuryBalance := RiskState.treasuryBalance w in
  let minReserve :=
    (treasuryBalance * Config.minTreasuryThreshold policy)%float in
  let maxDailySpend :=
    (treasuryBalance * (Config.maxDailySpendPercent policy / 100))%float in
  if RiskState.killSwitchActive w then rejected_kill_switch
  else if Js.lt (treasuryBalance - amount)%float minReserve
  then rejected_reserve minReserve
  else if Js.gt (RiskState.dailySpent w + amount)%float maxDailySpend
  then rejected_daily_limit (RiskState.dailySpent w) maxDailySpend
  else if RiskState.consecutiveLosses w >=? Config.maxConsecutiveLosses policy
  then rejected_losses (RiskState.consecutiveLosses w)
  else permitted.

(** The three checks that come before the loss count all pass for
    [amount] in [w]. *)
Definition reaches_loss_check (policy : Config.Policy) (amount : float)
  (w : World) : bool :=
  let treasuryBalance := RiskState.treasuryBalance w in
  negb (RiskState.killSwitchActive w)
  && negb (Js.lt (treasuryBalance - amount)%float
             (treasuryBalance * Config.minTreasuryThreshold policy)%float)
  && negb (Js.gt (RiskState.dailySpent w + amount)%float
             (treasuryBalance * (Config.maxDailySpendPercent policy / 100))%float).

End Verdict.

(* ===================================================================== *)
(** * What a poll sees and writes *)
(* ===================================================================== *)

Module Tracking.

(** The answer of [getTransactionStatus(signature)] in a world. *)
Definition status (w : World) (signature : string)
  : SolanaClient.TransactionStatus :=
  match Chain.getSignatureStatus (chain w) signature with
  | Chain.value_null => SolanaClient.pending
  | Chain.value_err => SolanaClient.failed
  | Chain.value_ok => SolanaClient.confirmed
  end.

Definition is_pending (w : World) (signature : string) : bool :=
  match status w signature with
  | SolanaClient.pending => true
  | _ => false
  end.

Definition is_failed (w : World) (signature : string) : bool :=
  match status w signature with
  | SolanaClient.failed => true
  | _ => false
  end.

(** The log line of [recordExecution(amount, success)] when it succeeds. *)
Definition recorded (amount : float) (success : bool) : Logger.Entry :=
  {| Logger.level := Logger.info;
     Logger.message := "Execution recorded";
     Logger.context := [("amount", Logger.VNum amount);
                        ("success", Logger.VBool success)] |}.

Definition transaction_confirmed (txSignature : string) : Logger.Entry :=
  {| Logger.level := Logger.info;
     Logger.message := "Transaction confirmed";
     Logger.context := [("txSignature", Logger.VStr (Text.lit txSignature))] |}.

Definition transaction_failed (txSignature : string) : Logger.Entry :=
  {| Logger.level := Logger.error;
     Logger.message := "Transaction failed";
     Logger.context := [("txSignature", Logger.VStr (Text.lit txSignature))] |}.

(** The calls of [recordExecution] a stretch of the log shows. *)
Definition recordings (entries : list Logger.Entry) : list Logger.Entry :=
  List.filter (Logger.is_message "Execution recorded") entries.

(** The world with [txSignature] taken out of the active set. *)
Definition untracked (txSignature : string) (w : World) : World :=
  with_executor
    {| Fields.pendingExecutions :=
         Executor.Map_delete txSignature (Fields.pendingExecutions (executor w));
       Fields.treasuryPubkey := Fields.treasuryPubkey (executor w) |} w.

Definition logged (entry : Logger.Entry) (w : World) : World :=
  with_log (fun l => (l ++ [entry])%list) w.

End Tracking.


(* ===================================================================== *)
(** * The specification's reading of the gate *)
(* ===================================================================== *)

(** Section 4.3 of the specification says of [canExecute]: "Each check reads
    treasuryBalance fresh (never cached across checks within a call)".
    [canExecute_fresh] follows these words: it is [RiskManager.canExecute]
    with the daily-limit check computed from the balance the store holds
    when that check runs, instead of the local constant of the reserve
    check.  It is compared with the source's [canExecute] below. *)
Module SpecReading.

Import Effects.

(** The balance in the store at this very moment. *)
Definition current_balance : Task.t float :=
  Task.sync (fun w => (RiskState.treasuryBalance w, w)).

Definition canExecute_fresh (policy : Config.Policy) (amount : float)
  : Task.t RiskManager.RiskCheck :=
  Task.try_catch
    (killSwitch <- RiskManager.isKillSwitchActive ;;
     if killSwitch : bool then Task.Ret Verdict.rejected_kill_switch
     else
     treasuryBalance <- RiskManager.getTreasuryBalance ;;
     let minReserve :=
       (treasuryBalance * Config.minTreasuryThreshold policy)%float in
     if Js.lt (treasuryBalance - amount)%float minReserve then
       Task.Ret (Verdict.rejected_reserve minReserve)
     else
     dailySpent <- RiskManager.getDailySpent ;;
     treasuryBalance <- current_balance ;;
     let maxDailySpend :=
       (treasuryBalance * (Config.maxDailySpendPercent policy / 100))%float in
     if Js.gt (dailySpent + amount)%float maxDailySpend then
       Task.Ret (Verdict.rejected_daily_limit dailySpent maxDailySpend)
     else
     consecutiveLosses <- RiskManager.getConsecutiveLosses ;;
     if consecutiveLosses >=? Config.maxConsecutiveLosses policy then
       Task.Ret (Verdict.rejected_losses consecutiveLosses)
     else
     Task.Ret Verdict.permitted)
    (fun error =>
       logger Logger.error "Risk check failed"
         [("error", Logger.VStr (Text.lit error))] ;;;
       Task.Ret {| RiskManager.allowed := false;
                   RiskManager.reason := Some (Text.lit "Risk check error") |}).

End SpecReading.

(* ===================================================================== *)
(** * Sample worlds *)
(* ===================================================================== *)

(** Concrete worlds and configurations on which the statements below are
    evaluated. *)
Module Sample.

(** A chain on which nothing has been submitted and every call answers. *)
Definition quiet_chain : Chain.t := {|
  Chain.getSignatureStatus := fun _ => Chain.value_null;
  Chain.is_public_key := fun _ => true;
  Chain.getAssociatedTokenAddress := fun mint owner => mint;
  Chain.getTokenAccountBalance := fun _ => Some 0%float;
  Chain.getLatestBlockhash := "blockhash";
  Chain.jupiter_swapTransaction := fun _ _ _ _ => "swap";
  Chain.is_transaction := fun _ => true;
  Chain.transaction_error := fun _ => "invalid transaction";
|}.

(** The services just started, on an empty store, at 2024-01-01T00:00:00Z. *)
Definition fresh : World := {|
  redis := Redis.empty;
  now := 1704067200000;
  log := [];
  chain := quiet_chain;
  aggregator := SentimentAggregator.create Config.default_policy;
  engine := DecisionEngine.create;
  executor := {| Fields.pendingExecutions := [];
                 Fields.treasuryPubkey := Some "treasury" |};
|}.

(** A mood with the given z-score and EMAs (no samples behind it). *)
Definition mood (zScore ema15 ema60 : float) : AggregatedMood.t := {|
  AggregatedMood.timestamp := 1704067200000;
  AggregatedMood.rawScore := 0;
  AggregatedMood.zScore := zScore;
  AggregatedMood.ema5 := 0;
  AggregatedMood.ema15 := ema15;
  AggregatedMood.ema60 := ema60;
  AggregatedMood.volume := 0;
  AggregatedMood.topicBreakdown :=
    {| TopicBreakdown.ourCoin := 0; TopicBreakdown.generalMarket := 0 |};
|}.

(** A market snapshot with the given momentum and liquidity. *)
Definition market (momentum liquidity : float) : MarketSignal.t := {|
  MarketSignal.timestamp := 1704067200000;
  MarketSignal.price := 1;
  MarketSignal.priceChange24h := 0;
  MarketSignal.volume24h := 0;
  MarketSignal.liquidity := liquidity;
  MarketSignal.momentum := momentum;
  MarketSignal.largeTransfers := 0;
|}.

(** [fresh] after [updateTreasuryBalance(balance)]. *)
Definition funded (balance : float) : World :=
  Task.after (RiskManager.updateTreasuryBalance balance) fresh.

(** The shipped policy with the daily budget lifted to the whole treasury,
    so that the reserve check is the one that decides. *)
Definition generous_policy : Config.Policy := {|
  Config.hypeThreshold := Config.hypeThreshold Config.default_policy;
  Config.fudThreshold := Config.fudThreshold Config.default_policy;
  Config.momentumPositive := Config.momentumPositive Config.default_policy;
  Config.momentumNegative := Config.momentumNegative Config.default_policy;
  Config.emaShort := Config.emaShort Config.default_policy;
  Config.emaMedium := Config.emaMedium Config.default_policy;
  Config.emaLong := Config.emaLong Config.default_policy;
  Config.maxDailySpendPercent := 100;
  Config.maxSlippagePercent := Config.maxSlippagePercent Config.default_policy;
  Config.minTreasuryThreshold := Config.minTreasuryThreshold Config.default_policy;
  Config.maxConsecutiveLosses := Config.maxConsecutiveLosses Config.default_policy;
|}.

(** A buyback decision of the given size. *)
Definition buyback (size : float) : PolicyDecision.t := {|
  PolicyDecision.timestamp := 1704067200000;
  PolicyDecision.action := BUYBACK;
  PolicyDecision.reason := Text.lit "sample";
  PolicyDecision.signals :=
    {| Signals.moodZScore := -1.5; Signals.priceMomentum := -0.01;
       Signals.liquidityOk := true |};
  PolicyDecision.executionParams :=
    Some {| ExecutionParams.size := Some size;
            ExecutionParams.maxSlippage := Some 2%float;
            ExecutionParams.dcaFactor := Some 0.5%float |};
|}.

(** A decision without execution parameters. *)
Definition plain (action : Action) : PolicyDecision.t := {|
  PolicyDecision.timestamp := 1704067200000;
  PolicyDecision.action := action;
  PolicyDecision.reason := Text.lit "sample";
  PolicyDecision.signals :=
    {| Signals.moodZScore := 0; Signals.priceMomentum := 0;
       Signals.liquidityOk := true |};
  PolicyDecision.executionParams := None;
|}.

(** Three transactions under watch: the chain reports an error for [sigA],
    knows nothing yet of [sigB], and has confirmed [sigC]. *)
Definition tracking : World :=
  with_chain
    {| Chain.getSignatureStatus := fun signature =>
         if String.eqb signature "sigA" then Chain.value_err
         else if String.eqb signature "sigC" then Chain.value_ok
         else Chain.value_null;
       Chain.is_public_key := Chain.is_public_key quiet_chain;
       Chain.getAssociatedTokenAddress :=
         Chain.getAssociatedTokenAddress quiet_chain;
       Chain.getTokenAccountBalance := Chain.getTokenAccountBalance quiet_chain;
       Chain.getLatestBlockhash := Chain.getLatestBlockhash quiet_chain;
       Chain.jupiter_swapTransaction := Chain.jupiter_swapTransaction quiet_chain;
       Chain.is_transaction := Chain.is_transaction quiet_chain;
       Chain.transaction_error := Chain.transaction_error quiet_chain |}
    (with_executor
       {| Fields.pendingExecutions :=
            Executor.Map_set "sigC" (buyback 30)
              (Executor.Map_set "sigB" (buyback 20)
                 (Executor.Map_set "sigA" (buyback 10) []));
          Fields.treasuryPubkey := Some "treasury" |}
       (funded 1000)).

(** Nothing happens at this [await]. *)
Definition calm : Task.Slot :=
  {| Task.interference := fun w => w; Task.failure := None |}.

(** By the time this request is served the treasury monitor has stored a
    new balance. *)
Definition balance_becomes (balance : float) : Task.Slot :=
  {| Task.interference := Task.after (RiskManager.updateTreasuryBalance balance);
     Task.failure := None |}.

(** The balance drops to 10 between the read of the balance and the read of
    the daily spend. *)
Definition balance_drop : list Task.Slot :=
  [calm; calm; balance_becomes 10; calm].

(** Auto-execution on, burning off, no token configured. *)
Definition auto_config : Config.t := {|
  Config.policy := Config.default_policy;
  Config.features := {| Config.enableAutoExecution := true;
                        Config.enableBurn := false;
                        Config.enableKillSwitch := true |};
  Config.env := {| Config.USDC_MINT := None; Config.TOKEN_MINT := None;
                   Config.TREASURY_ADDRESS := Some "treasury" |};
|}.

(** [funded balance] after [activateKillSwitch(reason)]. *)
Definition halted (balance : float) (reason : string) : World :=
  Task.after (RiskManager.activateKillSwitch reason) (funded balance).

End Sample.


(* ===================================================================== *)
(** * What JSON.parse reads in a stored decision *)
(* ===================================================================== *)

(** [storeDecision] writes [JSON.stringify(decision)], and the readers of
    [policy:latest] apply [JSON.parse] to the text.  [Redis.policy_latest]
    keeps the decision that was written; what a reader gets is the object
    below.  The [Date] comes back as the string [toISOString] made of it, a
    number that is NaN or infinite as [null], [-0] as [0], every other
    number, the strings and the booleans as they were, and a key whose
    value was [undefined] is absent. *)

Module IsoString.

(** The text [toISOString] makes of an instant. *)
Inductive t := toISOString (instant : Date).

(** [new Date(text).getTime()] *)
Definition getTime (text : t) : Z :=
  match text with toISOString instant => instant end.

End IsoString.

Module ParsedSignals.
(** [None] is [null] *)
Record t := {
  moodZScore : option float;
  priceMomentum : option float;
  liquidityOk : bool;
}.
End ParsedSignals.

Module ParsedExecutionParams.
(** [None] is a key that is absent, [Some None] a key that holds [null] *)
Record t := {
  size : option (option float);
  maxSlippage : option (option float);
  dcaFactor : option (option float);
}.
End ParsedExecutionParams.

Module ParsedDecision.
Record t := {
  timestamp : IsoString.t;
  action : Action;
  reason : Text.t;
  signals : ParsedSignals.t;
  executionParams : option ParsedExecutionParams.t;
}.
End ParsedDecision.

Module Json.

(** A number, written and read back. *)
Definition number (x : float) : option float :=
  if Js.isNaN x || PrimFloat.is_infinity x then None
  else Some (Js.print_parse x).

(** An optional number, written and read back. *)
Definition optional (x : option float) : option (option float) :=
  match x with
  | Some v => Some (number v)
  | None => None
  end.

(** [JSON.parse(JSON.stringify(decision))] *)
Definition parse_stringify (decision : PolicyDecision.t) : ParsedDecision.t :=
  {| ParsedDecision.timestamp :=
       IsoString.toISOString (PolicyDecision.timestamp decision);
     ParsedDecision.action := PolicyDecision.action decision;
     ParsedDecision.reason := PolicyDecision.reason decision;
     ParsedDecision.signals :=
       let signals := PolicyDecision.signals decision in
       {| ParsedSignals.moodZScore := number (Signals.moodZScore signals);
          ParsedSignals.priceMomentum := number (Signals.priceMomentum signals);
          ParsedSignals.liquidityOk := Signals.liquidityOk signals |};
     ParsedDecision.executionParams :=
       match PolicyDecision.executionParams decision with
       | Some params =>
           Some {| ParsedExecutionParams.size :=
                     optional (ExecutionParams.size params);
                   ParsedExecutionParams.maxSlippage :=
                     optional (ExecutionParams.maxSlippage params);
                   ParsedExecutionParams.dcaFactor :=
                     optional (ExecutionParams.dcaFactor params) |}
       | None => None
       end |}.

(** The parsed object where the executor expects a [PolicyDecision].  The
    executor reads [action], reads the numbers of [executionParams] through
    [!x] and [x || d] only, where [null] does what NaN does, keeps the
    object in its results and writes it with [JSON.stringify], which makes
    [null] of NaN again.  The timestamp, which it does not read, stands for
    its string. *)
Definition or_NaN (x : option float) : float :=
  match x with
  | Some v => v
  | None => PrimFloat.nan
  end.

Definition optional_or_NaN (x : option (option float)) : option float :=
  match x with
  | Some v => Some (or_NaN v)
  | None => None
  end.

Definition as_decision (parsed : ParsedDecision.t) : PolicyDecision.t :=
  {| PolicyDecision.timestamp :=
       IsoString.getTime (ParsedDecision.timestamp parsed);
     PolicyDecision.action := ParsedDecision.action parsed;
     PolicyDecision.reason := ParsedDecision.reason parsed;
     PolicyDecision.signals :=
       let signals := ParsedDecision.signals parsed in
       {| Signals.moodZScore := or_NaN (ParsedSignals.moodZScore signals);
          Signals.priceMomentum := or_NaN (ParsedSignals.priceMomentum signals);
          Signals.liquidityOk := ParsedSignals.liquidityOk signals |};
     PolicyDecision.executionParams :=
       match ParsedDecision.executionParams parsed with
       | Some params =>
           Some {| ExecutionParams.size :=
                     optional_or_NaN (ParsedExecutionParams.size params);
                   ExecutionParams.maxSlippage :=
                     optional_or_NaN (ParsedExecutionParams.maxSlippage params);
                   ExecutionParams.dcaFactor :=
                     optional_or_NaN (ParsedExecutionParams.dcaFactor params) |}
       | None => None
       end |}.

End Json.

(* ===================================================================== *)
(** * executor/worker: one turn of the main loop *)
(* ===================================================================== *)

(** [ExecutorWorker.start] is a [while] loop; [turn] is its body up to the
    [sleep] that ends every path.  The private field
    [lastProcessedTimestamp], which nothing else reads or writes, is passed
    in and returned. *)
Module ExecutorWorker.

Import Effects.

Section WithConfig.

Variable config : Config.t.

Definition turn (lastProcessedTimestamp : Z) : Task.t Z :=
  Task.try_catch
    ((* Get latest policy decision *)
     decisionData <-
       Task.await (fun w =>
         (Redis.policy_latest (Redis.published (redis w)), w)) ;;
     match decisionData with
     | None =>
         logger Logger.debug "No policy decision available" [] ;;;
         Task.Ret lastProcessedTimestamp
     | Some stringified =>
       let decision := Json.parse_stringify stringified in
       (* Check if we've already processed this decision *)
       let decisionTimestamp :=
         IsoString.getTime (ParsedDecision.timestamp decision) in
       if decisionTimestamp <=? lastProcessedTimestamp then
         Task.Ret lastProcessedTimestamp
       else
       (* Execute decision *)
       (match ParsedDecision.action decision with
        | NOOP | HODL_TREASURY => Task.Ret tt
        | BUYBACK | BURN =>
            logger Logger.info "Executing decision"
              [("action", Logger.VStr
                            (Text.lit (DecisionEngine.action_name
                                         (ParsedDecision.action decision))))] ;;;
            Executor.execute config (Json.as_decision decision) ;;;
            Task.Ret tt
        end) ;;;
       (* Update last processed timestamp *)
       Task.Ret decisionTimestamp
     end)
    (fun error =>
       logger Logger.error "Executor processing error"
         [("error", Logger.VStr (Text.lit error))] ;;;
       Task.Ret lastProcessedTimestamp).

End WithConfig.

End ExecutorWorker.

(* ===================================================================== *)
(** * policy/decision-engine: reading the latest decision *)
(* ===================================================================== *)

Module DecisionQueries.

Import Effects.

(** Get latest decision *)
Definition getLatestDecision : Task.t (option ParsedDecision.t) :=
  Task.try_catch
    (data <-
       Task.await (fun w =>
         (Redis.policy_latest (Redis.published (redis w)), w)) ;;
     Task.Ret (match data with
               | Some stringified => Some (Json.parse_stringify stringified)
               | None => None
               end))
    (fun error =>
       logger Logger.error "Failed to get latest decision"
         [("error", Logger.VStr (Text.lit error))] ;;;
       Task.Ret None).

End DecisionQueries.

(* ===================================================================== *)
(** * The tweets that name the coin *)
(* ===================================================================== *)

Module Topics.

(** The lowercased text contains "yourcoin". *)
Definition mentions_coin (tweet : ProcessedTweet.t) : bool :=
  SentimentAggregator.includes
    (SentimentAggregator.toLowerCase (ProcessedTweet.text tweet)) "yourcoin".

End Topics.

(* ===================================================================== *)
(** * The results of an execution *)
(* ===================================================================== *)

Module Results.

(** The result [createResult] builds at time [stamp] for a failure. *)
Definition failure_at (stamp : Date) (decision : PolicyDecision.t)
  (error : Text.t) : ExecutionResult.t :=
  {| ExecutionResult.timestamp := stamp;
     ExecutionResult.decision := decision;
     ExecutionResult.txSignature := None;
     ExecutionResult.success := false;
     ExecutionResult.amountProcessed := None;
     ExecutionResult.error := Some error |}.

(** The result [createResult] builds at time [stamp] for a success. *)
Definition success_at (stamp : Date) (decision : PolicyDecision.t)
  (note : string) (txSignature : option string) (amount : option float)
  : ExecutionResult.t :=
  {| ExecutionResult.timestamp := stamp;
     ExecutionResult.decision := decision;
     ExecutionResult.txSignature := txSignature;
     ExecutionResult.success := true;
     ExecutionResult.amountProcessed := amount;
     ExecutionResult.error := Some (Text.lit note) |}.

(** [riskCheck.reason || "Risk check failed"] *)
Definition refusal (riskCheck : RiskManager.RiskCheck) : Text.t :=
  match RiskManager.reason riskCheck with
  | Some ((_ :: _) as r) => r
  | _ => Text.lit "Risk check failed"
  end.

End Results.

(* ===================================================================== *)
(** * The published keys *)
(* ===================================================================== *)

Module Stored.

(** What the three writes of [storeDecision(decision)] make of the
    published keys. *)
Definition publish (decision : PolicyDecision.t) (p : Redis.Published)
  : Redis.Published :=
  let stamp := PolicyDecision.timestamp decision in
  {| Redis.policy_latest := Some decision;
     Redis.policy_history := <[stamp := decision]> (Redis.policy_history p);
     Redis.policy_timeline := {[ stamp ]} ∪ Redis.policy_timeline p;
     Redis.execution_latest := Redis.execution_latest p;
     Redis.execution_history := Redis.execution_history p;
     Redis.execution_timeline := Redis.execution_timeline p |}.

(** What the three writes of [storeResult(result)] make of the published
    keys. *)
Definition publish_result (result : ExecutionResult.t) (p : Redis.Published)
  : Redis.Published :=
  let stamp := ExecutionResult.timestamp result in
  {| Redis.policy_latest := Redis.policy_latest p;
     Redis.policy_history := Redis.policy_history p;
     Redis.policy_timeline := Redis.policy_timeline p;
     Redis.execution_latest := Some result;
     Redis.execution_history := <[stamp := result]> (Redis.execution_history p);
     Redis.execution_timeline := {[ stamp ]} ∪ Redis.execution_timeline p |}.

End Stored.

(* ===================================================================== *)
(** * More sample configurations *)
(* ===================================================================== *)

Module Scenario.

(** Auto-execution and burning on, a token configured. *)
Definition trading_config : Config.t := {|
  Config.policy := Config.default_policy;
  Config.features := {| Config.enableAutoExecution := true;
                        Config.enableBurn := true;
                        Config.enableKillSwitch := true |};
  Config.env := {| Config.USDC_MINT := None; Config.TOKEN_MINT := Some "TOKEN";
                   Config.TREASURY_ADDRESS := Some "treasury" |};
|}.

(** Auto-execution off. *)
Definition manual_config : Config.t := {|
  Config.policy := Config.default_policy;
  Config.features := {| Config.enableAutoExecution := false;
                        Config.enableBurn := true;
                        Config.enableKillSwitch := true |};
  Config.env := Config.env trading_config;
|}.

(** The world in which [decision] is the latest stored decision. *)
Definition decided (decision : PolicyDecision.t) (w : World) : World :=
  Task.after (DecisionEngine.storeDecision decision) w.

(** The request fails with this message. *)
Definition broken (message : string) : Task.Slot :=
  {| Task.interference := fun w => w; Task.failure := Some message |}.

End Scenario.


(* ===================================================================== *)
(** * Numbers that count as missing *)
(* ===================================================================== *)

Module Numbers.

(** [x] is a zero or NaN: a number that [!x] takes for missing. *)
Definition blank (x : float) : bool :=
  match Prim2SF x with
  | S754_zero _ | S754_nan => true
  | _ => false
  end.

End Numbers.


(* ===================================================================== *)
(** * Facts about binary64 comparisons *)
(* ===================================================================== *)

Module FloatFacts.

Lemma SFcompare_Lt_swap (x y : spec_float) :
  SFcompare x y = Some Lt -> SFcompare y x = Some Gt.
Proof.
  destruct x as [sx|sx| |sx mx ex], y as [sy|sy| |sy my ey]; simpl;
    try discriminate;
    try (destruct sx; discriminate);
    try (destruct sy; discriminate);
    try (destruct sx, sy; (discriminate || reflexivity)).
  destruct sx, sy; try discriminate; try reflexivity.
  all: rewrite (Z.compare_antisym ey ex).
  all: destruct (ey ?= ex)%Z; simpl; try discriminate; try reflexivity.
  all: change (PosDef.Pos.compare_cont Eq) with Pos.compare.
  all: rewrite (Pos.compare_antisym my mx).
  all: destruct (my ?= mx)%positive; simpl; intros; try discriminate; reflexivity.
Qed.

Lemma SFcompare_Eq_swap (x y : spec_float) :
  SFcompare x y = Some Eq -> SFcompare y x = Some Eq.
Proof.
  destruct x as [sx|sx| |sx mx ex], y as [sy|sy| |sy my ey]; simpl;
    try discriminate; try reflexivity;
    try (destruct sx; discriminate);
    try (destruct sy; discriminate);
    try (destruct sx, sy; (discriminate || reflexivity)).
  destruct sx, sy; try discriminate; try reflexivity.
  all: rewrite (Z.compare_antisym ey ex).
  all: destruct (ey ?= ex)%Z; simpl; try discriminate; try reflexivity.
  all: change (PosDef.Pos.compare_cont Eq) with Pos.compare.
  all: rewrite (Pos.compare_antisym my mx).
  all: destruct (my ?= mx)%positive; simpl; intros; try discriminate; reflexivity.
Qed.

(** [a < b] excludes [b < a]. *)
Lemma ltb_asym (a b : float) :
  PrimFloat.ltb a b = true -> PrimFloat.ltb b a = false.
Proof.
  rewrite !FloatAxioms.ltb_spec. unfold SFltb. intros H.
  destruct (SFcompare (Prim2SF a) (Prim2SF b)) as [[]|] eqn:E; try discriminate.
  now rewrite (SFcompare_Lt_swap _ _ E).
Qed.

(** [a === b] excludes [a < b] and [b < a]. *)
Lemma eqb_not_ltb (a b : float) :
  PrimFloat.eqb a b = true ->
  PrimFloat.ltb a b = false /\ PrimFloat.ltb b a = false.
Proof.
  rewrite FloatAxioms.eqb_spec, !FloatAxioms.ltb_spec. unfold SFeqb, SFltb.
  intros H.
  destruct (SFcompare (Prim2SF a) (Prim2SF b)) as [[]|] eqn:E; try discriminate.
  now rewrite (SFcompare_Eq_swap _ _ E).
Qed.

End FloatFacts.

(* ===================================================================== *)
(** * Running tasks: the equations of the interpreter *)
(* ===================================================================== *)

Module TaskFacts.

Import Task.

Lemma run_bind {A B} (m : t A) (f : A -> t B) schedule w :
  run (bind m f) schedule w =
  match run m schedule w with
  | (Returned a, w', rest) => run (f a) rest w'
  | (Thrown e, w', rest) => (Thrown e, w', rest)
  end.
Proof.
  revert schedule w.
  induction m as [a|e|X op k IH|X op k IH]; intros schedule w; simpl.
  - reflexivity.
  - reflexivity.
  - destruct (op w) as [x w']. apply IH.
  - destruct schedule as [|slot rest].
    + destruct (op w) as [x w']. apply IH.
    + destruct (failure slot).
      * apply IH.
      * destruct (op (interference slot w)) as [x w']. apply IH.
Qed.

Lemma run_try_catch {A} (m : t A) (h : string -> t A) schedule w :
  run (try_catch m h) schedule w =
  match run m schedule w with
  | (Returned a, w', rest) => (Returned a, w', rest)
  | (Thrown e, w', rest) => run (h e) rest w'
  end.
Proof.
  revert schedule w.
  induction m as [a|e|X op k IH|X op k IH]; intros schedule w; simpl.
  - reflexivity.
  - reflexivity.
  - destruct (op w) as [x w']. apply IH.
  - destruct schedule as [|slot rest].
    + destruct (op w) as [x w']. apply IH.
    + destruct (failure slot).
      * apply IH.
      * destruct (op (interference slot w)) as [x w']. apply IH.
Qed.

(** Run alone, a task leaves the schedule empty. *)
Lemma run_alone {A} (m : t A) w : snd (run m [] w) = [].
Proof.
  revert w.
  induction m as [a|e|X op k IH|X op k IH]; intros w; simpl; auto.
  - destruct (op w) as [x w']. apply IH.
  - destruct (op w) as [x w']. apply IH.
Qed.

Lemma run_exec {A} (m : t A) w : run m [] w = (exec m w, []).
Proof.
  unfold exec. pose proof (run_alone m w) as H.
  destruct (run m [] w) as [[o w'] rest]. simpl in *. now subst.
Qed.

Lemma exec_bind {A B} (m : t A) (f : A -> t B) w :
  exec (bind m f) w =
  match exec m w with
  | (Returned a, w') => exec (f a) w'
  | (Thrown e, w') => (Thrown e, w')
  end.
Proof.
  unfold exec at 1. rewrite run_bind, run_exec.
  destruct (exec m w) as [[a|e] w']; reflexivity.
Qed.

Lemma exec_try_catch {A} (m : t A) (h : string -> t A) w :
  exec (try_catch m h) w =
  match exec m w with
  | (Returned a, w') => (Returned a, w')
  | (Thrown e, w') => exec (h e) w'
  end.
Proof.
  unfold exec at 1. rewrite run_try_catch, run_exec.
  destruct (exec m w) as [[a|e] w']; reflexivity.
Qed.

(** ** Frames *)

Section Frame.

Context {X : Type} (f : World -> X).

Lemma keeps_bind {A B} (m : t A) (g : A -> t B) :
  keeps f m -> (forall a, keeps f (g a)) -> keeps f (bind m g).
Proof.
  intros Hm Hg.
  induction m as [a|e|Y op k IH|Y op k IH]; simpl in *; auto.
  - destruct Hm as [Hop Hk]. split; auto.
  - destruct Hm as [Hop Hk]. split; auto.
Qed.

Lemma keeps_try_catch {A} (m : t A) (h : string -> t A) :
  keeps f m -> (forall e, keeps f (h e)) -> keeps f (try_catch m h).
Proof.
  intros Hm Hh.
  induction m as [a|e|Y op k IH|Y op k IH]; simpl in *; auto.
  - destruct Hm as [Hop Hk]. split; auto.
  - destruct Hm as [Hop Hk]. split; auto.
Qed.

(** A task that keeps [f], run under a schedule that does not disturb [f],
    ends in a world with the same [f]. *)
Lemma run_keeps {A} (m : t A) schedule w :
  keeps f m -> undisturbed f schedule ->
  f (snd (fst (run m schedule w))) = f w.
Proof.
  revert schedule w.
  induction m as [a|e|Y op k IH|Y op k IH]; intros schedule w Hm Hs; simpl.
  - reflexivity.
  - reflexivity.
  - destruct Hm as [Hop Hk]. specialize (Hop w).
    destruct (op w) as [x w']. simpl in Hop.
    rewrite IH; auto.
  - destruct Hm as [Hop Hk].
    destruct schedule as [|slot rest].
    + specialize (Hop w). destruct (op w) as [x w']. simpl in Hop.
      rewrite IH; auto.
    + inversion Hs as [|? ? Hslot Hrest]; subst.
      destruct (failure slot).
      * rewrite IH; auto.
      * specialize (Hop (interference slot w)).
        destruct (op (interference slot w)) as [x w']. simpl in Hop.
        rewrite IH; auto. now rewrite Hop.
Qed.

(** What is left of an undisturbing schedule does not disturb either. *)
Lemma run_rest_undisturbed {A} (m : t A) schedule w :
  undisturbed f schedule -> undisturbed f (snd (run m schedule w)).
Proof.
  revert schedule w.
  induction m as [a|e|Y op k IH|Y op k IH]; intros schedule w Hs; simpl; auto.
  - destruct (op w) as [x w']. auto.
  - destruct schedule as [|slot rest].
    + destruct (op w) as [x w']. auto.
    + inversion Hs as [|? ? Hslot Hrest]; subst.
      destruct (failure slot); [auto|].
      destruct (op (interference slot w)) as [x w']. auto.
Qed.

Lemma after_keeps {A} (m : t A) w : keeps f m -> f (after m w) = f w.
Proof.
  intros Hm. unfold after, exec.
  apply (run_keeps m [] w Hm). constructor.
Qed.

End Frame.

Lemma run_synchronous {A} (m : t A) schedule w :
  synchronous m -> run m schedule w = (exec m w, schedule).
Proof.
  revert w. induction m as [a|e|Y op k IH|Y op k IH]; intros w Hm.
  - reflexivity.
  - reflexivity.
  - unfold exec. simpl. destruct (op w) as [x w'].
    rewrite IH by apply Hm. reflexivity.
  - destruct Hm.
Qed.

(** Proves [keeps f m] for a task built from the primitive effects. *)
Ltac keeps_step :=
  match goal with
  | |- True => exact I
  | |- _ /\ _ => split
  | |- forall _, _ => intro
  | |- @eq _ _ _ => reflexivity
  | |- keeps _ (bind _ _) => apply keeps_bind
  | |- keeps _ (try_catch _ _) => apply keeps_try_catch
  | |- keeps _ (if ?c then _ else _) => destruct c
  | |- keeps _ (match ?x with _ => _ end) => destruct x
  | |- keeps _ (let (_, _) := ?x in _) => destruct x
  | |- keeps _ _ => progress cbn
  end.

Ltac keeps_tac := repeat keeps_step.

End TaskFacts.

(* ===================================================================== *)
(** * lib/utils/math: z-score and crossover *)
(* ===================================================================== *)

Module MathUtilsFacts.

Import MathUtils.

(** C9. [calculateZScore(value, mean, 0)] is 0 for every value and mean (for
    [+0] and for [-0]), a finite number that is not NaN; for a standard
    deviation that is not [=== 0] the result is [(value - mean) / stdDev]. *)
Theorem calculateZScore_guard (value mean : float) :
  calculateZScore value mean 0 = 0%float /\
  calculateZScore value mean (-0) = 0%float /\
  Js.isNaN (calculateZScore value mean 0) = false /\
  PrimFloat.is_infinity (calculateZScore value mean 0) = false /\
  (forall stdDev, Js.strict_eq stdDev 0 = true ->
     calculateZScore value mean stdDev = 0%float) /\
  (forall stdDev, Js.strict_eq stdDev 0 = false ->
     calculateZScore value mean stdDev = ((value - mean) / stdDev)%float).
Proof.
  repeat split; try reflexivity.
  - intros stdDev H. unfold calculateZScore. now rewrite H.
  - intros stdDev H. unfold calculateZScore. now rewrite H.
Qed.

Lemma calculateZScore_guard_witness :
  calculateZScore 3 1 4 = 0.5%float /\ calculateZScore 3 1 0 = 0%float.
Proof.
  destruct (calculateZScore_guard 3 1) as (Hzero & _ & _ & _ & _ & Hquotient).
  split; [|exact Hzero].
  rewrite (Hquotient 4%float eq_refl). reflexivity.
Defined.

Lemma nth_prev {A} (l : list A) (x y d : A) :
  nth (length (l ++ [x; y]) - 2) (l ++ [x; y]) d = x.
Proof.
  rewrite length_app. simpl.
  replace (length l + 2 - 2)%nat with (length l) by lia.
  rewrite app_nth2 by lia. now rewrite Nat.sub_diag.
Qed.

Lemma nth_curr {A} (l : list A) (x y d : A) :
  nth (length (l ++ [x; y]) - 1) (l ++ [x; y]) d = y.
Proof.
  rewrite length_app. simpl.
  replace (length l + 2 - 1)%nat with (S (length l)) by lia.
  rewrite app_nth2 by lia.
  now replace (S (length l) - length l)%nat with 1%nat by lia.
Qed.

(** On two series that end in [fastPrev, fastCurr] and [slowPrev, slowCurr]
    the answer depends on these four numbers alone. *)
Lemma detectCrossover_last_two f s fastPrev fastCurr slowPrev slowCurr :
  detectCrossover (f ++ [fastPrev; fastCurr]) (s ++ [slowPrev; slowCurr]) =
  if Js.le fastPrev slowPrev && Js.gt fastCurr slowCurr then up
  else if Js.ge fastPrev slowPrev && Js.lt fastCurr slowCurr then down
  else none.
Proof.
  unfold detectCrossover.
  rewrite !nth_prev, !nth_curr.
  replace (length (f ++ [fastPrev; fastCurr]) <? 2)%nat with false.
  2:{ symmetry. apply Nat.ltb_ge. rewrite length_app. simpl. lia. }
  replace (length (s ++ [slowPrev; slowCurr]) <? 2)%nat with false.
  2:{ symmetry. apply Nat.ltb_ge. rewrite length_app. simpl. lia. }
  reflexivity.
Qed.

(** C6. Fewer than two points in either series give [none].  Otherwise only
    the last two paired samples count: [down] iff the fast series was [>=]
    the slow one and is now [<] it, [up] iff it was [<=] and is now [>],
    [none] in every other case, in particular when the current values are
    equal.  The three sample series of the specification are included. *)
Theorem detectCrossover_spec :
  (forall fast slow,
     (length fast < 2 \/ length slow < 2)%nat ->
     detectCrossover fast slow = none) /\
  (forall f s fastPrev fastCurr slowPrev slowCurr,
     let fast := (f ++ [fastPrev; fastCurr])%list in
     let slow := (s ++ [slowPrev; slowCurr])%list in
     (detectCrossover fast slow = down <->
        Js.ge fastPrev slowPrev = true /\ Js.lt fastCurr slowCurr = true) /\
     (detectCrossover fast slow = up <->
        Js.le fastPrev slowPrev = true /\ Js.gt fastCurr slowCurr = true) /\
     (detectCrossover fast slow = none <->
        ~ (Js.ge fastPrev slowPrev = true /\ Js.lt fastCurr slowCurr = true) /\
        ~ (Js.le fastPrev slowPrev = true /\ Js.gt fastCurr slowCurr = true)) /\
     (Js.strict_eq fastCurr slowCurr = true ->
        detectCrossover fast slow = none)) /\
  detectCrossover [10; 4]%float [8; 8]%float = down /\
  detectCrossover [4; 10]%float [8; 8]%float = up /\
  detectCrossover [10; 10]%float [8; 8]%float = none.
Proof.
  split; [|split; [|repeat split; reflexivity]].
  - intros fast slow H. unfold detectCrossover.
    destruct H as [H|H]; apply Nat.ltb_lt in H; rewrite H; simpl.
    + reflexivity.
    + now rewrite orb_true_r.
  - intros f s fastPrev fastCurr slowPrev slowCurr fast slow.
    subst fast slow. rewrite detectCrossover_last_two.
    unfold Js.le, Js.ge, Js.lt, Js.gt.
    pose proof (FloatFacts.ltb_asym fastCurr slowCurr) as Hlt.
    pose proof (FloatFacts.ltb_asym slowCurr fastCurr) as Hgt.
    pose proof (FloatFacts.eqb_not_ltb fastCurr slowCurr) as Heq.
    unfold Js.strict_eq.
    destruct (PrimFloat.leb fastPrev slowPrev),
             (PrimFloat.leb slowPrev fastPrev),
             (PrimFloat.ltb fastCurr slowCurr) eqn:E1,
             (PrimFloat.ltb slowCurr fastCurr) eqn:E2,
             (PrimFloat.eqb fastCurr slowCurr);
      simpl; repeat split; intros;
      try discriminate; try reflexivity; try tauto;
      try (specialize (Hlt eq_refl); discriminate);
      try (specialize (Hgt eq_refl); discriminate);
      try (destruct Heq as [? ?]; [reflexivity | discriminate]);
      try (intros [? ?]; discriminate);
      intuition discriminate.
Qed.

(** A series of one point, and a strict crossing below at the end of two
    longer series. *)
Lemma detectCrossover_spec_witness :
  detectCrossover [1]%float [1; 2; 3]%float = none /\
  detectCrossover [7; 9; 3]%float [5; 8; 8]%float = down.
Proof.
  destruct detectCrossover_spec as (Hshort & Hlast & _).
  split.
  - apply Hshort. left. cbn. lia.
  - destruct (Hlast [7]%float [5]%float 9%float 3%float 8%float 8%float)
      as ((_ & Hdown) & _).
    apply Hdown. split; reflexivity.
Defined.

End MathUtilsFacts.

(* ===================================================================== *)
(** * policy/risk-manager: the gate *)
(* ===================================================================== *)

Module RiskManagerFacts.

Import Task TaskFacts RiskManager Verdict.

(** ** The readers *)

Lemma exec_isKillSwitchActive w :
  exec isKillSwitchActive w = (Returned (RiskState.killSwitchActive w), w).
Proof. reflexivity. Qed.

Lemma exec_getTreasuryBalance w :
  exec getTreasuryBalance w = (Returned (RiskState.treasuryBalance w), w).
Proof. reflexivity. Qed.

Lemma exec_getDailySpent w :
  exec getDailySpent w = (Returned (RiskState.dailySpent w), w).
Proof. reflexivity. Qed.

Lemma exec_getConsecutiveLosses w :
  exec getConsecutiveLosses w = (Returned (RiskState.consecutiveLosses w), w).
Proof. reflexivity. Qed.

Lemma exec_getLastExecutionTime w :
  exec getLastExecutionTime w = (Returned (RiskState.lastExecutionTime w), w).
Proof. reflexivity. Qed.

(** ** canExecute, run alone *)

Section Gate.

Variable policy : Config.Policy.

(** The chain of checks as one expression over the risk state of [w]. *)
Lemma exec_canExecute amount w :
  exec (canExecute policy amount) w = (Returned (Verdict.gate policy amount w), w).
Proof.
  unfold canExecute, Verdict.gate.
  rewrite exec_try_catch, exec_bind, exec_isKillSwitchActive.
  destruct (RiskState.killSwitchActive w); [reflexivity|].
  rewrite exec_bind, exec_getTreasuryBalance. cbv zeta.
  destruct (Js.lt _ _); [reflexivity|].
  rewrite exec_bind, exec_getDailySpent.
  destruct (Js.gt _ _); [reflexivity|].
  rewrite exec_bind, exec_getConsecutiveLosses.
  destruct (_ >=? _); reflexivity.
Qed.

End Gate.

(** C1. Run alone, [canExecute(amount)] reads the risk state without
    changing anything and answers by the first failing check, in the order
    kill switch, treasury reserve, daily spend limit, consecutive losses;
    it allows the amount when all four pass.  While the kill switch is
    active every amount is rejected; this also holds among other tasks and
    when the request fails, as long as the switch is on when the first
    request is served.  With a treasury balance of 1000 and
    [minTreasuryThreshold = 0.1], 950 is rejected by the reserve check and
    850 is allowed when the two later checks pass. *)
Theorem canExecute_chain (policy : Config.Policy) (w : World) :
  let treasuryBalance := RiskState.treasuryBalance w in
  let dailySpent := RiskState.dailySpent w in
  let consecutiveLosses := RiskState.consecutiveLosses w in
  let minReserve :=
    (treasuryBalance * Config.minTreasuryThreshold policy)%float in
  let maxDailySpend :=
    (treasuryBalance * (Config.maxDailySpendPercent policy / 100))%float in
  (forall amount,
     after (canExecute policy amount) w = w /\
     (RiskState.killSwitchActive w = true ->
        result (canExecute policy amount) w = Returned rejected_kill_switch) /\
     (RiskState.killSwitchActive w = false ->
      Js.lt (treasuryBalance - amount)%float minReserve = true ->
        result (canExecute policy amount) w
        = Returned (rejected_reserve minReserve)) /\
     (RiskState.killSwitchActive w = false ->
      Js.lt (treasuryBalance - amount)%float minReserve = false ->
      Js.gt (dailySpent + amount)%float maxDailySpend = true ->
        result (canExecute policy amount) w
        = Returned (rejected_daily_limit dailySpent maxDailySpend)) /\
     (RiskState.killSwitchActive w = false ->
      Js.lt (treasuryBalance - amount)%float minReserve = false ->
      Js.gt (dailySpent + amount)%float maxDailySpend = false ->
      consecutiveLosses >= Config.maxConsecutiveLosses policy ->
        result (canExecute policy amount) w
        = Returned (rejected_losses consecutiveLosses)) /\
     (RiskState.killSwitchActive w = false ->
      Js.lt (treasuryBalance - amount)%float minReserve = false ->
      Js.gt (dailySpent + amount)%float maxDailySpend = false ->
      consecutiveLosses < Config.maxConsecutiveLosses policy ->
        result (canExecute policy amount) w = Returned permitted)) /\
  (forall amount slot rest,
     RiskState.killSwitchActive (interference slot w) = true ->
     exists r,
       answer (canExecute policy amount) (slot :: rest) w
       = Returned {| allowed := false; reason := Some r |}) /\
  (RiskState.killSwitchActive w = false ->
   treasuryBalance = 1000%float ->
   Config.minTreasuryThreshold policy = 0.1%float ->
     result (canExecute policy 950) w = Returned (rejected_reserve 100) /\
     (Js.gt (dailySpent + 850)%float maxDailySpend = false ->
      consecutiveLosses < Config.maxConsecutiveLosses policy ->
        result (canExecute policy 850) w = Returned permitted)).
Proof.
  intros treasuryBalance dailySpent consecutiveLosses minReserve maxDailySpend.
  split; [|split].
  2:{ intros amount slot rest Hon.
      unfold answer, canExecute, isKillSwitchActive, Effects.redis_read.
      cbn [run try_catch bind await].
      destruct (failure slot) as [e|]; cbn [run try_catch bind].
      - eexists. reflexivity.
      - fold (RiskState.killSwitchActive (interference slot w)). rewrite Hon.
        eexists. reflexivity. }
  - intros amount. unfold after, result. rewrite exec_canExecute. unfold Verdict.gate. cbv zeta.
    fold treasuryBalance dailySpent consecutiveLosses minReserve maxDailySpend.
    simpl fst; simpl snd.
    split; [reflexivity|].
    split; [intros ->; reflexivity|].
    split; [intros -> ->; reflexivity|].
    split; [intros -> -> ->; reflexivity|].
    split.
    + intros -> -> -> H.
      replace (consecutiveLosses >=? _) with true; [reflexivity|].
      symmetry. apply Z.geb_le. lia.
    + intros -> -> -> H.
      replace (consecutiveLosses >=? _) with false; [reflexivity|].
      symmetry. rewrite Z.geb_leb. apply Z.leb_gt. lia.
  - intros Hk Hb Hm. unfold result. rewrite !exec_canExecute. unfold Verdict.gate. cbv zeta.
    fold treasuryBalance dailySpent consecutiveLosses.
    subst minReserve maxDailySpend. rewrite Hk, Hb, Hm. simpl fst.
    split; [reflexivity|].
    intros Hd Hl.
    replace (Js.lt (1000 - 850) (1000 * 0.1))%float with false by reflexivity.
    rewrite Hd.
    replace (consecutiveLosses >=? _) with false; [reflexivity|].
    symmetry. rewrite Z.geb_leb. apply Z.leb_gt. lia.
Qed.

Lemma canExecute_chain_witness :
  result (canExecute Sample.generous_policy 950) (Sample.funded 1000)
  = Returned (rejected_reserve 100) /\
  result (canExecute Sample.generous_policy 850) (Sample.funded 1000)
  = Returned permitted.
Proof.
  destruct (canExecute_chain Sample.generous_policy (Sample.funded 1000))
    as (_ & _ & H).
  destruct (H eq_refl eq_refl eq_refl) as [H950 H850].
  split; [exact H950|].
  apply H850; vm_compute; reflexivity.
Defined.

(** With the policy as shipped the daily budget is 5 percent of the treasury, and
    the same 850 is turned down by the daily spend limit. *)
Example canExecute_850_default_policy :
  result (canExecute Config.default_policy 850) (Sample.funded 1000)
  = Returned (rejected_daily_limit 0 50).
Proof. vm_compute. reflexivity. Qed.

(** ** recordExecution, run alone *)

(** The world after [recordExecution(amount, success)]. *)
Lemma exec_recordExecution amount success w :
  exec (recordExecution amount success) w =
  (Returned tt,
   let key := day_of (now w) in
   let record (k : Redis.Risk) :=
     Redis.set_last_execution (Some (now w))
       ((if success
         then Redis.set_consecutive_losses (Some 0)
         else Redis.incr_consecutive_losses)
          (Redis.expire_daily_spent (now w) key (24 * 60 * 60)
             (Redis.incrbyfloat_daily_spent (now w) key amount k))) in
   with_log (fun l => (l ++ [{| Logger.level := Logger.info;
                                Logger.message := "Execution recorded";
                                Logger.context :=
                                  [("amount", Logger.VNum amount);
                                   ("success", Logger.VBool success)] |}])%list)
     (with_redis (Redis.with_risk record) w)).
Proof. destruct success; reflexivity. Qed.

(** The counter of the day read back after INCRBYFLOAT and EXPIRE. *)
Lemma get_daily_spent_recorded time day amount (k : Redis.Risk) :
  Redis.get_daily_spent time day
    (Redis.expire_daily_spent time day (24 * 60 * 60)
       (Redis.incrbyfloat_daily_spent time day amount k))
  = Some (match Redis.get_daily_spent time day k with
          | Some v => v
          | None => 0%float
          end + amount)%float.
Proof.
  assert (Hlive : forall t : Z, Redis.live t (Some (t + 24 * 60 * 60 * 1000)) = true).
  { intros t. unfold Redis.live. apply Z.leb_le. lia. }
  unfold Redis.get_daily_spent, Redis.expire_daily_spent,
    Redis.incrbyfloat_daily_spent.
  destruct (Redis.daily_spent k !! day) as [[v expiry]|] eqn:E; simpl.
  - destruct (Redis.live time expiry) eqn:L; simpl;
      rewrite lookup_insert_eq; simpl; rewrite ?L; simpl;
      rewrite lookup_insert_eq, Hlive; reflexivity.
  - rewrite lookup_insert_eq. simpl.
    rewrite lookup_insert_eq, Hlive. reflexivity.
Qed.

Lemma get_daily_spent_ext time day (k1 k2 : Redis.Risk) :
  Redis.daily_spent k1 = Redis.daily_spent k2 ->
  Redis.get_daily_spent time day k1 = Redis.get_daily_spent time day k2.
Proof. unfold Redis.get_daily_spent. now intros ->. Qed.

(** INCRBYFLOAT and EXPIRE touch the spend counters only. *)
Lemma spend_keys_only time day amount seconds (k : Redis.Risk) :
  let k' := Redis.expire_daily_spent time day seconds
              (Redis.incrbyfloat_daily_spent time day amount k) in
  Redis.kill_switch k' = Redis.kill_switch k /\
  Redis.kill_switch_reason k' = Redis.kill_switch_reason k /\
  Redis.consecutive_losses k' = Redis.consecutive_losses k /\
  Redis.last_execution k' = Redis.last_execution k /\
  Redis.treasury_balance k' = Redis.treasury_balance k.
Proof.
  unfold Redis.expire_daily_spent, Redis.incrbyfloat_daily_spent.
  repeat (match goal with
          | |- context [match ?x with _ => _ end] => destruct x
          end; cbn); repeat split; reflexivity.
Qed.

Lemma recordExecution_effect (amount : float) (success : bool) (w : World) :
  let w' := after (recordExecution amount success) w in
  result (recordExecution amount success) w = Returned tt /\
  RiskState.dailySpent w' = (RiskState.dailySpent w + amount)%float /\
  RiskState.consecutiveLosses w' =
    (if success then 0 else RiskState.consecutiveLosses w + 1) /\
  RiskState.lastExecutionTime w' = Some (now w) /\
  RiskState.killSwitchActive w' = RiskState.killSwitchActive w /\
  RiskState.treasuryBalance w' = RiskState.treasuryBalance w /\
  now w' = now w.
Proof.
  unfold after, result. rewrite exec_recordExecution. cbv zeta.
  cbn [fst snd].
  pose proof (spend_keys_only (now w) (day_of (now w)) amount (24 * 60 * 60)
                (Redis.risk (redis w))) as K.
  cbv zeta in K. destruct K as (Hks & _ & Hcl & _ & Htb).
  unfold RiskState.dailySpent, RiskState.consecutiveLosses,
    RiskState.lastExecutionTime, RiskState.killSwitchActive,
    RiskState.treasuryBalance.
  cbn [redis now with_log with_redis Redis.risk Redis.with_risk].
  split; [reflexivity|]. split.
  { erewrite get_daily_spent_ext.
    - rewrite get_daily_spent_recorded. reflexivity.
    - destruct success; reflexivity. }
  destruct success;
    cbn [Redis.set_last_execution Redis.set_consecutive_losses
         Redis.incr_consecutive_losses Redis.consecutive_losses
         Redis.last_execution Redis.kill_switch Redis.treasury_balance];
    rewrite ?Hks, ?Hcl, ?Htb; repeat split; reflexivity.
Qed.

(** ** The loss counter and the gate *)

Lemma canExecute_loss_check policy amount w :
  Verdict.reaches_loss_check policy amount w = true ->
  result (canExecute policy amount) w =
  Returned (if RiskState.consecutiveLosses w >=? Config.maxConsecutiveLosses policy
            then rejected_losses (RiskState.consecutiveLosses w)
            else permitted).
Proof.
  unfold Verdict.reaches_loss_check, result. rewrite exec_canExecute.
  unfold Verdict.gate. cbv zeta. cbn [fst].
  destruct (RiskState.killSwitchActive w); [discriminate|].
  destruct (Js.lt _ _); [discriminate|].
  destruct (Js.gt _ _); [discriminate|].
  reflexivity.
Qed.

Lemma canExecute_rejects_at_max policy amount w :
  Config.maxConsecutiveLosses policy <= RiskState.consecutiveLosses w ->
  exists r, result (canExecute policy amount) w
            = Returned {| allowed := false; reason := Some r |}.
Proof.
  intros H. unfold result. rewrite exec_canExecute. unfold Verdict.gate. cbv zeta. cbn [fst].
  destruct (RiskState.killSwitchActive w); [eexists; reflexivity|].
  destruct (Js.lt _ _); [eexists; reflexivity|].
  destruct (Js.gt _ _); [eexists; reflexivity|].
  replace (_ >=? _) with true; [eexists; reflexivity|].
  symmetry. apply Z.geb_le. exact H.
Qed.

(** C3. [recordExecution(amount, success)] returns, adds [amount] to the
    spend counter of the current day whatever [success] is, sets the loss
    counter to 0 on success and adds 1 to it on failure, and stores the
    current time as the last execution time.  Hence, with
    [maxConsecutiveLosses = 3], three failures in a row leave the gate closed
    for every amount, with the loss count as the reason whenever the three
    earlier checks pass, and one success after them opens it again for the
    amounts that pass the other checks. *)
Theorem recordExecution_contract :
  (forall amount success w,
     let w' := after (recordExecution amount success) w in
     result (recordExecution amount success) w = Returned tt /\
     RiskState.dailySpent w' = (RiskState.dailySpent w + amount)%float /\
     RiskState.consecutiveLosses w' =
       (if success then 0 else RiskState.consecutiveLosses w + 1) /\
     RiskState.lastExecutionTime w' = Some (now w)) /\
  (forall policy x t1 t2 t3 w,
     Config.maxConsecutiveLosses policy = 3 ->
     0 <= RiskState.consecutiveLosses w ->
     let w3 :=
       after_at t3 (recordExecution x false)
         (after_at t2 (recordExecution x false)
            (after_at t1 (recordExecution x false) w)) in
     RiskState.consecutiveLosses w3 = RiskState.consecutiveLosses w + 3 /\
     (forall amount,
        exists r, result (canExecute policy amount) w3
                  = Returned {| allowed := false; reason := Some r |}) /\
     (forall amount,
        Verdict.reaches_loss_check policy amount w3 = true ->
        result (canExecute policy amount) w3
        = Returned (rejected_losses (RiskState.consecutiveLosses w + 3))) /\
     (forall t4 amount,
        let w4 := after_at t4 (recordExecution x true) w3 in
        RiskState.consecutiveLosses w4 = 0 /\
        (Verdict.reaches_loss_check policy amount w4 = true ->
         result (canExecute policy amount) w4 = Returned permitted))).
Proof.
  split.
  - intros amount success w w'.
    destruct (recordExecution_effect amount success w)
      as (Hr & Hd & Hl & Ht & _).
    repeat split; assumption.
  - intros policy x t1 t2 t3 w Hmax Hpos w3.
    assert (Hfail : forall t v,
              RiskState.consecutiveLosses (after_at t (recordExecution x false) v)
              = RiskState.consecutiveLosses v + 1).
    { intros t v. unfold after_at.
      destruct (recordExecution_effect x false (with_now t v))
        as (_ & _ & Hl & _).
      exact Hl. }
    assert (H3 : RiskState.consecutiveLosses w3
                 = RiskState.consecutiveLosses w + 3).
    { subst w3. rewrite !Hfail. lia. }
    split; [exact H3|]. split; [|split].
    + intros amount. apply canExecute_rejects_at_max. lia.
    + intros amount Hreach.
      rewrite (canExecute_loss_check _ _ _ Hreach), H3.
      replace (_ >=? _) with true; [reflexivity|].
      symmetry. apply Z.geb_le. lia.
    + intros t4 amount w4.
      assert (H0 : RiskState.consecutiveLosses w4 = 0).
      { subst w4. unfold after_at.
        destruct (recordExecution_effect x true (with_now t4 w3))
          as (_ & _ & Hl & _).
        exact Hl. }
      split; [exact H0|].
      intros Hreach.
      rewrite (canExecute_loss_check _ _ _ Hreach), H0, Hmax.
      reflexivity.
Qed.

(** Three failed executions of 10 on a treasury of 1000 under the shipped
    policy, then a successful one: 5 is refused for the loss count, then
    allowed. *)
Lemma recordExecution_contract_witness :
  let rec_at t ok := after_at t (recordExecution 10 ok) in
  let w3 := rec_at 1704067203000 false
              (rec_at 1704067202000 false
                 (rec_at 1704067201000 false (Sample.funded 1000))) in
  result (canExecute Config.default_policy 5) w3 = Returned (rejected_losses 3) /\
  result (canExecute Config.default_policy 5) (rec_at 1704067204000 true w3)
  = Returned permitted.
Proof.
  intros rec_at w3.
  destruct recordExecution_contract as [_ H].
  destruct (H Config.default_policy 10%float 1704067201000 1704067202000
              1704067203000 (Sample.funded 1000) eq_refl)
    as (_ & _ & Hclosed & Hopen).
  { vm_compute. discriminate. }
  split.
  - apply (Hclosed 5%float). vm_compute. reflexivity.
  - apply (Hopen 1704067204000 5%float). vm_compute. reflexivity.
Defined.

End RiskManagerFacts.

(* ===================================================================== *)
(** * sentiment/aggregator: empty batches and the score history *)
(* ===================================================================== *)

Module SentimentAggregatorFacts.

Import Task TaskFacts SentimentAggregator.

(** The mood [getEmptyMood] builds at time [stamp]. *)
Lemma exec_aggregate_nil w :
  exec (aggregate []) w =
  (Returned {| AggregatedMood.timestamp := now w;
               AggregatedMood.rawScore := 0;
               AggregatedMood.zScore := 0;
               AggregatedMood.ema5 := 0;
               AggregatedMood.ema15 := 0;
               AggregatedMood.ema60 := 0;
               AggregatedMood.volume := 0;
               AggregatedMood.topicBreakdown :=
                 {| TopicBreakdown.ourCoin := 0;
                    TopicBreakdown.generalMarket := 0 |} |},
   w).
Proof. reflexivity. Qed.

Lemma aggregate_synchronous tweets : synchronous (aggregate tweets).
Proof.
  destruct tweets as [|tweet tweets]; [intros x; exact I|].
  unfold aggregate.
  destruct (fold_left _ _ _) as [totalSentiment totalWeight].
  cbn. intros.
  match goal with |- context [if ?c then _ else _] => destruct c end;
    cbn; intros; exact I.
Qed.

(** What a non-empty batch does to the aggregator. *)
Lemma aggregate_nonempty tweet tweets w :
  exists mood,
    result (aggregate (tweet :: tweets)) w = Returned mood /\
    let a := aggregator w in
    let raw := AggregatedMood.rawScore mood in
    aggregator (after (aggregate (tweet :: tweets)) w) =
    {| Fields.ema5 :=
         snd (MathUtils.ExponentialMovingAverage_add (Fields.ema5 a) raw);
       Fields.ema15 :=
         snd (MathUtils.ExponentialMovingAverage_add (Fields.ema15 a) raw);
       Fields.ema60 :=
         snd (MathUtils.ExponentialMovingAverage_add (Fields.ema60 a) raw);
       Fields.historicalScores :=
         History.bounded_push (Fields.maxHistorySize a) (Fields.historicalScores a) raw;
       Fields.maxHistorySize := Fields.maxHistorySize a |}.
Proof.
  unfold result, after, exec, aggregate, History.bounded_push.
  destruct (fold_left _ _ _) as [totalSentiment totalWeight].
  set (raw := if Js.gt totalWeight 0 then _ else _).
  cbn -[Nat.ltb raw MathUtils.calculateZScore MathUtils.calculateMean
        MathUtils.calculateStdDev analyzeTopics].
  destruct (_ <? _)%nat eqn:E;
    cbn -[Nat.ltb raw MathUtils.calculateZScore MathUtils.calculateMean
          MathUtils.calculateStdDev analyzeTopics];
    eexists; split; try reflexivity;
    cbn -[Nat.ltb raw]; rewrite E; reflexivity.
Qed.

(** C4. [aggregate([])] returns the zeroed mood (raw score, z-score, the
    three EMAs and the volume are 0) and leaves the world as it found it:
    the score history, its length and the three EMA accumulators of the
    aggregator are what they were before the call.  This holds under every
    schedule, as the method awaits nothing. *)
Theorem aggregate_empty_batch (schedule : list Slot) (w : World) :
  let mood := {| AggregatedMood.timestamp := now w;
                 AggregatedMood.rawScore := 0;
                 AggregatedMood.zScore := 0;
                 AggregatedMood.ema5 := 0;
                 AggregatedMood.ema15 := 0;
                 AggregatedMood.ema60 := 0;
                 AggregatedMood.volume := 0;
                 AggregatedMood.topicBreakdown :=
                   {| TopicBreakdown.ourCoin := 0;
                      TopicBreakdown.generalMarket := 0 |} |} in
  let a := aggregator w in
  let a' := aggregator (after (aggregate []) w) in
  run (aggregate []) schedule w = (Returned mood, w, schedule) /\
  result (aggregate []) w = Returned mood /\
  after (aggregate []) w = w /\
  Fields.historicalScores a' = Fields.historicalScores a /\
  length (Fields.historicalScores a') = length (Fields.historicalScores a) /\
  Fields.ema5 a' = Fields.ema5 a /\
  Fields.ema15 a' = Fields.ema15 a /\
  Fields.ema60 a' = Fields.ema60 a /\
  Fields.maxHistorySize a' = Fields.maxHistorySize a.
Proof.
  cbv zeta. split.
  - rewrite run_synchronous by apply aggregate_synchronous.
    now rewrite exec_aggregate_nil.
  - unfold result, after. rewrite exec_aggregate_nil.
    repeat split; reflexivity.
Qed.

(** A batch of one tweet, for contrast: the history grows and the EMAs are
    initialised. *)
Example aggregate_one_tweet :
  let tweet := {| ProcessedTweet.text := "gm";
                  ProcessedTweet.sentiment :=
                    {| SentimentScore.value := 0.5;
                       SentimentScore.confidence := 1;
                       SentimentScore.volatility := 0 |};
                  ProcessedTweet.authorWeight := 2 |} in
  let a' := aggregator (after (aggregate [tweet]) Sample.fresh) in
  Fields.historicalScores a' = [0.5%float] /\
  MathUtils.ema (Fields.ema5 a') = Some 0.5%float.
Proof. vm_compute. split; reflexivity. Qed.

End SentimentAggregatorFacts.

(* ===================================================================== *)
(** * The bounded histories *)
(* ===================================================================== *)

Module HistoryFacts.

Import Task TaskFacts History.

(** ** [bounded_push] *)

Lemma bounded_push_room cap history v :
  (length history < cap)%nat -> bounded_push cap history v = (history ++ [v])%list.
Proof.
  intros H. unfold bounded_push.
  replace (cap <? _)%nat with false; [reflexivity|].
  symmetry. apply Nat.ltb_ge. rewrite length_app. simpl. lia.
Qed.

(** On a full buffer the oldest entry goes and the new one comes last. *)
Lemma bounded_push_full cap history v :
  length history = cap -> (0 < cap)%nat ->
  bounded_push cap history v = (tl history ++ [v])%list.
Proof.
  intros H Hpos. unfold bounded_push.
  replace (cap <? _)%nat with true.
  - destruct history as [|x rest]; [simpl in H; lia | reflexivity].
  - symmetry. apply Nat.ltb_lt. rewrite length_app. simpl. lia.
Qed.

Lemma length_bounded_push cap history v :
  (length history <= cap)%nat ->
  length (bounded_push cap history v) = Nat.min (S (length history)) cap.
Proof.
  intros H.
  destruct (Nat.eq_dec (length history) cap) as [Heq|Hne].
  - destruct cap as [|cap].
    + destruct history; [reflexivity | discriminate].
    + rewrite bounded_push_full by lia.
      rewrite length_app.
      destruct history as [|x rest]; cbn [tl length] in *; lia.
  - rewrite bounded_push_room by lia. rewrite length_app. cbn [length]. lia.
Qed.

Lemma last_bounded_push cap history v d :
  (0 < cap)%nat -> (length history <= cap)%nat ->
  List.last (bounded_push cap history v) d = v.
Proof.
  intros Hpos H.
  destruct (Nat.eq_dec (length history) cap) as [Heq|Hne].
  - rewrite bounded_push_full by lia. apply last_last.
  - rewrite bounded_push_room by lia. apply last_last.
Qed.

(** ** DecisionEngine *)

(** The histories after the first statements of [makeDecision]. *)
Lemma exec_updateEmaHistory mood w :
  exec (DecisionEngine.updateEmaHistory mood) w =
  (Returned tt,
   let h15 := (Fields.ema15History (engine w) ++ [AggregatedMood.ema15 mood])%list in
   let h60 := (Fields.ema60History (engine w) ++ [AggregatedMood.ema60 mood])%list in
   with_engine
     (if (100 <? length h15)%nat
      then {| Fields.ema15History := tl h15; Fields.ema60History := tl h60 |}
      else {| Fields.ema15History := h15; Fields.ema60History := h60 |})
     w).
Proof.
  unfold exec, DecisionEngine.updateEmaHistory. cbn -[Nat.ltb].
  destruct (100 <? _)%nat; reflexivity.
Qed.

Lemma updateEmaHistory_synchronous mood :
  synchronous (DecisionEngine.updateEmaHistory mood).
Proof.
  unfold DecisionEngine.updateEmaHistory. cbn -[Nat.ltb]. intros.
  destruct (100 <? _)%nat; cbn; intros; exact I.
Qed.

Lemma canExecute_keeps_engine policy amount :
  keeps engine (RiskManager.canExecute policy amount).
Proof. unfold RiskManager.canExecute. keeps_tac. Qed.

Lemma getRiskMetrics_keeps_engine : keeps engine RiskManager.getRiskMetrics.
Proof. unfold RiskManager.getRiskMetrics. keeps_tac. Qed.

Lemma conclude_keeps_engine mood market liquidityOk action reason params :
  keeps engine
    (DecisionEngine.conclude mood market liquidityOk action reason params).
Proof. unfold DecisionEngine.conclude. keeps_tac. Qed.

Lemma decisionLogic_keeps_engine policy mood market :
  keeps engine (DecisionEngine.decisionLogic policy mood market).
Proof.
  unfold DecisionEngine.decisionLogic. cbv zeta.
  destruct (_ && _); [apply conclude_keeps_engine|].
  destruct (_ && _).
  - apply keeps_bind; [apply getRiskMetrics_keeps_engine|intros metrics].
    apply keeps_bind; [apply canExecute_keeps_engine|intros riskCheck].
    destruct (negb _); apply conclude_keeps_engine.
  - apply keeps_bind; [keeps_tac|intros bearish].
    destruct (_ && _); apply conclude_keeps_engine.
Qed.

(** Whatever rule fires, and whether or not a request fails, the engine
    leaves [makeDecision] with the histories [updateEmaHistory] gave it. *)
Lemma makeDecision_engine policy mood market schedule w :
  undisturbed engine schedule ->
  engine (snd (fst (run (DecisionEngine.makeDecision policy mood market)
                      schedule w)))
  = engine (after (DecisionEngine.updateEmaHistory mood) w).
Proof.
  intros Hs. unfold DecisionEngine.makeDecision.
  rewrite run_try_catch, run_bind.
  rewrite run_synchronous by apply updateEmaHistory_synchronous.
  unfold after. rewrite exec_updateEmaHistory. cbv zeta. cbn [fst snd].
  match goal with
  | |- context [run (DecisionEngine.decisionLogic _ _ _) _ ?w2] =>
      pose proof (run_keeps engine (DecisionEngine.decisionLogic policy mood market)
                    schedule w2 (decisionLogic_keeps_engine _ _ _) Hs) as Hk;
      pose proof (run_rest_undisturbed engine
                    (DecisionEngine.decisionLogic policy mood market)
                    schedule w2 Hs) as Hrest;
      destruct (run (DecisionEngine.decisionLogic policy mood market) schedule w2)
        as [[[decision|error] w3] rest]
  end; cbn [fst snd] in *.
  - exact Hk.
  - rewrite run_keeps; [exact Hk| |exact Hrest].
    unfold DecisionEngine.getNoopDecision. keeps_tac.
Qed.

Lemma makeDecision_histories policy mood market schedule w :
  undisturbed engine schedule ->
  let e := engine w in
  let e' := engine (snd (fst (run (DecisionEngine.makeDecision policy mood market)
                                schedule w))) in
  length (Fields.ema15History e) = length (Fields.ema60History e) ->
  Fields.ema15History e'
  = bounded_push 100 (Fields.ema15History e) (AggregatedMood.ema15 mood) /\
  Fields.ema60History e'
  = bounded_push 100 (Fields.ema60History e) (AggregatedMood.ema60 mood).
Proof.
  intros Hs e e' Hlen. subst e'.
  rewrite makeDecision_engine by exact Hs.
  unfold after. rewrite exec_updateEmaHistory. cbv zeta. cbn [snd].
  unfold bounded_push. fold e.
  replace (length (Fields.ema60History e ++ [AggregatedMood.ema60 mood]))
    with (length (Fields.ema15History e ++ [AggregatedMood.ema15 mood]))
    by (rewrite !length_app; cbn [length]; lia).
  destruct (100 <? _)%nat; split; reflexivity.
Qed.

Lemma engine_reachable_bounded e :
  engine_reachable e ->
  length (Fields.ema15History e) = length (Fields.ema60History e) /\
  (length (Fields.ema15History e) <= 100)%nat.
Proof.
  induction 1 as [|policy mood market schedule w Hreach [IHlen IHcap] Hs].
  - split; [reflexivity | cbn; lia].
  - destruct (makeDecision_histories policy mood market schedule w Hs IHlen)
      as [H15 H60].
    rewrite H15, H60.
    rewrite !length_bounded_push by lia. split; lia.
Qed.

(** ** SentimentAggregator *)

Lemma aggregate_history tweets schedule w :
  let a := aggregator w in
  let a' := aggregator (snd (fst (run (SentimentAggregator.aggregate tweets)
                                    schedule w))) in
  Fields.maxHistorySize a' = Fields.maxHistorySize a /\
  (tweets = [] -> Fields.historicalScores a' = Fields.historicalScores a) /\
  (tweets <> [] ->
   exists mood,
     result (SentimentAggregator.aggregate tweets) w = Returned mood /\
     Fields.historicalScores a'
     = bounded_push (Fields.maxHistorySize a) (Fields.historicalScores a)
         (AggregatedMood.rawScore mood)).
Proof.
  cbv zeta.
  rewrite run_synchronous
    by apply SentimentAggregatorFacts.aggregate_synchronous.
  cbn [fst snd].
  destruct tweets as [|tweet tweets].
  - rewrite SentimentAggregatorFacts.exec_aggregate_nil. cbn [snd].
    split; [reflexivity|]. split; [reflexivity|]. congruence.
  - destruct (SentimentAggregatorFacts.aggregate_nonempty tweet tweets w)
      as (mood & Hres & Hagg).
    cbv zeta in Hagg. unfold after in Hagg. rewrite Hagg.
    cbn [Fields.maxHistorySize Fields.historicalScores].
    split; [reflexivity|]. split; [discriminate|].
    intros _. exists mood. split; [exact Hres | reflexivity].
Qed.

Lemma aggregator_reachable_bounded a :
  aggregator_reachable a ->
  Fields.maxHistorySize a = 1000%nat /\
  (length (Fields.historicalScores a) <= 1000)%nat.
Proof.
  induction 1 as [policy|tweets schedule w Hreach [IHcap IHlen]].
  - split; [reflexivity | cbn; lia].
  - destruct (aggregate_history tweets schedule w) as (Hcap & Hnil & Hcons).
    split; [congruence|].
    destruct tweets as [|tweet tweets].
    + rewrite Hnil by reflexivity. exact IHlen.
    + destruct Hcons as (mood & _ & Hhist); [discriminate|].
      rewrite Hhist, length_bounded_push by lia. lia.
Qed.

(** C8. Every [makeDecision], whichever rule fires and even when a request
    fails, appends the mood's [ema15] and [ema60] to the two histories and
    drops the oldest pair once there are more than 100; the two histories
    always have the same length, at most 100.  The aggregator's score
    history never holds more than 1000 entries.  In both, a full buffer
    loses its oldest entry and the new value comes last. *)
Theorem history_buffers_bounded :
  (forall policy mood market schedule w,
     undisturbed engine schedule ->
     engine_reachable (engine w) ->
     let e := engine w in
     let e' := engine (snd (fst (run (DecisionEngine.makeDecision policy mood market)
                                   schedule w))) in
     Fields.ema15History e'
     = bounded_push 100 (Fields.ema15History e) (AggregatedMood.ema15 mood) /\
     Fields.ema60History e'
     = bounded_push 100 (Fields.ema60History e) (AggregatedMood.ema60 mood) /\
     List.last (Fields.ema15History e') 0%float = AggregatedMood.ema15 mood /\
     List.last (Fields.ema60History e') 0%float = AggregatedMood.ema60 mood) /\
  (forall e,
     engine_reachable e ->
     length (Fields.ema15History e) = length (Fields.ema60History e) /\
     (length (Fields.ema15History e) <= 100)%nat) /\
  (forall tweets schedule w,
     aggregator_reachable (aggregator w) ->
     tweets <> [] ->
     exists mood,
       result (SentimentAggregator.aggregate tweets) w = Returned mood /\
       Fields.historicalScores
         (aggregator (snd (fst (run (SentimentAggregator.aggregate tweets)
                                  schedule w))))
       = bounded_push 1000 (Fields.historicalScores (aggregator w))
           (AggregatedMood.rawScore mood)) /\
  (forall a,
     aggregator_reachable a ->
     (length (Fields.historicalScores a) <= 1000)%nat) /\
  (forall cap history v,
     (0 < cap)%nat ->
     ((length history < cap)%nat ->
        bounded_push cap history v = (history ++ [v])%list) /\
     (length history = cap ->
        bounded_push cap history v = (tl history ++ [v])%list)).
Proof.
  split; [|split; [|split; [|split]]].
  - intros policy mood market schedule w Hs Hreach. cbv zeta.
    destruct (engine_reachable_bounded _ Hreach) as [Hlen Hcap].
    destruct (makeDecision_histories policy mood market schedule w Hs Hlen)
      as [H15 H60].
    rewrite H15, H60.
    repeat split; try reflexivity.
    + apply last_bounded_push; [lia | exact Hcap].
    + apply last_bounded_push; [lia | lia].
  - apply engine_reachable_bounded.
  - intros tweets schedule w Hreach Hne.
    destruct (aggregator_reachable_bounded _ Hreach) as [Hcap _].
    destruct (aggregate_history tweets schedule w) as (_ & _ & Hcons).
    destruct (Hcons Hne) as (mood & Hres & Hhist).
    exists mood. split; [exact Hres|]. rewrite Hhist, Hcap. reflexivity.
  - intros a Hreach. apply aggregator_reachable_bounded. exact Hreach.
  - intros cap history v Hpos. split.
    + apply bounded_push_room.
    + intros Hfull. apply bounded_push_full; assumption.
Qed.

(** The first decision of an engine leaves one pair in the histories; the
    101st pushes the first one out. *)
Lemma history_buffers_bounded_witness :
  let e' := engine (after (DecisionEngine.makeDecision Config.default_policy
                             (Sample.mood 0 10 8) (Sample.market 0 20000))
                      Sample.fresh) in
  Fields.ema15History e' = [10%float] /\
  Fields.ema60History e' = [8%float] /\
  bounded_push 3 [1; 2; 3]%float 4 = [2; 3; 4]%float.
Proof.
  destruct history_buffers_bounded as (Hpush & _ & _ & _ & Hevict).
  destruct (Hpush Config.default_policy (Sample.mood 0 10 8)
              (Sample.market 0 20000) [] Sample.fresh)
    as (H15 & H60 & _).
  { constructor. }
  { apply engine_created. }
  split; [exact H15|]. split; [exact H60|].
  destruct (Hevict 3%nat [1; 2; 3]%float 4%float) as [_ Hfull]; [lia|].
  exact (Hfull eq_refl).
Defined.

End HistoryFacts.

(* ===================================================================== *)
(** * policy/decision-engine: the rule chain *)
(* ===================================================================== *)

Module DecisionEngineFacts.

Import Task TaskFacts DecisionEngine.

Lemma exec_getRiskMetrics w :
  exec RiskManager.getRiskMetrics w =
  (Returned {| RiskManager.dailySpent := RiskState.dailySpent w;
               RiskManager.consecutiveLosses := RiskState.consecutiveLosses w;
               RiskManager.lastExecutionTime := RiskState.lastExecutionTime w;
               RiskManager.treasuryBalance := RiskState.treasuryBalance w;
               RiskManager.killSwitchActive := RiskState.killSwitchActive w |},
   w).
Proof. reflexivity. Qed.

(** The decision [conclude] returns. *)
Lemma result_conclude mood market liquidityOk action reason params w :
  fst (exec (conclude mood market liquidityOk action reason params) w) =
  Returned {| PolicyDecision.timestamp := now w;
              PolicyDecision.action := action;
              PolicyDecision.reason := reason;
              PolicyDecision.signals :=
                {| Signals.moodZScore := AggregatedMood.zScore mood;
                   Signals.priceMomentum := MarketSignal.momentum market;
                   Signals.liquidityOk := liquidityOk |};
              PolicyDecision.executionParams := params |}.
Proof. reflexivity. Qed.

(** The private guard of [detectBearishCrossover] repeats the one of
    [detectCrossover]. *)
Lemma exec_detectBearishCrossover w :
  exec detectBearishCrossover w =
  (Returned
     (match MathUtils.detectCrossover (Fields.ema15History (engine w))
              (Fields.ema60History (engine w)) with
      | MathUtils.down => true
      | _ => false
      end),
   w).
Proof.
  unfold exec, detectBearishCrossover, MathUtils.detectCrossover.
  cbn -[Nat.ltb nth].
  destruct (_ || _); reflexivity.
Qed.

Section Rules.

Variables (policy : Config.Policy) (mood : AggregatedMood.t)
  (market : MarketSignal.t).

Let zScore := AggregatedMood.zScore mood.
Let momentum := MarketSignal.momentum market.
Let liquidityOk := Js.gt (MarketSignal.liquidity market) 10000.

(** The decision [conclude] returns at time [stamp]. *)
Let decision (stamp : Date) (action : Action) (reason : Text.t)
  (params : option ExecutionParams.t) : PolicyDecision.t :=
  {| PolicyDecision.timestamp := stamp;
     PolicyDecision.action := action;
     PolicyDecision.reason := reason;
     PolicyDecision.signals :=
       {| Signals.moodZScore := zScore;
          Signals.priceMomentum := momentum;
          Signals.liquidityOk := liquidityOk |};
     PolicyDecision.executionParams := params |}.

Lemma result_decisionLogic w :
  result (decisionLogic policy mood market) w =
  Returned
    (if Js.ge zScore (Config.hypeThreshold policy)
        && Js.ge momentum (Config.momentumPositive policy)
     then
       decision (now w) HODL_TREASURY
         [Text.Lit "High sentiment (z="; Text.Fixed zScore 2;
          Text.Lit ") and positive momentum - waiting"] None
     else if Js.le zScore (Config.fudThreshold policy)
             && Js.le momentum (Config.momentumNegative policy)
     then
       let size :=
         (0.01 * PrimFloat.abs zScore * RiskState.treasuryBalance w * 0.5)%float in
       let riskCheck := Verdict.gate policy size w in
       if negb (RiskManager.allowed riskCheck)
       then
         decision (now w) NOOP
           (Text.Lit "Buyback blocked: " ::
              match RiskManager.reason riskCheck with
              | Some r => r
              | None => Text.lit "undefined"
              end) None
       else
         decision (now w) BUYBACK
           [Text.Lit "Low sentiment (z="; Text.Fixed zScore 2;
            Text.Lit ") and negative momentum - buying opportunity"]
           (Some {| ExecutionParams.size := Some size;
                    ExecutionParams.maxSlippage :=
                      Some (Config.maxSlippagePercent policy);
                    ExecutionParams.dcaFactor := Some 0.5%float |})
     else if match MathUtils.detectCrossover (Fields.ema15History (engine w))
                     (Fields.ema60History (engine w)) with
             | MathUtils.down => true
             | _ => false
             end && liquidityOk
     then
       decision (now w) BURN
         (Text.lit "Bearish EMA crossover detected - burning tokens") None
     else
       decision (now w) NOOP (Text.lit "No clear signal - waiting") None).
Proof.
  unfold result, decisionLogic. cbv zeta.
  fold zScore momentum liquidityOk.
  destruct (_ && _); [apply result_conclude|].
  destruct (_ && _).
  - rewrite exec_bind, exec_getRiskMetrics.
    cbn [RiskManager.treasuryBalance].
    rewrite exec_bind, RiskManagerFacts.exec_canExecute.
    destruct (negb _); apply result_conclude.
  - rewrite exec_bind, exec_detectBearishCrossover.
    destruct (_ && _); apply result_conclude.
Qed.

(** Run alone, [makeDecision] returns what the decision logic returns on the
    updated histories. *)
Lemma result_makeDecision w :
  result (makeDecision policy mood market) w =
  result (decisionLogic policy mood market) (after (updateEmaHistory mood) w).
Proof.
  pose proof (result_decisionLogic (after (updateEmaHistory mood) w)) as H.
  unfold result, after, makeDecision in *.
  rewrite exec_try_catch, exec_bind.
  rewrite HistoryFacts.exec_updateEmaHistory in *. cbn [fst snd] in *.
  match goal with
  | |- context [exec (decisionLogic policy mood market) ?w1] =>
      destruct (exec (decisionLogic policy mood market) w1) as [[d|e] w2]
  end; [reflexivity | discriminate].
Qed.

End Rules.

(** The gate does not look at the engine's histories. *)
Lemma gate_after_updateEmaHistory policy mood amount w :
  Verdict.gate policy amount (after (updateEmaHistory mood) w)
  = Verdict.gate policy amount w.
Proof.
  unfold after. rewrite HistoryFacts.exec_updateEmaHistory. reflexivity.
Qed.

(** C2. Run alone, [makeDecision(mood, market)] returns the decision of the
    first rule that matches:
    (1) z-score at or above the hype threshold with momentum at or above the
        positive threshold: HODL, no execution parameters;
    (2) otherwise z-score at or below the FUD threshold with momentum at or
        below the negative threshold: a buyback of
        [0.01 * |zScore| * treasuryBalance * 0.5] that is put to
        [canExecute]; refused, the decision is NOOP with the refusal as its
        reason and no execution parameters; allowed, it is BUYBACK with that
        size;
    (3) otherwise a down-crossover of the two histories with liquidity above
        10000: BURN, no execution parameters;
    (4) otherwise NOOP, no clear signal. *)
Theorem makeDecision_rules (policy : Config.Policy) (mood : AggregatedMood.t)
  (market : MarketSignal.t) (w : World) :
  let zScore := AggregatedMood.zScore mood in
  let momentum := MarketSignal.momentum market in
  let hype :=
    Js.ge zScore (Config.hypeThreshold policy)
    && Js.ge momentum (Config.momentumPositive policy) in
  let fud :=
    Js.le zScore (Config.fudThreshold policy)
    && Js.le momentum (Config.momentumNegative policy) in
  let size :=
    (0.01 * PrimFloat.abs zScore * RiskState.treasuryBalance w * 0.5)%float in
  let histories := engine (after (updateEmaHistory mood) w) in
  let crossover :=
    MathUtils.detectCrossover (Fields.ema15History histories)
      (Fields.ema60History histories) in
  exists d,
    result (makeDecision policy mood market) w = Returned d /\
    (hype = true ->
       PolicyDecision.action d = HODL_TREASURY /\
       PolicyDecision.executionParams d = None) /\
    (hype = false -> fud = true ->
       exists riskCheck,
         result (RiskManager.canExecute policy size) w = Returned riskCheck /\
         (RiskManager.allowed riskCheck = false ->
            PolicyDecision.action d = NOOP /\
            PolicyDecision.reason d
            = Text.Lit "Buyback blocked: " ::
                match RiskManager.reason riskCheck with
                | Some r => r
                | None => Text.lit "undefined"
                end /\
            PolicyDecision.executionParams d = None) /\
         (RiskManager.allowed riskCheck = true ->
            PolicyDecision.action d = BUYBACK /\
            PolicyDecision.executionParams d
            = Some {| ExecutionParams.size := Some size;
                      ExecutionParams.maxSlippage :=
                        Some (Config.maxSlippagePercent policy);
                      ExecutionParams.dcaFactor := Some 0.5%float |})) /\
    (hype = false -> fud = false ->
       (crossover = MathUtils.down ->
        Js.gt (MarketSignal.liquidity market) 10000 = true ->
          PolicyDecision.action d = BURN /\
          PolicyDecision.executionParams d = None) /\
       (crossover <> MathUtils.down \/
        Js.gt (MarketSignal.liquidity market) 10000 = false ->
          PolicyDecision.action d = NOOP /\
          PolicyDecision.reason d = Text.lit "No clear signal - waiting" /\
          PolicyDecision.executionParams d = None)).
Proof.
  intros zScore momentum hype fud size histories crossover.
  rewrite result_makeDecision, result_decisionLogic. cbv zeta.
  rewrite !gate_after_updateEmaHistory.
  replace (now (after (updateEmaHistory mood) w)) with (now w)
    by (unfold after; now rewrite HistoryFacts.exec_updateEmaHistory).
  replace (RiskState.treasuryBalance (after (updateEmaHistory mood) w))
    with (RiskState.treasuryBalance w)
    by (unfold after; now rewrite HistoryFacts.exec_updateEmaHistory).
  fold zScore momentum hype fud size histories crossover.
  eexists. split; [reflexivity|].
  split; [|split].
  - intros ->. split; reflexivity.
  - intros -> ->. exists (Verdict.gate policy size w).
    split; [unfold result; now rewrite RiskManagerFacts.exec_canExecute|].
    split; intros ->; cbn [negb]; repeat split; reflexivity.
  - intros -> ->. split.
    + intros -> ->. split; reflexivity.
    + intros [Hc|Hl].
      * destruct crossover; try (repeat split; reflexivity).
        now destruct Hc.
      * rewrite Hl, andb_false_r. repeat split; reflexivity.
Qed.

(** The samples of the specification under the shipped policy
    ([hypeThreshold = 1.5], [fudThreshold = -1], both momentum thresholds 0):
    z = 2.0 with momentum 0.01 holds; z = -1.5 with momentum -0.01 buys back
    7.5 from a treasury of 1000, and does nothing while the kill switch is
    on. *)
Lemma makeDecision_rules_witness :
  (exists d,
     result (makeDecision Config.default_policy (Sample.mood 2.0 0 0)
               (Sample.market 0.01 20000)) Sample.fresh = Returned d /\
     PolicyDecision.action d = HODL_TREASURY /\
     PolicyDecision.executionParams d = None) /\
  (exists d,
     result (makeDecision Config.default_policy (Sample.mood (-1.5) 0 0)
               (Sample.market (-0.01) 20000)) (Sample.funded 1000)
     = Returned d /\
     PolicyDecision.action d = BUYBACK /\
     PolicyDecision.size d = Some 7.5%float) /\
  (exists d,
     result (makeDecision Config.default_policy (Sample.mood (-1.5) 0 0)
               (Sample.market (-0.01) 20000)) (Sample.halted 1000 "manual")
     = Returned d /\
     PolicyDecision.action d = NOOP /\
     PolicyDecision.reason d
     = [Text.Lit "Buyback blocked: "; Text.Lit "Kill switch is active"] /\
     PolicyDecision.executionParams d = None).
Proof.
  split; [|split].
  - destruct (makeDecision_rules Config.default_policy (Sample.mood 2.0 0 0)
                (Sample.market 0.01 20000) Sample.fresh)
      as (d & Hd & Hhold & _).
    exists d. split; [exact Hd|]. apply Hhold. vm_compute. reflexivity.
  - destruct (makeDecision_rules Config.default_policy (Sample.mood (-1.5) 0 0)
                (Sample.market (-0.01) 20000) (Sample.funded 1000))
      as (d & Hd & _ & Hbuy & _).
    exists d. split; [exact Hd|].
    destruct Hbuy as (riskCheck & Hcheck & _ & Hallowed);
      [vm_compute; reflexivity | vm_compute; reflexivity |].
    assert (Hr : riskCheck = Verdict.permitted).
    { vm_compute in Hcheck. now injection Hcheck as <-. }
    subst riskCheck. destruct (Hallowed eq_refl) as [Ha Hp].
    split; [exact Ha|]. unfold PolicyDecision.size. rewrite Hp.
    vm_compute. reflexivity.
  - destruct (makeDecision_rules Config.default_policy (Sample.mood (-1.5) 0 0)
                (Sample.market (-0.01) 20000) (Sample.halted 1000 "manual"))
      as (d & Hd & _ & Hbuy & _).
    exists d. split; [exact Hd|].
    destruct Hbuy as (riskCheck & Hcheck & Hrefused & _);
      [vm_compute; reflexivity | vm_compute; reflexivity |].
    assert (Hr : riskCheck = Verdict.rejected_kill_switch).
    { vm_compute in Hcheck. now injection Hcheck as <-. }
    subst riskCheck. destruct (Hrefused eq_refl) as (Ha & Hr & Hp).
    repeat split; assumption.
Defined.

(** A bearish crossover: the pair (10, 8) followed by (4, 8), with neutral
    sentiment and enough liquidity, burns; with thin liquidity it does
    nothing. *)
Example makeDecision_burn :
  let first := makeDecision Config.default_policy (Sample.mood 0 10 8)
                 (Sample.market 0 20000) in
  let w1 := after first Sample.fresh in
  (exists d,
     result (makeDecision Config.default_policy (Sample.mood 0 4 8)
               (Sample.market 0 20000)) w1 = Returned d /\
     PolicyDecision.action d = BURN) /\
  (exists d,
     result (makeDecision Config.default_policy (Sample.mood 0 4 8)
               (Sample.market 0 5000)) w1 = Returned d /\
     PolicyDecision.action d = NOOP).
Proof. split; eexists; (split; [vm_compute; reflexivity | reflexivity]). Qed.

End DecisionEngineFacts.

(* ===================================================================== *)
(** * executor/executor: polling the pending transactions *)
(* ===================================================================== *)

Module MonitorFacts.

Import Task TaskFacts Executor.

#[local] Abbreviation pending_of w := (Fields.pendingExecutions (executor w)).

Lemma exec_getTransactionStatus signature w :
  exec (SolanaClient.getTransactionStatus signature) w
  = (Returned (Tracking.status w signature), w).
Proof.
  unfold exec, SolanaClient.getTransactionStatus, Tracking.status. cbn.
  destruct (Chain.getSignatureStatus (chain w) signature); reflexivity.
Qed.

(** One turn of the loop. *)
Lemma exec_monitor_entry txSignature w :
  exec (monitor_entry txSignature) w =
  (Returned tt,
   match Map_get txSignature (pending_of w) with
   | None => w
   | Some decision =>
       match Tracking.status w txSignature with
       | SolanaClient.pending => w
       | SolanaClient.confirmed =>
           Tracking.untracked txSignature
             (Tracking.logged (Tracking.transaction_confirmed txSignature) w)
       | SolanaClient.failed =>
           after (RiskManager.recordExecution
                    (PolicyDecision.size_or_0 decision) false)
             (Tracking.untracked txSignature
                (Tracking.logged (Tracking.transaction_failed txSignature) w))
       end
   end).
Proof.
  unfold monitor_entry.
  rewrite exec_bind. cbn [exec run pendingExecutions sync fst].
  destruct (Map_get txSignature (pending_of w)) as [decision|]; [|reflexivity].
  rewrite exec_try_catch, exec_bind, exec_getTransactionStatus.
  destruct (Tracking.status w txSignature).
  - reflexivity.
  - rewrite exec_bind. cbn [exec run Effects.logger sync fst].
    rewrite exec_bind. cbn [exec run update_pendingExecutions sync fst].
    unfold after.
    match goal with
    | |- context [exec (RiskManager.recordExecution ?a ?s) ?v] =>
        rewrite (RiskManagerFacts.exec_recordExecution a s v)
    end.
    reflexivity.
  - reflexivity.
Qed.

(** ** The map of pending executions *)

Lemma Map_get_delete_eq key m : Map_get key (Map_delete key m) = None.
Proof.
  unfold Map_get, Map_delete.
  induction m as [|[k d] rest IH]; [reflexivity|]. cbn.
  destruct (String.eqb k key) eqn:E; cbn; [exact IH|].
  now rewrite E.
Qed.

Lemma Map_get_delete_ne key key' m :
  key <> key' -> Map_get key' (Map_delete key m) = Map_get key' m.
Proof.
  intros Hne. unfold Map_get, Map_delete.
  induction m as [|[k d] rest IH]; [reflexivity|]. cbn.
  destruct (String.eqb k key) eqn:E; cbn.
  - apply String.eqb_eq in E. subst k.
    replace (String.eqb key key') with false
      by (symmetry; now apply String.eqb_neq).
    exact IH.
  - destruct (String.eqb k key'); [reflexivity | exact IH].
Qed.

(** In a map every entry is the one [get] finds under its key. *)
Lemma Map_get_In key d m :
  List.NoDup (map fst m) -> In (key, d) m -> Map_get key m = Some d.
Proof.
  unfold Map_get.
  induction m as [|[k d'] rest IH]; intros Hnd Hin; [destruct Hin|].
  cbn in *. inversion Hnd as [|? ? Hnotin Hrest]; subst.
  destruct Hin as [Heq|Hin].
  - injection Heq as -> ->. now rewrite String.eqb_refl.
  - destruct (String.eqb k key) eqn:E.
    + apply String.eqb_eq in E. subst k.
      exfalso. apply Hnotin. change key with (fst (key, d)).
      now apply in_map.
    + now apply IH.
Qed.

Lemma Map_set_NoDup key value m :
  List.NoDup (map fst m) -> List.NoDup (map fst (Map_set key value m)).
Proof.
  assert (Hkeys : forall m k, In k (map fst (Map_set key value m)) ->
                              k = key \/ In k (map fst m)).
  { clear. induction m as [|[k0 d] rest IH]; cbn; intros k Hin.
    - destruct Hin as [<-|[]]. now left.
    - destruct (String.eqb k0 key); cbn in Hin.
      + right. exact Hin.
      + destruct Hin as [<-|Hin]; [right; now left|].
        destruct (IH _ Hin); [now left | right; now right]. }
  induction m as [|[k d] rest IH]; cbn; intros Hnd.
  - constructor; [intros [] | constructor].
  - inversion Hnd as [|? ? Hnotin Hrest]; subst.
    destruct (String.eqb k key) eqn:E; cbn.
    + constructor; assumption.
    + constructor; [|now apply IH].
      intros Hin. destruct (Hkeys _ _ Hin) as [->|Hin'].
      * now rewrite String.eqb_refl in E.
      * contradiction.
Qed.

(** ** One turn, summarised *)

Lemma monitor_entry_step key d w :
  Map_get key (pending_of w) = Some d ->
  let w1 := after (monitor_entry key) w in
  chain w1 = chain w /\
  pending_of w1
  = (if Tracking.is_pending w key then pending_of w
     else Map_delete key (pending_of w)) /\
  log w1
  = (log w ++
     match Tracking.status w key with
     | SolanaClient.pending => []
     | SolanaClient.confirmed => [Tracking.transaction_confirmed key]
     | SolanaClient.failed =>
         [Tracking.transaction_failed key;
          Tracking.recorded (PolicyDecision.size_or_0 d) false]
     end)%list /\
  RiskState.consecutiveLosses w1
  = RiskState.consecutiveLosses w + (if Tracking.is_failed w key then 1 else 0) /\
  (Tracking.is_failed w key = false -> redis w1 = redis w).
Proof.
  intros Hget. cbv zeta. unfold after at 1 2 3 4 5.
  rewrite exec_monitor_entry, Hget. cbn [snd].
  unfold Tracking.is_pending, Tracking.is_failed.
  destruct (Tracking.status w key).
  - (* confirmed *)
    cbn. rewrite Z.add_0_r. repeat split; reflexivity.
  - (* failed *)
    set (v := Tracking.untracked key
                (Tracking.logged (Tracking.transaction_failed key) w)).
    destruct (RiskManagerFacts.recordExecution_effect
                (PolicyDecision.size_or_0 d) false v)
      as (_ & _ & Hl & _).
    cbv zeta in Hl. rewrite Hl.
    unfold after. rewrite RiskManagerFacts.exec_recordExecution.
    cbv zeta. cbn [snd].
    split; [reflexivity|]. split; [reflexivity|].
    split; [|split; [reflexivity | discriminate]].
    cbn. rewrite <- app_assoc. reflexivity.
  - (* pending *)
    rewrite Z.add_0_r, app_nil_r. repeat split; reflexivity.
Qed.

(** ** The whole poll *)

Lemma exec_monitor_entries_cons key keys w :
  exec (monitor_entries (key :: keys)) w
  = exec (monitor_entries keys) (after (monitor_entry key) w).
Proof.
  cbn [monitor_entries]. rewrite exec_bind.
  unfold after. now rewrite exec_monitor_entry.
Qed.

Lemma filter_filter {A} (f g : A -> bool) (l : list A) :
  List.filter g (List.filter f l) = List.filter (fun x => f x && g x) l.
Proof.
  induction l as [|x l IH]; [reflexivity|]. cbn.
  destruct (f x); cbn; [destruct (g x)|]; now rewrite IH.
Qed.

Lemma filter_all {A} (f : A -> bool) (l : list A) :
  (forall x, In x l -> f x = true) -> List.filter f l = l.
Proof.
  induction l as [|x l IH]; intros H; [reflexivity|]. cbn.
  rewrite (H x) by now left. f_equal. apply IH. intros y Hy. apply H. now right.
Qed.

(** The entries of [todo], still in the map as the loop reaches them, are
    handled one by one. *)
Lemma monitor_entries_poll todo : forall w,
  List.NoDup (map fst todo) ->
  (forall key d, In (key, d) todo -> Map_get key (pending_of w) = Some d) ->
  let w' := after (monitor_entries (map fst todo)) w in
  let failures := List.filter (fun '(key, _) => Tracking.is_failed w key) todo in
  result (monitor_entries (map fst todo)) w = Returned tt /\
  chain w' = chain w /\
  pending_of w'
  = List.filter
      (fun '(key, _) =>
         negb (existsb (String.eqb key) (map fst todo))
         || Tracking.is_pending w key)
      (pending_of w) /\
  (exists new,
     log w' = (log w ++ new)%list /\
     Tracking.recordings new
     = map (fun '(_, d) => Tracking.recorded (PolicyDecision.size_or_0 d) false)
         failures) /\
  RiskState.consecutiveLosses w'
  = RiskState.consecutiveLosses w + Z.of_nat (length failures) /\
  (failures = [] -> redis w' = redis w).
Proof.
  induction todo as [|[key d] rest IH]; intros w Hnd Hget; cbv zeta.
  - cbn. rewrite Z.add_0_r. split; [reflexivity|]. split; [reflexivity|].
    split.
    { symmetry. apply filter_all. now intros [k0 d0] _. }
    split; [|split; reflexivity].
    exists []. now rewrite app_nil_r.
  - cbn [map fst]. unfold result, after.
    rewrite exec_monitor_entries_cons.
    inversion Hnd as [|? ? Hnotin Hrest]; subst.
    destruct (monitor_entry_step key d w (Hget key d (or_introl eq_refl)))
      as (Hchain & Hpend & Hlog & Hloss & Hredis).
    set (w1 := after (monitor_entry key) w) in *.
    assert (Hsame : forall k, Tracking.status w1 k = Tracking.status w k).
    { intros k. unfold Tracking.status. now rewrite Hchain. }
    assert (Hp : forall k, Tracking.is_pending w1 k = Tracking.is_pending w k).
    { intros k. unfold Tracking.is_pending. now rewrite Hsame. }
    assert (Hf : forall k, Tracking.is_failed w1 k = Tracking.is_failed w k).
    { intros k. unfold Tracking.is_failed. now rewrite Hsame. }
    assert (Hget1 : forall k d0, In (k, d0) rest ->
                                 Map_get k (pending_of w1) = Some d0).
    { intros k d0 Hin. rewrite Hpend.
      assert (key <> k).
      { intros ->. apply Hnotin. change k with (fst (k, d0)). now apply in_map. }
      destruct (Tracking.is_pending w key).
      - apply Hget. now right.
      - rewrite Map_get_delete_ne by assumption. apply Hget. now right. }
    destruct (IH w1 Hrest Hget1) as (Hres & Hchain' & Hpend' & Hlog' & Hloss' & Hredis').
    cbv zeta in *. unfold result, after in *.
    assert (Hfilt : List.filter (fun '(k, _) => Tracking.is_failed w1 k) rest
                    = List.filter (fun '(k, _) => Tracking.is_failed w k) rest).
    { apply filter_ext. intros [k0 d0]. apply Hf. }
    rewrite Hfilt in *. clear Hfilt.
    split; [exact Hres|]. split; [congruence|].
    split; [|split; [|split]].
    + rewrite Hpend', Hpend.
      replace (if Tracking.is_pending w key then pending_of w
               else Map_delete key (pending_of w))
        with (List.filter
                (fun '(k, _) => negb (String.eqb k key) || Tracking.is_pending w key)
                (pending_of w)).
      2:{ destruct (Tracking.is_pending w key).
          - apply filter_all. intros [k0 d0] _. apply orb_true_r.
          - unfold Map_delete. apply filter_ext. intros [k0 d0].
            apply orb_false_r. }
      rewrite filter_filter. apply filter_ext_in. intros [k0 d0] Hin.
      rewrite Hp. cbn [existsb].
      destruct (String.eqb k0 key) eqn:E; cbn.
      * apply String.eqb_eq in E. subst k0.
        destruct (Tracking.is_pending w key); cbn;
          [apply orb_true_r | reflexivity].
      * reflexivity.
    + destruct Hlog' as (new & Hnew & Hrec).
      eexists. split.
      { rewrite Hnew, Hlog, <- app_assoc. reflexivity. }
      unfold Tracking.recordings in *. rewrite List.filter_app, Hrec.
      cbn [List.filter]. unfold Tracking.is_failed.
      destruct (Tracking.status w key); reflexivity.
    + rewrite Hloss', Hloss. cbn [List.filter].
      destruct (Tracking.is_failed w key); cbn [length]; lia.
    + cbn [List.filter].
      destruct (Tracking.is_failed w key); [discriminate|].
      intros Hnone. rewrite Hredis' by exact Hnone. now apply Hredis.
Qed.

Lemma exec_monitorPendingTransactions w :
  exec monitorPendingTransactions w
  = exec (monitor_entries (map fst (pending_of w))) w.
Proof. unfold monitorPendingTransactions. now rewrite exec_bind. Qed.

(** Entries that are all still pending: the poll changes nothing. *)
Lemma monitor_entries_all_pending keys : forall w,
  (forall key, In key keys -> Tracking.is_pending w key = true) ->
  exec (monitor_entries keys) w = (Returned tt, w).
Proof.
  induction keys as [|key rest IH]; intros w Hall; [reflexivity|].
  rewrite exec_monitor_entries_cons.
  assert (Hsame : after (monitor_entry key) w = w).
  { unfold after. rewrite exec_monitor_entry. cbn [snd].
    specialize (Hall key (or_introl eq_refl)).
    unfold Tracking.is_pending in Hall.
    destruct (Map_get key (pending_of w)); [|reflexivity].
    destruct (Tracking.status w key); (reflexivity || discriminate). }
  rewrite Hsame. apply IH. intros k Hin. apply Hall. now right.
Qed.

(** C5. One poll over the active set, run alone.  The references whose
    status is pending stay in the set, in order and unchanged, and the
    others leave it.  [recordExecution] is called once, with the size of the
    decision (or 0) and [false], for each reference that failed, and for no
    other: a failed reference is handled as one such call after its removal,
    a confirmed one by its removal alone, a pending one not at all.  A second
    poll right after the first changes nothing, and a reference that is no
    longer in the set is never acted on again. *)
Theorem monitorPendingTransactions_poll (w : World) :
  let m := pending_of w in
  List.NoDup (map fst m) ->
  let w' := after monitorPendingTransactions w in
  let failures := List.filter (fun '(key, _) => Tracking.is_failed w key) m in
  result monitorPendingTransactions w = Returned tt /\
  pending_of w' = List.filter (fun '(key, _) => Tracking.is_pending w key) m /\
  (exists new,
     log w' = (log w ++ new)%list /\
     Tracking.recordings new
     = map (fun '(_, d) => Tracking.recorded (PolicyDecision.size_or_0 d) false)
         failures) /\
  RiskState.consecutiveLosses w'
  = RiskState.consecutiveLosses w + Z.of_nat (length failures) /\
  (failures = [] -> redis w' = redis w) /\
  after monitorPendingTransactions w' = w' /\
  (forall key d v,
     Map_get key (pending_of v) = Some d ->
     after (monitor_entry key) v =
     match Tracking.status v key with
     | SolanaClient.pending => v
     | SolanaClient.confirmed =>
         Tracking.untracked key
           (Tracking.logged (Tracking.transaction_confirmed key) v)
     | SolanaClient.failed =>
         after (RiskManager.recordExecution (PolicyDecision.size_or_0 d) false)
           (Tracking.untracked key
              (Tracking.logged (Tracking.transaction_failed key) v))
     end) /\
  (forall key v,
     Map_get key (pending_of v) = None -> after (monitor_entry key) v = v).
Proof.
  intros m Hnd w' failures.
  assert (Hget : forall key d, In (key, d) m -> Map_get key (pending_of w) = Some d).
  { intros key d Hin. now apply Map_get_In. }
  destruct (monitor_entries_poll m w Hnd Hget)
    as (Hres & Hchain & Hpend & Hlog & Hloss & Hredis).
  cbv zeta in *. unfold result, after in *.
  subst w'. unfold after.
  rewrite !exec_monitorPendingTransactions. fold m.
  assert (Hpend' : pending_of (snd (exec (monitor_entries (map fst m)) w))
                   = List.filter (fun '(key, _) => Tracking.is_pending w key) m).
  { rewrite Hpend. apply filter_ext_in. intros [k0 d0] Hin.
    replace (existsb (String.eqb k0) (map fst m)) with true; [reflexivity|].
    symmetry. apply existsb_exists. exists k0. split.
    - change k0 with (fst (k0, d0)). now apply in_map.
    - apply String.eqb_refl. }
  split; [exact Hres|]. split; [exact Hpend'|].
  split; [exact Hlog|]. split; [exact Hloss|]. split; [exact Hredis|].
  split; [|split].
  - rewrite Hpend'.
    rewrite monitor_entries_all_pending; [reflexivity|].
    intros key Hin. apply in_map_iff in Hin. destruct Hin as ([k0 d0] & <- & Hin).
    apply filter_In in Hin. destruct Hin as [_ Hp]. cbn [fst].
    unfold Tracking.is_pending, Tracking.status in *. now rewrite Hchain.
  - intros key d v Hv. rewrite exec_monitor_entry, Hv. reflexivity.
  - intros key v Hv. rewrite exec_monitor_entry, Hv. reflexivity.
Qed.

(** Of the three transactions of [Sample.tracking] the poll keeps [sigB],
    and records one failed execution of 10. *)
Lemma monitorPendingTransactions_poll_witness :
  let w' := after monitorPendingTransactions Sample.tracking in
  pending_of w' = [("sigB", Sample.buyback 20)] /\
  RiskState.consecutiveLosses w' = 1 /\
  after monitorPendingTransactions w' = w'.
Proof.
  intros w'.
  destruct (monitorPendingTransactions_poll Sample.tracking)
    as (_ & Hpend & _ & Hloss & _ & Hidem & _).
  { vm_compute. repeat constructor; cbn; intuition discriminate. }
  split; [exact Hpend|]. split; [exact Hloss | exact Hidem].
Defined.

End MonitorFacts.

(* ===================================================================== *)
(** * executor/executor: executing a decision *)
(* ===================================================================== *)

Module ExecutorFacts.

Import Task TaskFacts Executor.

(** The calls of [recordExecution] the log of a world shows. *)
#[local] Abbreviation recorded_calls := (fun w : World => Tracking.recordings (log w)).

Lemma recordings_logged (l : list Logger.Entry) (e : Logger.Entry) :
  Logger.is_message "Execution recorded" e = false ->
  Tracking.recordings (l ++ [e]) = Tracking.recordings l.
Proof.
  intros H. unfold Tracking.recordings.
  rewrite List.filter_app. cbn. rewrite H. apply app_nil_r.
Qed.

Lemma recordings_recorded (l : list Logger.Entry) amount success :
  Tracking.recordings (l ++ [Tracking.recorded amount success])
  = (Tracking.recordings l ++ [Tracking.recorded amount success])%list.
Proof. unfold Tracking.recordings. now rewrite List.filter_app. Qed.

(** Proves that a task writes no line of [recordExecution] to the log. *)
Ltac silent_tac :=
  repeat first
    [ keeps_step
    | match goal with
      | |- Tracking.recordings (_ ++ [_]) = _ =>
          apply recordings_logged; reflexivity
      end ].

Lemma try_catch_returns {A} (m : t A) (h : string -> t A) :
  (forall e, returns (h e)) -> returns (try_catch m h).
Proof.
  intros Hh w. rewrite exec_try_catch.
  destruct (exec m w) as [[a|e] w1]; [now exists a, w1 | apply Hh].
Qed.

Lemma createResult_returns decision success error txSignature amount :
  returns (createResult decision success error txSignature amount).
Proof. intros w. eexists. eexists. reflexivity. Qed.

Lemma failure_handler_returns message decision e :
  returns (Effects.logger Logger.error message
             [("error", Logger.VStr (Text.lit e))] ;;;
           createResult decision false (Some (Text.lit e)) None None).
Proof. intros w. eexists. eexists. reflexivity. Qed.

#[local] Arguments Tracking.recordings : simpl never.

Lemma canExecute_silent policy amount :
  keeps recorded_calls (RiskManager.canExecute policy amount).
Proof. unfold RiskManager.canExecute. silent_tac. Qed.

Lemma executeSwap_silent inputMint outputMint amount slippageBps :
  keeps recorded_calls
    (SolanaClient.executeSwap inputMint outputMint amount slippageBps).
Proof. unfold SolanaClient.executeSwap. silent_tac. Qed.

Lemma getTokenBalance_silent tokenMint :
  keeps recorded_calls (SolanaClient.getTokenBalance tokenMint).
Proof. unfold SolanaClient.getTokenBalance. silent_tac. Qed.

Lemma burnTokens_silent tokenMint amount :
  keeps recorded_calls (SolanaClient.burnTokens tokenMint amount).
Proof. unfold SolanaClient.burnTokens. silent_tac. Qed.

Lemma createResult_silent decision success error txSignature amount :
  keeps recorded_calls (createResult decision success error txSignature amount).
Proof. unfold createResult. silent_tac. Qed.

Lemma storeResult_silent result : keeps recorded_calls (storeResult result).
Proof. unfold storeResult. silent_tac. Qed.

Lemma storeResult_returns result : returns (storeResult result).
Proof. intros w. eexists. eexists. reflexivity. Qed.

Section WithConfig.

Variable config : Config.t.

Lemma executeBuyback_silent decision :
  keeps recorded_calls (executeBuyback config decision).
Proof.
  unfold executeBuyback.
  destruct (PolicyDecision.executionParams decision) as [params|];
    [|apply createResult_silent].
  destruct (ExecutionParams.size params) as [size|];
    [|apply createResult_silent].
  destruct (negb (Js.truthy size)); [apply createResult_silent|].
  apply keeps_try_catch.
  - apply keeps_bind; [apply canExecute_silent|intros riskCheck].
    destruct (negb _); [apply createResult_silent|].
    destruct (String.eqb _ _); [apply createResult_silent|].
    apply keeps_bind; [apply executeSwap_silent|intros txSignature].
    apply keeps_bind; [silent_tac|intros _].
    apply keeps_bind; [silent_tac|intros _].
    apply createResult_silent.
  - intros e. apply keeps_bind; [silent_tac|intros _]. apply createResult_silent.
Qed.

Lemma executeBurn_silent decision :
  keeps recorded_calls (executeBurn config decision).
Proof.
  unfold executeBurn.
  destruct (negb _); [apply createResult_silent|].
  apply keeps_try_catch.
  - destruct (String.eqb _ _); [apply createResult_silent|].
    apply keeps_bind; [apply getTokenBalance_silent|intros balance].
    destruct (Js.strict_eq _ _); [apply createResult_silent|].
    apply keeps_bind; [apply burnTokens_silent|intros txSignature].
    apply keeps_bind; [silent_tac|intros _].
    apply createResult_silent.
  - intros e. apply keeps_bind; [silent_tac|intros _]. apply createResult_silent.
Qed.

Lemma executeBuyback_returns decision : returns (executeBuyback config decision).
Proof.
  unfold executeBuyback.
  destruct (PolicyDecision.executionParams decision) as [params|];
    [|apply createResult_returns].
  destruct (ExecutionParams.size params) as [size|];
    [|apply createResult_returns].
  destruct (negb (Js.truthy size)); [apply createResult_returns|].
  apply try_catch_returns. intros e. apply failure_handler_returns.
Qed.

Lemma executeBurn_returns decision : returns (executeBurn config decision).
Proof.
  unfold executeBurn.
  destruct (negb _); [apply createResult_returns|].
  apply try_catch_returns. intros e. apply failure_handler_returns.
Qed.

(** The [switch] of [execute]. *)
Let dispatch (decision : PolicyDecision.t) : Task.t ExecutionResult.t :=
  match PolicyDecision.action decision with
  | BUYBACK => executeBuyback config decision
  | BURN => executeBurn config decision
  | HODL_TREASURY
  | NOOP =>
      createResult decision true (Some (Text.lit "No action required")) None None
  end.

Lemma dispatch_returns decision : returns (dispatch decision).
Proof.
  unfold dispatch. destruct (PolicyDecision.action decision).
  - apply createResult_returns.
  - apply executeBuyback_returns.
  - apply executeBurn_returns.
  - apply createResult_returns.
Qed.

Lemma dispatch_silent decision : keeps recorded_calls (dispatch decision).
Proof.
  unfold dispatch. destruct (PolicyDecision.action decision).
  - apply createResult_silent.
  - apply executeBuyback_silent.
  - apply executeBurn_silent.
  - apply createResult_silent.
Qed.

(** With auto-execution on, [execute] is the action, then one
    [recordExecution], then [storeResult] and the closing log line. *)
Lemma exec_execute decision w :
  Config.enableAutoExecution (Config.features config) = true ->
  exists r w1,
    exec (dispatch decision) w = (Returned r, w1) /\
    exec (execute config decision) w =
    (Returned r,
     let w2 := after (RiskManager.recordExecution
                        (PolicyDecision.size_or_0 decision)
                        (ExecutionResult.success r)) w1 in
     let w3 := after (storeResult r) w2 in
     Tracking.logged
       {| Logger.level := Logger.info;
          Logger.message := "Execution complete";
          Logger.context :=
            [("action", Logger.VStr
                          (Text.lit (DecisionEngine.action_name
                                       (PolicyDecision.action decision))));
             ("success", Logger.VBool (ExecutionResult.success r));
             ("duration", Logger.VInt (now w3 - now w))] |} w3).
Proof.
  intros Hon.
  destruct (dispatch_returns decision w) as (r & w1 & E1).
  exists r, w1. split; [exact E1|].
  unfold execute. rewrite exec_bind. cbn [exec run Effects.new_Date sync fst].
  rewrite exec_try_catch, Hon. cbn [negb].
  rewrite exec_bind. fold (dispatch decision). rewrite E1.
  cbv zeta.
  set (w2 := after (RiskManager.recordExecution
                      (PolicyDecision.size_or_0 decision)
                      (ExecutionResult.success r)) w1).
  assert (E2 : exec (RiskManager.recordExecution
                       (PolicyDecision.size_or_0 decision)
                       (ExecutionResult.success r)) w1 = (Returned tt, w2)).
  { unfold w2, after. now rewrite RiskManagerFacts.exec_recordExecution. }
  rewrite exec_bind, E2, exec_bind.
  destruct (storeResult_returns r w2) as ([] & w3 & E3).
  unfold after. rewrite !E3. reflexivity.
Qed.

End WithConfig.

(** The risk keys and the clock: all that the risk state depends on. *)
#[local] Abbreviation risk_view := (fun w : World => (Redis.risk (redis w), now w)).

Lemma storeResult_keeps_risk result : keeps risk_view (storeResult result).
Proof. unfold storeResult. keeps_tac. Qed.

Lemma risk_state_of_view v w :
  risk_view v = risk_view w ->
  RiskState.consecutiveLosses v = RiskState.consecutiveLosses w /\
  RiskState.lastExecutionTime v = RiskState.lastExecutionTime w /\
  RiskState.dailySpent v = RiskState.dailySpent w.
Proof.
  intros H. injection H as Hr Hn.
  unfold RiskState.consecutiveLosses, RiskState.lastExecutionTime,
    RiskState.dailySpent.
  now rewrite Hr, Hn.
Qed.

(** What [execute] records, with the amount as [execute] computes it. *)
Lemma execute_records (config : Config.t) (decision : PolicyDecision.t)
  (w : World) :
  Config.enableAutoExecution (Config.features config) = true ->
  let w' := after (execute config decision) w in
  exists r,
    result (execute config decision) w = Returned r /\
    Tracking.recordings (log w')
    = (Tracking.recordings (log w) ++
       [Tracking.recorded (PolicyDecision.size_or_0 decision)
          (ExecutionResult.success r)])%list /\
    (PolicyDecision.action decision = NOOP \/
     PolicyDecision.action decision = HODL_TREASURY ->
       ExecutionResult.success r = true /\
       RiskState.consecutiveLosses w' = 0 /\
       RiskState.lastExecutionTime w' = Some (now w) /\
       RiskState.dailySpent w'
       = (RiskState.dailySpent w + PolicyDecision.size_or_0 decision)%float).
Proof.
  intros Hon w'.
  destruct (exec_execute config decision w Hon) as (r & w1 & E1 & E).
  cbv zeta in E. subst w'. unfold result, after.
  rewrite E. cbn [fst snd].
  set (amount := PolicyDecision.size_or_0 decision) in *.
  set (w2 := after (RiskManager.recordExecution amount
                      (ExecutionResult.success r)) w1) in *.
  exists r. split; [reflexivity|]. split.
  - unfold Tracking.logged. cbn [log with_log].
    rewrite recordings_logged by reflexivity.
    rewrite (after_keeps recorded_calls (storeResult r) w2
               (storeResult_silent r)).
    unfold w2, after. rewrite RiskManagerFacts.exec_recordExecution.
    cbv zeta. cbn [snd log with_log with_redis].
    fold (Tracking.recorded amount (ExecutionResult.success r)).
    rewrite recordings_recorded. f_equal.
    pose proof (after_keeps recorded_calls _ w (dispatch_silent config decision))
      as Hsilent.
    unfold after in Hsilent. cbv zeta in E1. rewrite E1 in Hsilent.
    exact Hsilent.
  - intros Hidle.
    assert (Hr : ExecutionResult.success r = true /\ w1 = w).
    { cbv zeta in E1.
      destruct Hidle as [Ha|Ha]; rewrite Ha in E1;
        injection E1 as <- <-; split; reflexivity. }
    destruct Hr as [Hsuccess ->]. split; [exact Hsuccess|].
    destruct (risk_state_of_view
                (Tracking.logged
                   {| Logger.level := Logger.info;
                      Logger.message := "Execution complete";
                      Logger.context :=
                        [("action", Logger.VStr
                                      (Text.lit (DecisionEngine.action_name
                                                   (PolicyDecision.action decision))));
                         ("success", Logger.VBool (ExecutionResult.success r));
                         ("duration",
                          Logger.VInt (now (after (storeResult r) w2) - now w))] |}
                   (after (storeResult r) w2))
                w2)
      as (Hl & Ht & Hd).
    { exact (after_keeps risk_view (storeResult r) w2 (storeResult_keeps_risk r)). }
    rewrite Hl, Ht, Hd.
    destruct (RiskManagerFacts.recordExecution_effect amount
                (ExecutionResult.success r) w)
      as (_ & Hd' & Hl' & Ht' & _).
    cbv zeta in *. fold w2 in Hd', Hl', Ht'.
    rewrite Hd', Hl', Ht', Hsuccess. repeat split; reflexivity.
Qed.

(** [decision.executionParams?.size || 0], spelled out: the size when there
    is one that is not 0, -0 or NaN, and 0 otherwise. *)
Lemma size_or_0_cases (decision : PolicyDecision.t) :
  match PolicyDecision.executionParams decision with
  | None => PolicyDecision.size_or_0 decision = 0%float
  | Some params =>
      match ExecutionParams.size params with
      | None => PolicyDecision.size_or_0 decision = 0%float
      | Some size =>
          if PrimFloat.eqb size 0 || negb (PrimFloat.eqb size size)
          then PolicyDecision.size_or_0 decision = 0%float
          else PolicyDecision.size_or_0 decision = size
      end
  end.
Proof.
  unfold PolicyDecision.size_or_0, PolicyDecision.size, Js.or_else, Js.truthy,
    Js.isNaN.
  destruct (PolicyDecision.executionParams decision) as [params|];
    [|reflexivity].
  destruct (ExecutionParams.size params) as [size|]; [|reflexivity].
  destruct (PrimFloat.eqb size 0 || negb (PrimFloat.eqb size size));
    reflexivity.
Qed.

(** C10. With auto-execution enabled, [execute(decision)] returns a result
    and calls [recordExecution] exactly once, whatever the action: the log
    gains one line "Execution recorded", with the success flag of the result
    and with the amount [decision.executionParams?.size || 0], that is the
    size of the decision when it has one (that is not 0, -0 or NaN) and 0
    when the execution parameters or the size are absent.  For NOOP and HODL
    the result is a success, so that executing such a decision sets the loss
    counter to 0 and the last execution time to the current time (and adds
    the amount to the spend of the day). *)
Theorem execute_records_once (config : Config.t) (decision : PolicyDecision.t)
  (w : World) :
  Config.enableAutoExecution (Config.features config) = true ->
  let w' := after (execute config decision) w in
  exists r amount,
    result (execute config decision) w = Returned r /\
    match PolicyDecision.executionParams decision with
    | None => amount = 0%float
    | Some params =>
        match ExecutionParams.size params with
        | None => amount = 0%float
        | Some size =>
            if PrimFloat.eqb size 0 || negb (PrimFloat.eqb size size)
            then amount = 0%float
            else amount = size
        end
    end /\
    Tracking.recordings (log w')
    = (Tracking.recordings (log w) ++
       [{| Logger.level := Logger.info;
           Logger.message := "Execution recorded";
           Logger.context :=
             [("amount", Logger.VNum amount);
              ("success", Logger.VBool (ExecutionResult.success r))] |}])%list /\
    (PolicyDecision.action decision = NOOP \/
     PolicyDecision.action decision = HODL_TREASURY ->
       ExecutionResult.success r = true /\
       RiskState.consecutiveLosses w' = 0 /\
       RiskState.lastExecutionTime w' = Some (now w) /\
       RiskState.dailySpent w' = (RiskState.dailySpent w + amount)%float).
Proof.
  intros Hon w'.
  destruct (execute_records config decision w Hon) as (r & Hr & Hlog & Hidle).
  exists r, (PolicyDecision.size_or_0 decision).
  split; [exact Hr|]. split; [|split; [exact Hlog | exact Hidle]].
  pose proof (size_or_0_cases decision) as H.
  destruct (PolicyDecision.executionParams decision) as [params|];
    [|exact H].
  destruct (ExecutionParams.size params) as [size|]; [|exact H].
  exact H.
Qed.

(** A NOOP executed after two failed executions: the loss counter goes from
    2 back to 0 and the amount recorded is 0.  A buyback of 10 that fails
    (no token is configured): the amount recorded is 10. *)
Lemma execute_records_once_witness :
  let w := after (RiskManager.recordExecution 10 false)
             (after (RiskManager.recordExecution 10 false) (Sample.funded 1000)) in
  let w' := after (execute Sample.auto_config (Sample.plain NOOP)) w in
  let v' := after (execute Sample.auto_config (Sample.buyback 10))
              (Sample.funded 1000) in
  RiskState.consecutiveLosses w = 2 /\
  RiskState.consecutiveLosses w' = 0 /\
  RiskState.lastExecutionTime w' = Some (now w) /\
  Tracking.recordings (log w')
  = (Tracking.recordings (log w) ++
     [{| Logger.level := Logger.info;
         Logger.message := "Execution recorded";
         Logger.context := [("amount", Logger.VNum 0);
                            ("success", Logger.VBool true)] |}])%list /\
  Tracking.recordings (log v')
  = [{| Logger.level := Logger.info;
        Logger.message := "Execution recorded";
        Logger.context := [("amount", Logger.VNum 10);
                           ("success", Logger.VBool false)] |}].
Proof.
  intros w w' v'.
  destruct (execute_records_once Sample.auto_config (Sample.plain NOOP) w eq_refl)
    as (r & amount & Hr & Hamount & Hlog & Hidle).
  destruct (Hidle (or_introl eq_refl)) as (Hs & Hl & Ht & _).
  cbn in Hamount. subst amount.
  destruct (execute_records_once Sample.auto_config (Sample.buyback 10)
              (Sample.funded 1000) eq_refl)
    as (r' & amount' & Hr' & Hamount' & Hlog' & _).
  cbn in Hamount'. subst amount'.
  assert (Hs' : ExecutionResult.success r' = false).
  { revert Hr'. vm_compute. intros Hr'. injection Hr' as <-. reflexivity. }
  split; [vm_compute; reflexivity|].
  split; [exact Hl|]. split; [exact Ht|]. split.
  - rewrite Hs in Hlog. exact Hlog.
  - rewrite Hs' in Hlog'. exact Hlog'.
Defined.

End ExecutorFacts.

(* ===================================================================== *)
(** * policy/risk-manager: the gate among other tasks *)
(* ===================================================================== *)

Module InterleavingFacts.

Import Task TaskFacts RiskManager Verdict SpecReading.

(** C7 (as amended). Within one call, [canExecute] reads the treasury
    balance from the store once, with its second request, and keeps it in a
    local constant: the reserve check and the daily-limit check both use
    that value.  With four requests, none of which fails, and whatever the
    other tasks do in between, the answer is made of the kill switch as of
    the first request, the balance as of the second, the daily spend as of
    the third and the loss count as of the fourth; a balance stored after
    the second request is not seen by the daily-limit check. *)
Theorem canExecute_interleaved policy amount s1 s2 s3 s4 rest w :
  failure s1 = None -> failure s2 = None ->
  failure s3 = None -> failure s4 = None ->
  let w1 := interference s1 w in
  let w2 := interference s2 w1 in
  let w3 := interference s3 w2 in
  let w4 := interference s4 w3 in
  let treasuryBalance := RiskState.treasuryBalance w2 in
  let minReserve :=
    (treasuryBalance * Config.minTreasuryThreshold policy)%float in
  let maxDailySpend :=
    (treasuryBalance * (Config.maxDailySpendPercent policy / 100))%float in
  let dailySpent :=
    match Redis.get_daily_spent (now w3) (day_of (now w2))
            (Redis.risk (redis w3)) with
    | Some v => v
    | None => 0%float
    end in
  answer (canExecute policy amount) (s1 :: s2 :: s3 :: s4 :: rest) w =
  Returned
    (if RiskState.killSwitchActive w1 then rejected_kill_switch
     else if Js.lt (treasuryBalance - amount)%float minReserve
     then rejected_reserve minReserve
     else if Js.gt (dailySpent + amount)%float maxDailySpend
     then rejected_daily_limit dailySpent maxDailySpend
     else if RiskState.consecutiveLosses w4 >=? Config.maxConsecutiveLosses policy
     then rejected_losses (RiskState.consecutiveLosses w4)
     else permitted).
Proof.
  intros F1 F2 F3 F4. cbv zeta.
  unfold answer, canExecute, isKillSwitchActive, getTreasuryBalance,
    getDailySpent, getConsecutiveLosses, Effects.redis_read, Effects.new_Date.
  cbn [run try_catch bind await sync]. rewrite F1.
  cbn [run try_catch bind].
  fold (RiskState.killSwitchActive (interference s1 w)).
  destruct (RiskState.killSwitchActive (interference s1 w)); [reflexivity|].
  cbn [run try_catch bind]. rewrite F2. cbn [run try_catch bind].
  fold (RiskState.treasuryBalance (interference s2 (interference s1 w))).
  destruct (Js.lt _ _); [reflexivity|].
  cbn [run try_catch bind]. rewrite F3. cbn [run try_catch bind].
  destruct (Js.gt _ _); [reflexivity|].
  cbn [run try_catch bind]. rewrite F4. cbn [run try_catch bind].
  fold (RiskState.consecutiveLosses
          (interference s4 (interference s3 (interference s2 (interference s1 w))))).
  destruct (_ >=? _); reflexivity.
Qed.

(** The treasury holds 1000 when the balance is read and 10 by the time the
    daily spend is read: 20 passes the daily limit of 5 percent of 1000. *)
Lemma canExecute_interleaved_witness :
  answer (canExecute Config.default_policy 20) Sample.balance_drop
    (Sample.funded 1000)
  = Returned permitted.
Proof.
  exact (canExecute_interleaved Config.default_policy 20
           Sample.calm Sample.calm (Sample.balance_becomes 10) Sample.calm []
           (Sample.funded 1000) eq_refl eq_refl eq_refl eq_refl).
Defined.

(** C7 as the specification states it fails: on the same schedule a daily
    check that saw the balance current when it runs (10) would refuse 20,
    its limit being 0.5; the source allows it. *)
Lemma canExecute_not_fresh :
  answer (canExecute Config.default_policy 20) Sample.balance_drop
    (Sample.funded 1000)
  = Returned permitted /\
  answer (canExecute_fresh Config.default_policy 20) Sample.balance_drop
    (Sample.funded 1000)
  = Returned (rejected_daily_limit 0 0.5) /\
  answer (canExecute Config.default_policy 20) Sample.balance_drop
    (Sample.funded 1000)
  <> answer (canExecute_fresh Config.default_policy 20) Sample.balance_drop
       (Sample.funded 1000).
Proof.
  assert (Hcode : answer (canExecute Config.default_policy 20)
                    Sample.balance_drop (Sample.funded 1000)
                  = Returned permitted) by (vm_compute; reflexivity).
  assert (Hfresh : answer (canExecute_fresh Config.default_policy 20)
                     Sample.balance_drop (Sample.funded 1000)
                   = Returned (rejected_daily_limit 0 0.5))
    by (vm_compute; reflexivity).
  split; [exact Hcode|]. split; [exact Hfresh|].
  rewrite Hcode, Hfresh. discriminate.
Qed.

(** Run alone, the two readings agree: they differ only when the balance
    changes during the call. *)
Lemma canExecute_fresh_alone policy amount w :
  answer (canExecute_fresh policy amount) [] w
  = answer (canExecute policy amount) [] w.
Proof.
  unfold answer. rewrite !run_exec. cbn [fst].
  rewrite RiskManagerFacts.exec_canExecute.
  unfold canExecute_fresh, Verdict.gate.
  rewrite exec_try_catch, exec_bind, RiskManagerFacts.exec_isKillSwitchActive.
  destruct (RiskState.killSwitchActive w); [reflexivity|].
  rewrite exec_bind, RiskManagerFacts.exec_getTreasuryBalance. cbv zeta.
  destruct (Js.lt _ _); [reflexivity|].
  rewrite exec_bind, RiskManagerFacts.exec_getDailySpent.
  rewrite exec_bind. cbn [exec run current_balance sync fst].
  destruct (Js.gt _ _); [reflexivity|].
  rewrite exec_bind, RiskManagerFacts.exec_getConsecutiveLosses.
  destruct (_ >=? _); reflexivity.
Qed.

End InterleavingFacts.

(* ===================================================================== *)
(** * Failures stay inside *)
(* ===================================================================== *)

Module RobustnessFacts.

Import Task TaskFacts.

(** A [try/catch] whose handler cannot throw does not throw, whatever the
    schedule. *)
Lemma try_catch_answers {A} (m : t A) (h : string -> t A) :
  (forall e schedule w, exists a, answer (h e) schedule w = Returned a) ->
  forall schedule w, exists a, answer (try_catch m h) schedule w = Returned a.
Proof.
  intros Hh schedule w. unfold answer in *. rewrite run_try_catch.
  destruct (run m schedule w) as [[[a|e] w1] rest]; cbn [fst].
  - now exists a.
  - apply Hh.
Qed.

(** X1. [canExecute] never throws: whatever the other tasks do and whichever
    requests fail, it returns an answer.  A request that fails is answered
    by the refusal "Risk check error": this is the answer when the first
    request (the kill switch) fails, when the second (the balance) fails
    with the switch off, when the third (the spend of the day) fails after
    the reserve check has passed, and when the fourth (the loss counter)
    fails after the daily-limit check has passed. *)
Theorem canExecute_always_answers policy amount :
  let error := {| RiskManager.allowed := false;
                  RiskManager.reason := Some (Text.lit "Risk check error") |} in
  (forall schedule w,
     exists r, answer (RiskManager.canExecute policy amount) schedule w = Returned r) /\
  (forall s1 rest e w,
     failure s1 = Some e ->
     answer (RiskManager.canExecute policy amount) (s1 :: rest) w
     = Returned error) /\
  (forall s1 s2 rest e w,
     failure s1 = None -> failure s2 = Some e ->
     RiskState.killSwitchActive (interference s1 w) = false ->
     answer (RiskManager.canExecute policy amount) (s1 :: s2 :: rest) w
     = Returned error) /\
  (forall s1 s2 s3 rest e w,
     failure s1 = None -> failure s2 = None -> failure s3 = Some e ->
     let w1 := interference s1 w in
     let w2 := interference s2 w1 in
     let treasuryBalance := RiskState.treasuryBalance w2 in
     RiskState.killSwitchActive w1 = false ->
     Js.lt (treasuryBalance - amount)%float
       (treasuryBalance * Config.minTreasuryThreshold policy)%float = false ->
     answer (RiskManager.canExecute policy amount) (s1 :: s2 :: s3 :: rest) w
     = Returned error) /\
  (forall s1 s2 s3 s4 rest e w,
     failure s1 = None -> failure s2 = None -> failure s3 = None ->
     failure s4 = Some e ->
     let w1 := interference s1 w in
     let w2 := interference s2 w1 in
     let w3 := interference s3 w2 in
     let treasuryBalance := RiskState.treasuryBalance w2 in
     let dailySpent :=
       match Redis.get_daily_spent (now w3) (day_of (now w2))
               (Redis.risk (redis w3)) with
       | Some v => v
       | None => 0%float
       end in
     RiskState.killSwitchActive w1 = false ->
     Js.lt (treasuryBalance - amount)%float
       (treasuryBalance * Config.minTreasuryThreshold policy)%float = false ->
     Js.gt (dailySpent + amount)%float
       (treasuryBalance * (Config.maxDailySpendPercent policy / 100))%float
     = false ->
     answer (RiskManager.canExecute policy amount)
       (s1 :: s2 :: s3 :: s4 :: rest) w
     = Returned error).
Proof.
  cbv zeta. split.
  { intros schedule w. unfold RiskManager.canExecute. apply try_catch_answers.
    intros e s v. eexists. reflexivity. }
  unfold answer, RiskManager.canExecute, RiskManager.isKillSwitchActive,
    RiskManager.getTreasuryBalance, RiskManager.getDailySpent,
    RiskManager.getConsecutiveLosses, Effects.redis_read, Effects.new_Date,
    Effects.logger.
  split; [|split; [|split]].
  - intros s1 rest e w F1.
    cbn [run try_catch bind await sync]. rewrite F1. reflexivity.
  - intros s1 s2 rest e w F1 F2 Hoff.
    cbn [run try_catch bind await sync]. rewrite F1.
    cbn [run try_catch bind].
    fold (RiskState.killSwitchActive (interference s1 w)). rewrite Hoff.
    cbn [run try_catch bind]. rewrite F2. reflexivity.
  - intros s1 s2 s3 rest e w F1 F2 F3 Hoff Hreserve.
    cbn [run try_catch bind await sync]. rewrite F1.
    cbn [run try_catch bind].
    fold (RiskState.killSwitchActive (interference s1 w)). rewrite Hoff.
    cbn [run try_catch bind]. rewrite F2. cbn [run try_catch bind].
    fold (RiskState.treasuryBalance (interference s2 (interference s1 w))).
    rewrite Hreserve.
    cbn [run try_catch bind]. rewrite F3. reflexivity.
  - intros s1 s2 s3 s4 rest e w F1 F2 F3 F4 Hoff Hreserve Hdaily.
    cbn [run try_catch bind await sync]. rewrite F1.
    cbn [run try_catch bind].
    fold (RiskState.killSwitchActive (interference s1 w)). rewrite Hoff.
    cbn [run try_catch bind]. rewrite F2. cbn [run try_catch bind].
    fold (RiskState.treasuryBalance (interference s2 (interference s1 w))).
    rewrite Hreserve.
    cbn [run try_catch bind]. rewrite F3. cbn [run try_catch bind].
    rewrite Hdaily.
    cbn [run try_catch bind]. rewrite F4. reflexivity.
Qed.

(** The store stops answering after the kill switch has been read: the
    transfer of 20 from a treasury of 1000 is refused. *)
Lemma canExecute_always_answers_witness :
  answer (RiskManager.canExecute Config.default_policy 20)
    [Sample.calm; Scenario.broken "ECONNRESET"] (Sample.funded 1000)
  = Returned {| RiskManager.allowed := false;
                RiskManager.reason := Some (Text.lit "Risk check error") |}.
Proof.
  destruct (canExecute_always_answers Config.default_policy 20)
    as (_ & _ & Hsecond & _).
  exact (Hsecond Sample.calm (Scenario.broken "ECONNRESET") [] "ECONNRESET"
           (Sample.funded 1000) eq_refl eq_refl eq_refl).
Defined.

(** The five reads of [getRiskMetrics]: the first that fails is thrown. *)
Lemma getRiskMetrics_throws pre slot rest e w :
  (length pre < 5)%nat ->
  Forall (fun s => failure s = None) pre ->
  failure slot = Some e ->
  exists w',
    run RiskManager.getRiskMetrics (pre ++ slot :: rest) w = (Thrown e, w', rest).
Proof.
  intros Hlen Hpre Hfail.
  unfold RiskManager.getRiskMetrics, RiskManager.isKillSwitchActive,
    RiskManager.getTreasuryBalance, RiskManager.getDailySpent,
    RiskManager.getConsecutiveLosses, RiskManager.getLastExecutionTime,
    Effects.redis_read, Effects.new_Date, Effects.logger.
  destruct pre as [|s1 [|s2 [|s3 [|s4 [|s5 pre]]]]];
    cbn [length] in Hlen; try lia;
    repeat match goal with
           | H : Forall _ (_ :: _) |- _ => inversion H; subst; clear H
           end;
    cbn [app run try_catch bind await sync];
    repeat match goal with
           | H : failure _ = _ |- _ => rewrite H; cbn [run try_catch bind]
           end;
    eexists; reflexivity.
Qed.

(** X2. [makeDecision] never throws: under every schedule it returns a
    decision.  Whenever the body of its [try] throws, the decision is the
    NOOP "Error in decision making" with zeroed signals, stamped when the
    error is caught.  This is what happens when rule 2 applies and one of
    the five requests of [getRiskMetrics] fails, whichever it is. *)
Theorem makeDecision_always_decides policy mood market :
  let error (stamp : Date) :=
    {| PolicyDecision.timestamp := stamp;
       PolicyDecision.action := NOOP;
       PolicyDecision.reason := Text.lit "Error in decision making";
       PolicyDecision.signals :=
         {| Signals.moodZScore := 0%float;
            Signals.priceMomentum := 0%float;
            Signals.liquidityOk := false |};
       PolicyDecision.executionParams := None |} in
  (forall schedule w,
     exists d,
       answer (DecisionEngine.makeDecision policy mood market) schedule w
       = Returned d) /\
  (forall schedule w,
     answer (DecisionEngine.makeDecision policy mood market) schedule w
     = match run (DecisionEngine.updateEmaHistory mood ;;;
                  DecisionEngine.decisionLogic policy mood market)
               schedule w with
       | (Returned d, _, _) => Returned d
       | (Thrown _, w', _) => Returned (error (now w'))
       end) /\
  (forall pre slot rest e w,
     Js.ge (AggregatedMood.zScore mood) (Config.hypeThreshold policy)
     && Js.ge (MarketSignal.momentum market) (Config.momentumPositive policy)
     = false ->
     Js.le (AggregatedMood.zScore mood) (Config.fudThreshold policy)
     && Js.le (MarketSignal.momentum market) (Config.momentumNegative policy)
     = true ->
     (length pre < 5)%nat ->
     Forall (fun s => failure s = None) pre ->
     failure slot = Some e ->
     exists stamp,
       answer (DecisionEngine.makeDecision policy mood market)
         (pre ++ slot :: rest) w
       = Returned (error stamp)).
Proof.
  cbv zeta.
  assert (Hcatch : forall schedule w,
            answer (DecisionEngine.makeDecision policy mood market) schedule w
            = match run (DecisionEngine.updateEmaHistory mood ;;;
                         DecisionEngine.decisionLogic policy mood market)
                      schedule w with
              | (Returned d, _, _) => Returned d
              | (Thrown _, w', _) =>
                  Returned
                    {| PolicyDecision.timestamp := now w';
                       PolicyDecision.action := NOOP;
                       PolicyDecision.reason := Text.lit "Error in decision making";
                       PolicyDecision.signals :=
                         {| Signals.moodZScore := 0%float;
                            Signals.priceMomentum := 0%float;
                            Signals.liquidityOk := false |};
                       PolicyDecision.executionParams := None |}
              end).
  { intros schedule w. unfold answer, DecisionEngine.makeDecision.
    rewrite run_try_catch.
    destruct (run _ schedule w) as [[[d|e] w'] rest]; reflexivity. }
  split; [|split; [exact Hcatch|]].
  - intros schedule w. unfold DecisionEngine.makeDecision.
    apply try_catch_answers. intros e s v. eexists. reflexivity.
  - intros pre slot rest e w H1 H2 Hlen Hpre Hfail.
    rewrite Hcatch, run_bind.
    rewrite run_synchronous by apply HistoryFacts.updateEmaHistory_synchronous.
    rewrite HistoryFacts.exec_updateEmaHistory. cbv zeta.
    unfold DecisionEngine.decisionLogic. cbv zeta. rewrite H1, H2.
    rewrite run_bind.
    match goal with
    | |- context [run RiskManager.getRiskMetrics _ ?w1] =>
        destruct (getRiskMetrics_throws pre slot rest e w1 Hlen Hpre Hfail)
          as (w' & E)
    end.
    rewrite E. eexists. reflexivity.
Qed.

(** The third request of [getRiskMetrics] fails while a buyback is sized. *)
Lemma makeDecision_always_decides_witness :
  exists stamp,
    answer (DecisionEngine.makeDecision Config.default_policy
              (Sample.mood (-2) 0 0) (Sample.market (-0.5) 20000))
      [Sample.calm; Sample.calm; Scenario.broken "ECONNRESET"]
      (Sample.funded 1000)
    = Returned {| PolicyDecision.timestamp := stamp;
                  PolicyDecision.action := NOOP;
                  PolicyDecision.reason := Text.lit "Error in decision making";
                  PolicyDecision.signals :=
                    {| Signals.moodZScore := 0%float;
                       Signals.priceMomentum := 0%float;
                       Signals.liquidityOk := false |};
                  PolicyDecision.executionParams := None |}.
Proof.
  destruct (makeDecision_always_decides Config.default_policy
              (Sample.mood (-2) 0 0) (Sample.market (-0.5) 20000))
    as (_ & _ & Hfail).
  exact (Hfail [Sample.calm; Sample.calm] (Scenario.broken "ECONNRESET") []
           "ECONNRESET" (Sample.funded 1000) eq_refl eq_refl
           ltac:(cbn; lia) ltac:(repeat constructor) eq_refl).
Defined.

(** X3. [recordExecution] never throws, under every schedule. *)
Theorem recordExecution_always_returns amount success schedule w :
  answer (RiskManager.recordExecution amount success) schedule w = Returned tt.
Proof.
  unfold RiskManager.recordExecution.
  match goal with
  | |- answer (try_catch ?body ?handler) _ _ = _ =>
      destruct (try_catch_answers body handler
                  (fun e s v => ex_intro _ tt eq_refl) schedule w)
        as ([] & H)
  end.
  exact H.
Qed.

End RobustnessFacts.

(* ===================================================================== *)
(** * More facts about binary64: NaN, zero and the order *)
(* ===================================================================== *)

Module NumberFacts.

Lemma ltb_irrefl (a : float) : PrimFloat.ltb a a = false.
Proof.
  destruct (PrimFloat.ltb a a) eqn:E; [|reflexivity].
  now rewrite (FloatFacts.ltb_asym a a E) in E.
Qed.

(** [a < b] excludes [b <= a]. *)
Lemma ltb_not_leb (a b : float) :
  PrimFloat.ltb a b = true -> PrimFloat.leb b a = false.
Proof.
  rewrite FloatAxioms.ltb_spec, FloatAxioms.leb_spec. unfold SFltb, SFleb.
  intros H.
  destruct (SFcompare (Prim2SF a) (Prim2SF b)) as [[]|] eqn:E; try discriminate.
  now rewrite (FloatFacts.SFcompare_Lt_swap _ _ E).
Qed.

Lemma SFcompare_refl (x : spec_float) :
  x <> S754_nan -> SFcompare x x = Some Eq.
Proof.
  destruct x as [s|s| |s m e]; cbn; intros H; try reflexivity.
  - now destruct s.
  - congruence.
  - rewrite Z.compare_refl.
    change (PosDef.Pos.compare_cont Eq m m) with (Pos.compare m m).
    rewrite Pos.compare_refl. now destruct s.
Qed.

(** A number is NaN exactly when it is not [===] to itself. *)
Lemma isNaN_spec (a : float) : Js.isNaN a = true -> Prim2SF a = S754_nan.
Proof.
  unfold Js.isNaN. rewrite FloatAxioms.eqb_spec. unfold SFeqb. intros H.
  destruct (Prim2SF a) eqn:E; try reflexivity;
    rewrite SFcompare_refl in H by discriminate; discriminate.
Qed.

Lemma ltb_nan_l (a b : float) : Prim2SF a = S754_nan -> PrimFloat.ltb a b = false.
Proof. intros H. rewrite FloatAxioms.ltb_spec, H. reflexivity. Qed.

Lemma ltb_nan_r (a b : float) : Prim2SF b = S754_nan -> PrimFloat.ltb a b = false.
Proof.
  intros H. rewrite FloatAxioms.ltb_spec, H. unfold SFltb.
  now destruct (Prim2SF a).
Qed.

Lemma sub_nan_l (a b : float) : Prim2SF a = S754_nan -> Prim2SF (a - b) = S754_nan.
Proof. intros H. rewrite FloatAxioms.sub_spec, H. reflexivity. Qed.

Lemma sub_nan_r (a b : float) : Prim2SF b = S754_nan -> Prim2SF (a - b) = S754_nan.
Proof.
  intros H. rewrite FloatAxioms.sub_spec, H.
  destruct (Prim2SF a) as [[]|[]| |]; reflexivity.
Qed.

Lemma add_nan_r (a b : float) : Prim2SF b = S754_nan -> Prim2SF (a + b) = S754_nan.
Proof.
  intros H. rewrite FloatAxioms.add_spec, H.
  destruct (Prim2SF a) as [[]|[]| |]; reflexivity.
Qed.

Lemma mul_nan_l (a b : float) : Prim2SF a = S754_nan -> Prim2SF (a * b) = S754_nan.
Proof. intros H. rewrite FloatAxioms.mul_spec, H. reflexivity. Qed.

(** [0 - a < 0 * c] for a positive [a] and a factor [c] that is neither NaN
    nor infinite: the product is a zero and the difference is negative. *)
Lemma zero_reserve (a c : float) :
  PrimFloat.ltb 0 a = true ->
  PrimFloat.eqb (0 * c) 0 = true ->
  PrimFloat.ltb (0 - a) (0 * c) = true.
Proof.
  rewrite FloatAxioms.eqb_spec, !FloatAxioms.ltb_spec, FloatAxioms.sub_spec.
  change (Prim2SF 0) with (S754_zero false).
  unfold SFltb, SFeqb.
  destruct (Prim2SF (0 * c)) as [sz|sz| |sz mz ez]; cbn; try discriminate;
    try (destruct sz; discriminate).
  intros Ha _.
  destruct (Prim2SF a) as [s|s| |s m e]; cbn in *; try discriminate;
    destruct s; (discriminate || reflexivity).
Qed.

(** The product of [0] and a number that is neither NaN nor infinite is a
    zero. *)
Lemma zero_times_finite (c : float) :
  Js.isNaN c = false -> PrimFloat.is_infinity c = false ->
  PrimFloat.eqb (0 * c) 0 = true.
Proof.
  unfold Js.isNaN, PrimFloat.is_infinity.
  rewrite !FloatAxioms.eqb_spec, FloatAxioms.mul_spec, FloatAxioms.abs_spec.
  change (Prim2SF 0) with (S754_zero false).
  change (Prim2SF infinity) with (S754_infinity false).
  destruct (Prim2SF c) as [s|s| |s m e]; cbn; try discriminate; reflexivity.
Qed.

End NumberFacts.

(* ===================================================================== *)
(** * lib/utils/math and policy/decision-engine: crossovers in a row *)
(* ===================================================================== *)

Module CrossoverFacts.

Import Task TaskFacts MathUtils.

(** X4. Swapping the two series swaps the answer of [detectCrossover]: the
    fast series crosses below the slow one exactly when the slow one crosses
    above the fast one, and [none] stays [none]. *)
Theorem detectCrossover_swap (fastValues slowValues : list float) :
  detectCrossover slowValues fastValues =
  match detectCrossover fastValues slowValues with
  | up => down
  | down => up
  | none => none
  end.
Proof.
  unfold detectCrossover.
  rewrite (orb_comm (length slowValues <? 2)%nat).
  destruct (_ || _); [reflexivity|]. cbv zeta.
  unfold Js.le, Js.ge, Js.lt, Js.gt.
  set (fp := nth (length fastValues - 2) fastValues 0%float).
  set (fc := nth (length fastValues - 1) fastValues 0%float).
  set (sp := nth (length slowValues - 2) slowValues 0%float).
  set (sc := nth (length slowValues - 1) slowValues 0%float).
  destruct (PrimFloat.ltb sc fc) eqn:Hup.
  - rewrite (FloatFacts.ltb_asym _ _ Hup), !andb_false_r, !andb_true_r.
    destruct (PrimFloat.leb fp sp); reflexivity.
  - rewrite !andb_false_r. destruct (_ && _); reflexivity.
Qed.

Lemma ends_in_two {A} (l : list A) :
  (2 <= length l)%nat -> exists pre x y, l = (pre ++ [x; y])%list.
Proof.
  induction l as [|a l IH]; cbn; intros H; [lia|].
  destruct l as [|b l]; [cbn in H; lia|].
  destruct l as [|c l].
  - now exists [], a, b.
  - destruct IH as (pre & x & y & E); [cbn; lia|].
    exists (a :: pre), x, y. now rewrite E.
Qed.

(** What a down-crossover says of the current values. *)
Lemma detectCrossover_down fastValues slowValues :
  detectCrossover fastValues slowValues = down ->
  exists f s fastPrev fastCurr slowPrev slowCurr,
    fastValues = (f ++ [fastPrev; fastCurr])%list /\
    slowValues = (s ++ [slowPrev; slowCurr])%list /\
    Js.lt fastCurr slowCurr = true.
Proof.
  intros H.
  destruct (Nat.ltb_spec (length fastValues) 2) as [Hf|Hf].
  { unfold detectCrossover in H.
    replace (length fastValues <? 2)%nat with true in H
      by (symmetry; now apply Nat.ltb_lt).
    discriminate. }
  destruct (Nat.ltb_spec (length slowValues) 2) as [Hs|Hs].
  { unfold detectCrossover in H.
    replace (length slowValues <? 2)%nat with true in H
      by (symmetry; now apply Nat.ltb_lt).
    rewrite orb_true_r in H. discriminate. }
  destruct (ends_in_two fastValues Hf) as (f & fp & fc & ->).
  destruct (ends_in_two slowValues Hs) as (s & sp & sc & ->).
  exists f, s, fp, fc, sp, sc. split; [reflexivity|]. split; [reflexivity|].
  rewrite MathUtilsFacts.detectCrossover_last_two in H.
  destruct (_ && _); [discriminate|].
  destruct (Js.ge fp sp); [|discriminate].
  destruct (Js.lt fc sc); [reflexivity | discriminate].
Qed.

(** One more sample on each side of a down-crossover: no second
    down-crossover. *)
Lemma detectCrossover_down_once f s fastPrev slowPrev fastCurr slowCurr :
  Js.lt fastPrev slowPrev = true ->
  detectCrossover (f ++ [fastPrev; fastCurr]) (s ++ [slowPrev; slowCurr]) <> down.
Proof.
  intros H. rewrite MathUtilsFacts.detectCrossover_last_two.
  unfold Js.ge. unfold Js.lt in H.
  rewrite (NumberFacts.ltb_not_leb _ _ H).
  destruct (_ && _); discriminate.
Qed.

(** The tail of a pushed history keeps its last two values. *)
Lemma pushed_ends (shift : bool) (pre : list float) (x y v : float) :
  exists pre',
    (if shift then tl (((pre ++ [x; y]) ++ [v])%list) else ((pre ++ [x; y]) ++ [v])%list)
    = (pre' ++ [y; v])%list.
Proof.
  replace ((pre ++ [x; y]) ++ [v])%list with ((pre ++ [x]) ++ [y; v])%list
    by (rewrite <- !app_assoc; reflexivity).
  destruct shift; [|now exists (pre ++ [x])%list].
  exists (tl (pre ++ [x])%list).
  destruct pre; reflexivity.
Qed.

(** BURN is the decision of rule 3 alone: it needs a down-crossover of the
    histories as [updateEmaHistory] leaves them. *)
Lemma burn_needs_down policy mood market w d :
  result (DecisionEngine.makeDecision policy mood market) w = Returned d ->
  PolicyDecision.action d = BURN ->
  let w1 := after (DecisionEngine.updateEmaHistory mood) w in
  detectCrossover (Fields.ema15History (engine w1))
    (Fields.ema60History (engine w1)) = down.
Proof.
  intros Hd Hburn w1.
  rewrite DecisionEngineFacts.result_makeDecision,
    DecisionEngineFacts.result_decisionLogic in Hd.
  fold w1 in Hd.
  assert (Ha : PolicyDecision.action d
               = match Returned d with
                 | Returned x => PolicyDecision.action x
                 | Thrown _ => NOOP
                 end) by reflexivity.
  rewrite <- Hd in Ha. rewrite Hburn in Ha. clear Hd Hburn.
  destruct (_ && _); [discriminate|].
  destruct (_ && _).
  - cbv zeta in Ha. destruct (negb _); discriminate.
  - destruct (detectCrossover _ _); try discriminate; reflexivity.
Qed.

(** X5. The engine never decides BURN twice in a row: when [makeDecision]
    returns BURN, the next [makeDecision] of the same engine does not,
    whatever its mood, market and policy.  (A bearish crossover needs the
    15-sample EMA at or above the 60-sample one on the previous call, and the
    crossover that has just fired left it strictly below.) *)
Theorem makeDecision_no_burn_twice policy policy' mood market mood' market'
  (w : World) d d' :
  result (DecisionEngine.makeDecision policy mood market) w = Returned d ->
  PolicyDecision.action d = BURN ->
  result (DecisionEngine.makeDecision policy' mood' market')
    (after (DecisionEngine.makeDecision policy mood market) w) = Returned d' ->
  PolicyDecision.action d' <> BURN.
Proof.
  intros Hd Hburn Hd' Hburn'.
  pose proof (burn_needs_down _ _ _ _ _ Hd Hburn) as Hdown.
  pose proof (burn_needs_down _ _ _ _ _ Hd' Hburn') as Hdown'.
  cbv zeta in Hdown, Hdown'. clear Hd Hburn Hd' Hburn'.
  destruct (detectCrossover_down _ _ Hdown)
    as (f & s & fp & fc & sp & sc & H15 & H60 & Hlt).
  (* the engine leaves the first call with these histories *)
  set (w2 := after (DecisionEngine.makeDecision policy mood market) w) in *.
  assert (He : engine w2
               = engine (after (DecisionEngine.updateEmaHistory mood) w)).
  { unfold w2, after at 1. unfold exec.
    apply (HistoryFacts.makeDecision_engine policy mood market [] w).
    constructor. }
  revert Hdown'. unfold after.
  rewrite (HistoryFacts.exec_updateEmaHistory mood' w2).
  cbv zeta. cbn [snd engine with_engine]. rewrite He.
  fold (after (DecisionEngine.updateEmaHistory mood) w). rewrite H15, H60.
  destruct (pushed_ends (100 <? length ((f ++ [fp; fc]) ++ [AggregatedMood.ema15 mood']))%nat
              f fp fc (AggregatedMood.ema15 mood')) as (f' & E15).
  destruct (pushed_ends (100 <? length ((f ++ [fp; fc]) ++ [AggregatedMood.ema15 mood']))%nat
              s sp sc (AggregatedMood.ema60 mood')) as (s' & E60).
  destruct (100 <? _)%nat; cbn [Fields.ema15History Fields.ema60History];
    rewrite E15, E60; now apply detectCrossover_down_once.
Qed.

(** The first decision on the histories [1, 0.5] / [0.8, 0.8] is BURN; the
    decision that follows it is not. *)
Lemma makeDecision_no_burn_twice_witness :
  let w := with_engine {| Fields.ema15History := [1%float];
                          Fields.ema60History := [0.8%float] |}
             (Sample.funded 1000) in
  let mood := Sample.mood 0 0.5 0.8 in
  let market := Sample.market 0.01 20000 in
  exists d d',
    result (DecisionEngine.makeDecision Config.default_policy mood market) w
    = Returned d /\
    PolicyDecision.action d = BURN /\
    result (DecisionEngine.makeDecision Config.default_policy mood market)
      (after (DecisionEngine.makeDecision Config.default_policy mood market) w)
    = Returned d' /\
    PolicyDecision.action d' <> BURN.
Proof.
  intros w mood market.
  eexists. eexists.
  split; [vm_compute; reflexivity|].
  split; [reflexivity|].
  split; [vm_compute; reflexivity|].
  eapply (makeDecision_no_burn_twice Config.default_policy Config.default_policy
            mood market mood market w);
    [vm_compute; reflexivity | reflexivity | vm_compute; reflexivity].
Defined.

End CrossoverFacts.

(* ===================================================================== *)
(** * policy/risk-manager: edge cases of the gate and of the counters *)
(* ===================================================================== *)

Module RiskEdgeFacts.

Import Task TaskFacts RiskManager Verdict.

(** X6. NaN disarms the two balance checks.  When the amount is NaN, or the
    stored treasury balance is NaN, every comparison of the reserve check and
    of the daily-limit check is false: with the kill switch off,
    [canExecute] answers by the loss counter alone, whatever the policy, the
    balance, the spend of the day and the amount. *)
Theorem canExecute_NaN policy amount (w : World) :
  Js.isNaN amount = true \/ Js.isNaN (RiskState.treasuryBalance w) = true ->
  RiskState.killSwitchActive w = false ->
  result (canExecute policy amount) w =
  Returned (if RiskState.consecutiveLosses w >=? Config.maxConsecutiveLosses policy
            then rejected_losses (RiskState.consecutiveLosses w)
            else permitted).
Proof.
  intros Hnan Hks. apply RiskManagerFacts.canExecute_loss_check.
  unfold reaches_loss_check. cbv zeta. rewrite Hks. unfold Js.lt, Js.gt.
  destruct Hnan as [Hnan|Hnan]; apply NumberFacts.isNaN_spec in Hnan.
  - rewrite (NumberFacts.ltb_nan_l _ _ (NumberFacts.sub_nan_r _ _ Hnan)).
    rewrite (NumberFacts.ltb_nan_r _ _ (NumberFacts.add_nan_r _ _ Hnan)).
    reflexivity.
  - rewrite (NumberFacts.ltb_nan_l _ _ (NumberFacts.sub_nan_l _ _ Hnan)).
    rewrite (NumberFacts.ltb_nan_l _ _ (NumberFacts.mul_nan_l _ _ Hnan)).
    reflexivity.
Qed.

(** A treasury whose stored balance is NaN: a million passes. *)
Lemma canExecute_NaN_witness :
  result (canExecute Config.default_policy 1000000) (Sample.funded nan)
  = Returned permitted.
Proof.
  exact (canExecute_NaN Config.default_policy 1000000 (Sample.funded nan)
           (or_intror eq_refl) eq_refl).
Defined.

(** X7. Without a treasury balance in the store (the key is missing, or
    holds 0) [canExecute] refuses every amount above 0: the kill switch
    apart, the answer is the reserve refusal, with a reserve of zero.  The
    threshold of the policy may be any number that is neither NaN nor
    infinite. *)
Theorem canExecute_unfunded policy amount (w : World) :
  RiskState.treasuryBalance w = 0%float ->
  Js.gt amount 0 = true ->
  Js.isNaN (Config.minTreasuryThreshold policy) = false ->
  PrimFloat.is_infinity (Config.minTreasuryThreshold policy) = false ->
  result (canExecute policy amount) w =
  Returned (if RiskState.killSwitchActive w then rejected_kill_switch
            else rejected_reserve (0 * Config.minTreasuryThreshold policy)).
Proof.
  intros Hzero Hpos Hnan Hinf.
  unfold result. rewrite RiskManagerFacts.exec_canExecute.
  unfold gate. cbv zeta. cbn [fst]. rewrite Hzero.
  destruct (RiskState.killSwitchActive w); [reflexivity|].
  unfold Js.lt.
  rewrite (NumberFacts.zero_reserve amount (Config.minTreasuryThreshold policy)
             Hpos (NumberFacts.zero_times_finite _ Hnan Hinf)).
  reflexivity.
Qed.

(** On the empty store the smallest buyback is refused. *)
Lemma canExecute_unfunded_witness :
  result (canExecute Config.default_policy 0.01) Sample.fresh
  = Returned (rejected_reserve 0).
Proof.
  exact (canExecute_unfunded Config.default_policy 0.01 Sample.fresh
           eq_refl eq_refl eq_refl eq_refl).
Defined.

(** ** The spend counter of a day *)

Lemma same_day_within_ttl (t t' : Z) :
  day_of t' = day_of t -> Redis.live t' (Some (t + 24 * 60 * 60 * 1000)) = true.
Proof.
  unfold day_of, Redis.live. intros H. apply Z.leb_le.
  pose proof (Z.div_mod t 86400000 ltac:(lia)) as E.
  pose proof (Z.div_mod t' 86400000 ltac:(lia)) as E'.
  pose proof (Z.mod_pos_bound t 86400000 ltac:(lia)).
  pose proof (Z.mod_pos_bound t' 86400000 ltac:(lia)).
  lia.
Qed.

(** The counter written at [time], read at [time'] on the same day. *)
Lemma get_daily_spent_same_day time time' amount (k : Redis.Risk) :
  day_of time' = day_of time ->
  Redis.get_daily_spent time' (day_of time')
    (Redis.expire_daily_spent time (day_of time) (24 * 60 * 60)
       (Redis.incrbyfloat_daily_spent time (day_of time) amount k))
  = Some (match Redis.get_daily_spent time (day_of time) k with
          | Some v => v
          | None => 0%float
          end + amount)%float.
Proof.
  intros Hday. rewrite Hday.
  pose proof (same_day_within_ttl time time' Hday) as Hlive'.
  pose proof (same_day_within_ttl time time eq_refl) as Hlive.
  unfold Redis.get_daily_spent, Redis.expire_daily_spent,
    Redis.incrbyfloat_daily_spent.
  destruct (Redis.daily_spent k !! day_of time) as [[v expiry]|] eqn:E; simpl.
  - destruct (Redis.live time expiry) eqn:L; simpl;
      rewrite lookup_insert_eq; simpl; rewrite ?L; simpl;
      rewrite lookup_insert_eq, Hlive'; reflexivity.
  - rewrite lookup_insert_eq. simpl.
    rewrite lookup_insert_eq, Hlive'. reflexivity.
Qed.

(** The counters of the other days are not touched. *)
Lemma get_daily_spent_other_day time time' day amount (k : Redis.Risk) :
  day <> day_of time ->
  Redis.get_daily_spent time' day
    (Redis.expire_daily_spent time (day_of time) (24 * 60 * 60)
       (Redis.incrbyfloat_daily_spent time (day_of time) amount k))
  = Redis.get_daily_spent time' day k.
Proof.
  intros Hday.
  unfold Redis.get_daily_spent, Redis.expire_daily_spent,
    Redis.incrbyfloat_daily_spent.
  destruct (Redis.daily_spent k !! day_of time) as [[v expiry]|] eqn:E; simpl.
  - destruct (Redis.live time expiry) eqn:L; simpl;
      rewrite lookup_insert_eq; simpl; rewrite ?L; simpl;
      rewrite !lookup_insert_ne by congruence; reflexivity.
  - rewrite lookup_insert_eq. simpl.
    rewrite !lookup_insert_ne by congruence. reflexivity.
Qed.

(** X8. The daily budget follows the calendar day (UTC) of the clock.  What
    [recordExecution] adds at one moment is seen by the gate at every moment
    of the same day (the TTL of 24 hours never runs out within the day), and
    at no moment of another day: there the spend is what it was before the
    call. *)
Theorem recordExecution_by_day amount success (w : World) (later : Date) :
  let w' := after (recordExecution amount success) w in
  (day_of later = day_of (now w) ->
   RiskState.dailySpent (with_now later w')
   = (RiskState.dailySpent w + amount)%float) /\
  (day_of later <> day_of (now w) ->
   RiskState.dailySpent (with_now later w')
   = RiskState.dailySpent (with_now later w)).
Proof.
  cbv zeta. unfold after. rewrite RiskManagerFacts.exec_recordExecution.
  cbv zeta. cbn [snd]. unfold RiskState.dailySpent.
  cbn [redis now with_now with_log with_redis Redis.risk Redis.with_risk].
  set (k0 := Redis.risk (redis w)).
  rewrite (RiskManagerFacts.get_daily_spent_ext later (day_of later) _
             (Redis.expire_daily_spent (now w) (day_of (now w)) (24 * 60 * 60)
                (Redis.incrbyfloat_daily_spent (now w) (day_of (now w)) amount k0)))
    by (destruct success; reflexivity).
  split; intros Hday.
  - rewrite (get_daily_spent_same_day (now w) later amount k0 Hday). reflexivity.
  - rewrite (get_daily_spent_other_day (now w) later (day_of later) amount k0 Hday).
    reflexivity.
Qed.

(** X9. The kill switch.  After [activateKillSwitch(reason)] every
    [canExecute] is refused with "Kill switch is active", whatever the
    reason, the policy and the amount, and the reason is stored.
    [deactivateKillSwitch] deletes both keys: the gate answers as if the
    switch had never been activated.  Neither call touches the spend
    counters, the loss counter, the last execution time or the balance. *)
Theorem killSwitch_on_off (reason : string) policy amount (w : World) :
  let on := after (activateKillSwitch reason) w in
  let off := after deactivateKillSwitch on in
  result (canExecute policy amount) on = Returned rejected_kill_switch /\
  Redis.kill_switch_reason (Redis.risk (redis on)) = Some reason /\
  Redis.risk (redis off) = Redis.risk (redis (after deactivateKillSwitch w)) /\
  RiskState.killSwitchActive off = false /\
  Redis.kill_switch_reason (Redis.risk (redis off)) = None /\
  (RiskState.killSwitchActive w = false ->
   result (canExecute policy amount) off = result (canExecute policy amount) w) /\
  (forall v, v = on \/ v = off ->
     Redis.daily_spent (Redis.risk (redis v)) = Redis.daily_spent (Redis.risk (redis w)) /\
     RiskState.consecutiveLosses v = RiskState.consecutiveLosses w /\
     RiskState.lastExecutionTime v = RiskState.lastExecutionTime w /\
     RiskState.treasuryBalance v = RiskState.treasuryBalance w /\
     now v = now w).
Proof.
  cbv zeta.
  split; [reflexivity|]. split; [reflexivity|]. split; [reflexivity|].
  split; [reflexivity|]. split; [reflexivity|]. split.
  - intros Hoff. unfold result. rewrite !RiskManagerFacts.exec_canExecute.
    cbn [fst]. f_equal. unfold gate. cbv zeta. rewrite Hoff. reflexivity.
  - intros v [->| ->]; repeat split; reflexivity.
Qed.

(** ** A write that fails midway *)

Lemma get_daily_spent_incremented time day amount (k : Redis.Risk) :
  Redis.get_daily_spent time day (Redis.incrbyfloat_daily_spent time day amount k)
  = Some (match Redis.get_daily_spent time day k with
          | Some v => v
          | None => 0%float
          end + amount)%float.
Proof.
  unfold Redis.get_daily_spent, Redis.incrbyfloat_daily_spent.
  destruct (Redis.daily_spent k !! day) as [[v expiry]|] eqn:E; simpl.
  - destruct (Redis.live time expiry) eqn:L; simpl;
      rewrite lookup_insert_eq; simpl; rewrite ?L; reflexivity.
  - rewrite lookup_insert_eq. reflexivity.
Qed.

(** X10. [recordExecution] is not atomic.  Its four writes are sent one
    after the other, and the first that fails ends the call (the error is
    logged, not thrown).  When the INCRBYFLOAT succeeds and the EXPIRE
    fails, the amount has been added to the spend of the day, and the loss
    counter and the last execution time are what they were: a failed
    execution recorded this way does not count as a loss. *)
Theorem recordExecution_not_atomic amount success e rest (w : World) :
  let schedule := Sample.calm :: Scenario.broken e :: rest in
  let w' := snd (fst (run (recordExecution amount success) schedule w)) in
  answer (recordExecution amount success) schedule w = Returned tt /\
  RiskState.dailySpent w' = (RiskState.dailySpent w + amount)%float /\
  RiskState.consecutiveLosses w' = RiskState.consecutiveLosses w /\
  RiskState.lastExecutionTime w' = RiskState.lastExecutionTime w /\
  log w' = (log w ++ [{| Logger.level := Logger.error;
                         Logger.message := "Failed to record execution";
                         Logger.context :=
                           [("error", Logger.VStr (Text.lit e))] |}])%list.
Proof.
  cbv zeta.
  unfold answer, recordExecution, Effects.new_Date, Effects.redis_write,
    Effects.logger.
  cbn [run try_catch bind await sync Sample.calm Scenario.broken
       interference failure fst snd].
  split; [reflexivity|]. split.
  - unfold RiskState.dailySpent.
    cbn [redis now with_log with_redis Redis.risk Redis.with_risk].
    now rewrite get_daily_spent_incremented.
  - repeat split; reflexivity.
Qed.

End RiskEdgeFacts.

(* ===================================================================== *)
(** * executor/executor: what an execution leaves behind *)
(* ===================================================================== *)

Module ExecutionFacts.

Import Task TaskFacts Executor Results.

#[local] Abbreviation pending_of w := (Fields.pendingExecutions (executor w)).

Lemma recordExecution_keeps_executor amount success :
  keeps executor (RiskManager.recordExecution amount success).
Proof. unfold RiskManager.recordExecution. keeps_tac. Qed.

Lemma storeResult_keeps_executor result : keeps executor (storeResult result).
Proof. unfold storeResult. keeps_tac. Qed.

Lemma Map_get_set_eq key value m : Map_get key (Map_set key value m) = Some value.
Proof.
  unfold Map_get.
  induction m as [|[k d] rest IH]; cbn.
  - now rewrite String.eqb_refl.
  - destruct (String.eqb k key) eqn:E; cbn; rewrite E; [reflexivity | exact IH].
Qed.

Section WithConfig.

Variable config : Config.t.

(** With auto-execution on: the result of the action, and the risk state,
    the pending set and the stored result [execute] leaves. *)
Lemma execute_summary decision w :
  Config.enableAutoExecution (Config.features config) = true ->
  exists r w1,
    exec (match PolicyDecision.action decision with
          | BUYBACK => executeBuyback config decision
          | BURN => executeBurn config decision
          | HODL_TREASURY
          | NOOP =>
              createResult decision true
                (Some (Text.lit "No action required")) None None
          end) w = (Returned r, w1) /\
    result (execute config decision) w = Returned r /\
    let w' := after (execute config decision) w in
    RiskState.consecutiveLosses w'
    = (if ExecutionResult.success r then 0
       else RiskState.consecutiveLosses w1 + 1) /\
    RiskState.dailySpent w'
    = (RiskState.dailySpent w1 + PolicyDecision.size_or_0 decision)%float /\
    RiskState.lastExecutionTime w' = Some (now w1) /\
    executor w' = executor w1 /\
    Redis.execution_latest (Redis.published (redis w')) = Some r.
Proof.
  intros Hon.
  destruct (ExecutorFacts.exec_execute config decision w Hon) as (r & w1 & E1 & E).
  cbv zeta in E, E1. exists r, w1. split; [exact E1|].
  unfold result, after. rewrite E. cbn [fst snd]. split; [reflexivity|].
  set (amount := PolicyDecision.size_or_0 decision).
  set (w2 := after (RiskManager.recordExecution amount
                      (ExecutionResult.success r)) w1).
  destruct (RiskManagerFacts.recordExecution_effect amount
              (ExecutionResult.success r) w1)
    as (_ & Hd & Hl & Ht & _).
  cbv zeta in Hd, Hl, Ht. fold w2 in Hd, Hl, Ht.
  match goal with
  | |- context [Tracking.logged ?entry ?w3] =>
      destruct (ExecutorFacts.risk_state_of_view (Tracking.logged entry w3) w2)
        as (Hl' & Ht' & Hd')
  end.
  { exact (after_keeps (fun v : World => (Redis.risk (redis v), now v))
             (storeResult r) w2 (ExecutorFacts.storeResult_keeps_risk r)). }
  rewrite Hl', Ht', Hd', Hl, Ht, Hd.
  split; [reflexivity|]. split; [reflexivity|]. split; [reflexivity|]. split.
  - unfold Tracking.logged. cbn [executor with_log].
    rewrite (after_keeps executor (storeResult r) w2 (storeResult_keeps_executor r)).
    exact (after_keeps executor _ w1 (recordExecution_keeps_executor _ _)).
  - reflexivity.
Qed.

End WithConfig.

(** ** A buyback that is not carried out *)

Section Buyback.

Variable config : Config.t.

Hypothesis auto_execution :
  Config.enableAutoExecution (Config.features config) = true.

Lemma size_params decision size :
  PolicyDecision.size decision = Some size ->
  exists params,
    PolicyDecision.executionParams decision = Some params /\
    ExecutionParams.size params = Some size.
Proof.
  unfold PolicyDecision.size.
  destruct (PolicyDecision.executionParams decision) as [params|];
    [|discriminate].
  intros H. now exists params.
Qed.

Lemma size_or_0_truthy decision size :
  PolicyDecision.size decision = Some size -> Js.truthy size = true ->
  PolicyDecision.size_or_0 decision = size.
Proof.
  intros Hs Ht. unfold PolicyDecision.size_or_0, Js.or_else.
  now rewrite Hs, Ht.
Qed.

(** The refusal as [executeBuyback] reports it:
    [riskCheck.reason || "Risk check failed"]. *)
Lemma exec_executeBuyback_refused decision size w :
  PolicyDecision.size decision = Some size -> Js.truthy size = true ->
  RiskManager.allowed (Verdict.gate (Config.policy config) size w) = false ->
  exec (executeBuyback config decision) w =
  (Returned (failure_at (now w) decision
               (refusal (Verdict.gate (Config.policy config) size w))), w).
Proof.
  intros Hs Ht Hno.
  destruct (size_params _ _ Hs) as (params & Hp & Hsize).
  unfold executeBuyback. rewrite Hp, Hsize, Ht. cbn [negb].
  rewrite exec_try_catch, exec_bind, RiskManagerFacts.exec_canExecute.
  rewrite Hno. reflexivity.
Qed.

(** The reason of the first check that refuses. *)
Lemma refusal_gate policy size w :
  RiskManager.allowed (Verdict.gate policy size w) = false ->
  let treasuryBalance := RiskState.treasuryBalance w in
  let minReserve :=
    (treasuryBalance * Config.minTreasuryThreshold policy)%float in
  let maxDailySpend :=
    (treasuryBalance * (Config.maxDailySpendPercent policy / 100))%float in
  refusal (Verdict.gate policy size w)
  = if RiskState.killSwitchActive w
    then [Text.Lit "Kill switch is active"]
    else if Js.lt (treasuryBalance - size)%float minReserve
    then [Text.Lit "Insufficient treasury balance (min reserve: ";
          Text.Num minReserve; Text.Lit ")"]
    else if Js.gt (RiskState.dailySpent w + size)%float maxDailySpend
    then [Text.Lit "Daily spend limit exceeded (";
          Text.Fixed (RiskState.dailySpent w) 2; Text.Lit "/";
          Text.Fixed maxDailySpend 2; Text.Lit ")"]
    else [Text.Lit "Too many consecutive losses (";
          Text.Int (RiskState.consecutiveLosses w); Text.Lit ")"].
Proof.
  unfold Verdict.gate. cbv zeta.
  destruct (RiskState.killSwitchActive w); [reflexivity|].
  destruct (Js.lt _ _); [reflexivity|].
  destruct (Js.gt _ _); [reflexivity|].
  destruct (_ >=? _); [reflexivity|]. discriminate.
Qed.

Lemma gate_refuses policy size w :
  let treasuryBalance := RiskState.treasuryBalance w in
  RiskState.killSwitchActive w
  || Js.lt (treasuryBalance - size)%float
       (treasuryBalance * Config.minTreasuryThreshold policy)%float
  || Js.gt (RiskState.dailySpent w + size)%float
       (treasuryBalance * (Config.maxDailySpendPercent policy / 100))%float
  || (RiskState.consecutiveLosses w >=? Config.maxConsecutiveLosses policy)
  = true ->
  RiskManager.allowed (Verdict.gate policy size w) = false.
Proof.
  unfold Verdict.gate. cbv zeta.
  destruct (RiskState.killSwitchActive w); [reflexivity|].
  destruct (Js.lt _ _); [reflexivity|].
  destruct (Js.gt _ _); [reflexivity|].
  destruct (_ >=? _); [reflexivity|]. discriminate.
Qed.

(** X11. A buyback that the gate refuses inside [execute] is still recorded.
    The result is a failure whose error is the reason of the first check
    that refuses: "Kill switch is active", then the reserve, then the daily
    limit, then the losses.  No transaction is tracked, and
    [recordExecution(size, false)] adds the size to the spend of the day and
    1 to the loss counter. *)
Theorem execute_refused_buyback decision size (w : World) :
  let policy := Config.policy config in
  let treasuryBalance := RiskState.treasuryBalance w in
  let minReserve :=
    (treasuryBalance * Config.minTreasuryThreshold policy)%float in
  let maxDailySpend :=
    (treasuryBalance * (Config.maxDailySpendPercent policy / 100))%float in
  PolicyDecision.action decision = BUYBACK ->
  PolicyDecision.size decision = Some size ->
  Js.truthy size = true ->
  RiskState.killSwitchActive w
  || Js.lt (treasuryBalance - size)%float minReserve
  || Js.gt (RiskState.dailySpent w + size)%float maxDailySpend
  || (RiskState.consecutiveLosses w >=? Config.maxConsecutiveLosses policy)
  = true ->
  let w' := after (execute config decision) w in
  result (execute config decision) w
  = Returned
      {| ExecutionResult.timestamp := now w;
         ExecutionResult.decision := decision;
         ExecutionResult.txSignature := None;
         ExecutionResult.success := false;
         ExecutionResult.amountProcessed := None;
         ExecutionResult.error :=
           Some (if RiskState.killSwitchActive w
                 then [Text.Lit "Kill switch is active"]
                 else if Js.lt (treasuryBalance - size)%float minReserve
                 then [Text.Lit "Insufficient treasury balance (min reserve: ";
                       Text.Num minReserve; Text.Lit ")"]
                 else if Js.gt (RiskState.dailySpent w + size)%float maxDailySpend
                 then [Text.Lit "Daily spend limit exceeded (";
                       Text.Fixed (RiskState.dailySpent w) 2; Text.Lit "/";
                       Text.Fixed maxDailySpend 2; Text.Lit ")"]
                 else [Text.Lit "Too many consecutive losses (";
                       Text.Int (RiskState.consecutiveLosses w);
                       Text.Lit ")"]) |} /\
  RiskState.consecutiveLosses w' = RiskState.consecutiveLosses w + 1 /\
  RiskState.dailySpent w' = (RiskState.dailySpent w + size)%float /\
  pending_of w' = pending_of w.
Proof.
  intros policy treasuryBalance minReserve maxDailySpend Ha Hs Ht Hrefused.
  pose proof (gate_refuses policy size w Hrefused) as Hno.
  pose proof (refusal_gate policy size w Hno) as Hreason. cbv zeta in Hreason.
  destruct (execute_summary config decision w auto_execution)
    as (r & w1 & E1 & Hr & Hl & Hd & _ & He & _).
  rewrite Ha, (exec_executeBuyback_refused decision size w Hs Ht Hno) in E1.
  injection E1 as <- <-. cbv zeta in *.
  rewrite Hr, Hl, Hd, He, (size_or_0_truthy _ _ Hs Ht).
  fold policy. rewrite Hreason.
  repeat split; reflexivity.
Qed.

(** X12. A BUYBACK decision without a usable size (no execution parameters,
    no size, or a size that is 0 or NaN) fails with "Missing execution
    parameters"; [execute] records it as a failed execution of amount 0, so
    the loss counter goes up by 1. *)
Theorem execute_buyback_without_size decision (w : World) :
  PolicyDecision.action decision = BUYBACK ->
  match PolicyDecision.size decision with
  | Some size => Js.truthy size = false
  | None => True
  end ->
  let w' := after (execute config decision) w in
  result (execute config decision) w
  = Returned (failure_at (now w) decision
                (Text.lit "Missing execution parameters")) /\
  PolicyDecision.size_or_0 decision = 0%float /\
  RiskState.consecutiveLosses w' = RiskState.consecutiveLosses w + 1 /\
  RiskState.dailySpent w' = (RiskState.dailySpent w + 0)%float /\
  pending_of w' = pending_of w.
Proof.
  intros Ha Hsize.
  destruct (execute_summary config decision w auto_execution)
    as (r & w1 & E1 & Hr & Hl & Hd & _ & He & _).
  assert (Hzero : PolicyDecision.size_or_0 decision = 0%float).
  { unfold PolicyDecision.size_or_0, Js.or_else.
    destruct (PolicyDecision.size decision); [now rewrite Hsize | reflexivity]. }
  assert (E : exec (executeBuyback config decision) w
              = (Returned (failure_at (now w) decision
                             (Text.lit "Missing execution parameters")), w)).
  { unfold executeBuyback, PolicyDecision.size in *.
    destruct (PolicyDecision.executionParams decision) as [params|];
      [|reflexivity].
    destruct (ExecutionParams.size params) as [size|]; [|reflexivity].
    now rewrite Hsize. }
  rewrite Ha, E in E1. injection E1 as <- <-. cbv zeta in *.
  rewrite Hr, Hl, Hd, He, Hzero. repeat split; reflexivity.
Qed.

(** X13. With burning disabled, a BURN decision fails with "Burn feature
    disabled", and [execute] records the failure: the loss counter goes up
    by 1 and nothing is put under watch. *)
Theorem execute_burn_disabled decision (w : World) :
  PolicyDecision.action decision = BURN ->
  Config.enableBurn (Config.features config) = false ->
  let w' := after (execute config decision) w in
  result (execute config decision) w
  = Returned (failure_at (now w) decision (Text.lit "Burn feature disabled")) /\
  RiskState.consecutiveLosses w' = RiskState.consecutiveLosses w + 1 /\
  pending_of w' = pending_of w.
Proof.
  intros Ha Hoff.
  destruct (execute_summary config decision w auto_execution)
    as (r & w1 & E1 & Hr & Hl & _ & _ & He & _).
  unfold executeBurn in E1. rewrite Ha, Hoff in E1.
  injection E1 as <- <-. cbv zeta in *.
  rewrite Hr, Hl, He. repeat split; reflexivity.
Qed.

End Buyback.

(** The kill switch is on: the buyback of 10 is refused with the reason of
    the switch, and counted. *)
Lemma execute_refused_buyback_witness :
  let w := Sample.halted 1000 "maintenance" in
  let w' := after (execute Sample.auto_config (Sample.buyback 10)) w in
  result (execute Sample.auto_config (Sample.buyback 10)) w
  = Returned (failure_at (now w) (Sample.buyback 10)
                [Text.Lit "Kill switch is active"]) /\
  RiskState.consecutiveLosses w' = 1 /\
  RiskState.dailySpent w' = (0 + 10)%float.
Proof.
  intros w w'.
  destruct (execute_refused_buyback Sample.auto_config eq_refl
              (Sample.buyback 10) 10 w eq_refl eq_refl eq_refl eq_refl)
    as (Hr & Hl & Hd & _).
  split; [exact Hr | split; [exact Hl | exact Hd]].
Defined.

Lemma execute_buyback_without_size_witness :
  let w' := after (execute Sample.auto_config (Sample.plain BUYBACK))
              (Sample.funded 1000) in
  RiskState.consecutiveLosses w' = 1.
Proof.
  intros w'.
  destruct (execute_buyback_without_size Sample.auto_config eq_refl
              (Sample.plain BUYBACK) (Sample.funded 1000) eq_refl I)
    as (_ & _ & Hl & _).
  exact Hl.
Defined.

Lemma execute_burn_disabled_witness :
  let w' := after (execute Sample.auto_config (Sample.plain BURN))
              (Sample.funded 1000) in
  RiskState.consecutiveLosses w' = 1.
Proof.
  intros w'.
  destruct (execute_burn_disabled Sample.auto_config eq_refl
              (Sample.plain BURN) (Sample.funded 1000) eq_refl eq_refl)
    as (_ & Hl & _).
  exact Hl.
Defined.

(** ** What is tracked *)

Section Tracked.

Variable config : Config.t.

Lemma exec_executeSwap inputMint outputMint amount slippageBps w :
  Chain.is_transaction (chain w)
    (Chain.jupiter_swapTransaction (chain w) inputMint outputMint amount slippageBps)
  = true ->
  exec (SolanaClient.executeSwap inputMint outputMint amount slippageBps) w =
  (Returned "PLACEHOLDER_TX_SIGNATURE",
   Tracking.logged
     {| Logger.level := Logger.info;
        Logger.message := "Swap transaction prepared";
        Logger.context := [("inputMint", Logger.VStr (Text.lit inputMint));
                           ("outputMint", Logger.VStr (Text.lit outputMint));
                           ("amount", Logger.VNum amount)] |} w).
Proof.
  intros H. unfold exec, SolanaClient.executeSwap.
  cbn [run try_catch bind await sync Effects.rpc fst snd].
  rewrite H. reflexivity.
Qed.

(** X14. A buyback that goes through is tracked under the signature
    [executeSwap] returns, which is the same placeholder for every swap:
    the entry of an earlier buyback that is still pending is replaced by the
    new decision.  The execution is recorded as a success: the loss counter
    is set to 0 and the size is added to the spend of the day. *)
Theorem execute_buyback_tracked decision size (w : World) :
  Config.enableAutoExecution (Config.features config) = true ->
  PolicyDecision.action decision = BUYBACK ->
  PolicyDecision.size decision = Some size ->
  Js.truthy size = true ->
  RiskManager.allowed (Verdict.gate (Config.policy config) size w) = true ->
  let tokenMint := env_or (Config.TOKEN_MINT (Config.env config)) "" in
  String.eqb tokenMint "" = false ->
  (forall inputMint slippageBps,
     Chain.is_transaction (chain w)
       (Chain.jupiter_swapTransaction (chain w) inputMint tokenMint size slippageBps)
     = true) ->
  let w' := after (execute config decision) w in
  result (execute config decision) w
  = Returned (success_at (now w) decision "Buyback executed"
                (Some "PLACEHOLDER_TX_SIGNATURE") (Some size)) /\
  pending_of w'
  = Map_set "PLACEHOLDER_TX_SIGNATURE" decision (pending_of w) /\
  Map_get "PLACEHOLDER_TX_SIGNATURE" (pending_of w') = Some decision /\
  RiskState.consecutiveLosses w' = 0 /\
  RiskState.dailySpent w' = (RiskState.dailySpent w + size)%float.
Proof.
  intros Hon Ha Hs Ht Hyes tokenMint Hmint Hswap.
  destruct (execute_summary config decision w Hon)
    as (r & w1 & E1 & Hr & Hl & Hd & _ & He & _).
  destruct (size_params _ _ Hs) as (params & Hp & Hsize).
  rewrite Ha in E1. unfold executeBuyback in E1.
  rewrite Hp, Hsize, Ht in E1. cbn [negb] in E1.
  rewrite exec_try_catch, exec_bind, RiskManagerFacts.exec_canExecute in E1.
  rewrite Hyes in E1. cbn [negb] in E1. cbv zeta in E1.
  fold tokenMint in E1. rewrite Hmint in E1.
  rewrite exec_bind, exec_executeSwap in E1 by apply Hswap.
  cbn in E1. injection E1 as <- <-. cbv zeta in *.
  rewrite Hr, Hl, Hd, He, (size_or_0_truthy _ _ Hs Ht).
  cbn [ExecutionResult.success success_at].
  split; [reflexivity|]. split; [reflexivity|].
  split; [apply Map_get_set_eq|]. split; reflexivity.
Qed.

(** X15. Only buybacks are tracked.  Executing a BURN, NOOP or HODL decision
    leaves the set of pending transactions as it is, whatever the other
    tasks do meanwhile and whichever requests fail: the transaction of a
    burn is never polled. *)
Theorem execute_tracks_buybacks_only decision schedule (w : World) :
  PolicyDecision.action decision <> BUYBACK ->
  undisturbed executor schedule ->
  executor (snd (fst (run (execute config decision) schedule w))) = executor w.
Proof.
  intros Ha Hs. apply run_keeps; [|exact Hs].
  unfold execute.
  apply keeps_bind; [keeps_tac|intros startTime].
  apply keeps_try_catch; [|intros e; unfold createResult; keeps_tac].
  destruct (negb _); [unfold createResult; keeps_tac|].
  apply keeps_bind.
  - destruct (PolicyDecision.action decision); [| congruence | |];
      unfold executeBurn, createResult, SolanaClient.getTokenBalance,
        SolanaClient.burnTokens, SolanaClient.new_PublicKey,
        SolanaClient.treasuryPubkey;
      keeps_tac.
  - intros r.
    apply keeps_bind; [apply recordExecution_keeps_executor|intros _].
    apply keeps_bind; [apply storeResult_keeps_executor|intros _].
    keeps_tac.
Qed.

End Tracked.

(** Two buybacks in a row on a funded treasury: the second decision is the
    one under watch. *)
Lemma execute_buyback_tracked_witness :
  let d1 := Sample.buyback 10 in
  let d2 := Sample.buyback 20 in
  let w1 := after (execute Scenario.trading_config d1) (Sample.funded 1000) in
  let w2 := after (execute Scenario.trading_config d2) w1 in
  pending_of w1 = [("PLACEHOLDER_TX_SIGNATURE", d1)] /\
  pending_of w2 = [("PLACEHOLDER_TX_SIGNATURE", d2)] /\
  RiskState.dailySpent w2 = (0 + 10 + 20)%float.
Proof.
  intros d1 d2 w1 w2.
  destruct (execute_buyback_tracked Scenario.trading_config d1 10
              (Sample.funded 1000) eq_refl eq_refl eq_refl eq_refl eq_refl
              eq_refl (fun _ _ => eq_refl))
    as (_ & Hp1 & _ & _ & Hd1).
  destruct (execute_buyback_tracked Scenario.trading_config d2 20 w1
              eq_refl eq_refl eq_refl eq_refl)
    as (_ & Hp2 & _ & _ & Hd2).
  { vm_compute. reflexivity. }
  { reflexivity. }
  { intros. reflexivity. }
  fold w1 in Hp1, Hd1. fold w2 in Hp2, Hd2.
  split; [exact Hp1|]. split.
  - rewrite Hp2, Hp1. reflexivity.
  - rewrite Hd2, Hd1. reflexivity.
Defined.

(** A BURN decision executed among other tasks: nothing is put under
    watch. *)
Lemma execute_tracks_buybacks_only_witness :
  executor (snd (fst (run (execute Scenario.trading_config (Sample.plain BURN))
                        [Sample.calm; Sample.calm] (Sample.funded 1000))))
  = executor (Sample.funded 1000).
Proof.
  apply (execute_tracks_buybacks_only Scenario.trading_config (Sample.plain BURN)
           [Sample.calm; Sample.calm] (Sample.funded 1000)).
  - discriminate.
  - repeat constructor.
Defined.

End ExecutionFacts.

(* ===================================================================== *)
(** * executor: a chain that does not answer, and a switched-off executor *)
(* ===================================================================== *)

Module OutageFacts.

Import Task TaskFacts Executor Results.

#[local] Abbreviation pending_of w := (Fields.pendingExecutions (executor w)).

(** X16. A status request that fails is read as "pending":
    [getTransactionStatus] logs the error and answers [pending].  The poll
    then leaves the entry where it is and records nothing; the only trace is
    the error line in the log. *)
Theorem monitor_entry_rpc_failure txSignature decision slot rest e (w : World) :
  failure slot = Some e ->
  Map_get txSignature (pending_of w) = Some decision ->
  let w1 := interference slot w in
  answer (SolanaClient.getTransactionStatus txSignature) (slot :: rest) w
  = Returned SolanaClient.pending /\
  run (monitor_entry txSignature) (slot :: rest) w =
  (Returned tt,
   Tracking.logged
     {| Logger.level := Logger.error;
        Logger.message := "Failed to get transaction status";
        Logger.context := [("error", Logger.VStr (Text.lit e))] |} w1,
   rest).
Proof.
  intros Hfail Hget. cbv zeta. split.
  - unfold answer, SolanaClient.getTransactionStatus, Effects.rpc.
    cbn [run try_catch bind await]. rewrite Hfail. reflexivity.
  - unfold monitor_entry.
    rewrite run_bind. cbn [run pendingExecutions sync]. rewrite Hget.
    unfold SolanaClient.getTransactionStatus, Effects.rpc.
    cbn [run try_catch bind await]. rewrite Hfail. reflexivity.
Qed.

(** The chain does not answer while [sigA], which has failed, is polled:
    it stays under watch and no loss is recorded. *)
Lemma monitor_entry_rpc_failure_witness :
  let w' := snd (fst (run (monitor_entry "sigA") [Scenario.broken "timeout"]
                        Sample.tracking)) in
  pending_of w' = pending_of Sample.tracking /\
  RiskState.consecutiveLosses w' = 0.
Proof.
  intros w'.
  destruct (monitor_entry_rpc_failure "sigA" (Sample.buyback 10)
              (Scenario.broken "timeout") [] "timeout" Sample.tracking
              eq_refl eq_refl) as (_ & Hrun).
  subst w'. rewrite Hrun. split; reflexivity.
Defined.

(** X17. With auto-execution disabled, [execute] does nothing but log: it
    returns the failure "Auto-execution disabled" for every decision, sends
    no request, and does not call [recordExecution] or [storeResult]; the
    store, the pending set and the schedule are as they were. *)
Theorem execute_disabled config decision schedule (w : World) :
  Config.enableAutoExecution (Config.features config) = false ->
  run (execute config decision) schedule w =
  (Returned (failure_at (now w) decision (Text.lit "Auto-execution disabled")),
   Tracking.logged
     {| Logger.level := Logger.info;
        Logger.message := "Auto-execution disabled, skipping";
        Logger.context :=
          [("action", Logger.VStr
                        (Text.lit (DecisionEngine.action_name
                                     (PolicyDecision.action decision))))] |} w,
   schedule).
Proof.
  intros Hoff. unfold execute. rewrite Hoff. reflexivity.
Qed.

Lemma execute_disabled_witness :
  redis (snd (fst (run (execute Scenario.manual_config (Sample.buyback 10))
                     [Scenario.broken "timeout"] (Sample.funded 1000))))
  = redis (Sample.funded 1000).
Proof.
  rewrite (execute_disabled Scenario.manual_config (Sample.buyback 10)
             [Scenario.broken "timeout"] (Sample.funded 1000) eq_refl).
  reflexivity.
Defined.

(** X18. [execute] never throws: whatever the decision, the other tasks and
    the failures of the requests, it returns a result. *)
Theorem execute_always_returns config decision schedule (w : World) :
  exists r, answer (execute config decision) schedule w = Returned r.
Proof.
  unfold execute, Effects.new_Date, sync, answer. cbn [bind run].
  match goal with
  | |- context [run (try_catch ?body ?handler) _ _] =>
      apply (RobustnessFacts.try_catch_answers body handler)
  end.
  intros e s v. eexists. reflexivity.
Qed.

End OutageFacts.

(* ===================================================================== *)
(** * policy/decision-engine: what is stored *)
(* ===================================================================== *)

Module DecisionStoreFacts.

Import Task TaskFacts DecisionEngine.

(** The store after [storeDecision(decision)] has run alone. *)
Lemma exec_conclude mood market liquidityOk action reason params w :
  exists d,
    PolicyDecision.timestamp d = now w /\
    PolicyDecision.action d = action /\
    PolicyDecision.signals d
    = {| Signals.moodZScore := AggregatedMood.zScore mood;
         Signals.priceMomentum := MarketSignal.momentum market;
         Signals.liquidityOk := liquidityOk |} /\
    exec (conclude mood market liquidityOk action reason params) w =
    (Returned d,
     Tracking.logged
       {| Logger.level := Logger.info;
          Logger.message := "Decision made";
          Logger.context :=
            [("action", Logger.VStr (Text.lit (action_name action)));
             ("reason", Logger.VStr reason);
             ("zScore", Logger.VStr [Text.Fixed (AggregatedMood.zScore mood) 2]);
             ("momentum",
              Logger.VStr [Text.Fixed (MarketSignal.momentum market) 3])] |}
       (with_redis (Redis.with_published (Stored.publish d)) w)).
Proof. eexists. repeat split; reflexivity. Qed.

Lemma exec_decisionLogic policy mood market w :
  exists d entry,
    PolicyDecision.timestamp d = now w /\
    PolicyDecision.signals d
    = {| Signals.moodZScore := AggregatedMood.zScore mood;
         Signals.priceMomentum := MarketSignal.momentum market;
         Signals.liquidityOk := Js.gt (MarketSignal.liquidity market) 10000 |} /\
    exec (decisionLogic policy mood market) w =
    (Returned d,
     Tracking.logged entry
       (with_redis (Redis.with_published (Stored.publish d)) w)).
Proof.
  unfold decisionLogic. cbv zeta.
  destruct (_ && _).
  { destruct (exec_conclude mood market
                (Js.gt (MarketSignal.liquidity market) 10000) HODL_TREASURY
                [Text.Lit "High sentiment (z=";
                 Text.Fixed (AggregatedMood.zScore mood) 2;
                 Text.Lit ") and positive momentum - waiting"] None w)
      as (d & Ht & _ & Hs & E).
    rewrite E. eauto. }
  destruct (_ && _).
  - rewrite exec_bind, DecisionEngineFacts.exec_getRiskMetrics.
    cbn [RiskManager.treasuryBalance].
    rewrite exec_bind, RiskManagerFacts.exec_canExecute.
    destruct (negb _);
      match goal with
      | |- context [exec (conclude ?a ?b ?c ?d ?e ?f) ?v] =>
          destruct (exec_conclude a b c d e f v) as (dec & Ht & _ & Hs & E)
      end; rewrite E; eauto.
  - rewrite exec_bind, DecisionEngineFacts.exec_detectBearishCrossover.
    destruct (_ && _);
      match goal with
      | |- context [exec (conclude ?a ?b ?c ?d ?e ?f) ?v] =>
          destruct (exec_conclude a b c d e f v) as (dec & Ht & _ & Hs & E)
      end; rewrite E; eauto.
Qed.

(** [makeDecision], run alone: the decision and the store it leaves. *)
Lemma exec_makeDecision policy mood market w :
  exists d entry e,
    PolicyDecision.timestamp d = now w /\
    PolicyDecision.signals d
    = {| Signals.moodZScore := AggregatedMood.zScore mood;
         Signals.priceMomentum := MarketSignal.momentum market;
         Signals.liquidityOk := Js.gt (MarketSignal.liquidity market) 10000 |} /\
    exec (makeDecision policy mood market) w =
    (Returned d,
     Tracking.logged entry
       (with_redis (Redis.with_published (Stored.publish d)) (with_engine e w))).
Proof.
  unfold makeDecision.
  rewrite exec_try_catch, exec_bind, HistoryFacts.exec_updateEmaHistory.
  cbv zeta.
  match goal with
  | |- context [exec (decisionLogic policy mood market) (with_engine ?e w)] =>
      destruct (exec_decisionLogic policy mood market (with_engine e w))
        as (d & entry & Ht & Hs & E);
      exists d, entry, e
  end.
  rewrite E. split; [exact Ht | split; [exact Hs | reflexivity]].
Qed.

(** X19. Run alone, [makeDecision] stores the decision it returns: it is the
    value of [policy:latest], it is in the history under its timestamp (the
    time of the call), and the timestamp is in the timeline.  A decision
    made in the same millisecond as an earlier one takes its place in the
    history.  The execution keys and the risk keys are left as they
    are. *)
Theorem makeDecision_publishes policy mood market (w : World) :
  let w' := after (makeDecision policy mood market) w in
  let p := Redis.published (redis w) in
  let p' := Redis.published (redis w') in
  exists d,
    result (makeDecision policy mood market) w = Returned d /\
    PolicyDecision.timestamp d = now w /\
    Redis.policy_latest p' = Some d /\
    Redis.policy_history p' = <[now w := d]> (Redis.policy_history p) /\
    Redis.policy_history p' !! now w = Some d /\
    Redis.policy_timeline p' = {[ now w ]} ∪ Redis.policy_timeline p /\
    now w ∈ Redis.policy_timeline p' /\
    Redis.execution_latest p' = Redis.execution_latest p /\
    Redis.execution_history p' = Redis.execution_history p /\
    Redis.execution_timeline p' = Redis.execution_timeline p /\
    Redis.risk (redis w') = Redis.risk (redis w).
Proof.
  cbv zeta. unfold result, after.
  destruct (exec_makeDecision policy mood market w)
    as (d & entry & e & Ht & _ & E).
  rewrite E. cbn [fst snd].
  exists d. split; [reflexivity|]. split; [exact Ht|].
  unfold Tracking.logged, Stored.publish.
  cbn [redis with_log with_redis with_engine Redis.published Redis.with_published
       Redis.risk Redis.policy_latest Redis.policy_history Redis.policy_timeline
       Redis.execution_latest Redis.execution_history Redis.execution_timeline].
  rewrite Ht.
  split; [reflexivity|]. split; [reflexivity|].
  split; [apply lookup_insert_eq|]. split; [reflexivity|].
  split; [set_solver|]. repeat split; reflexivity.
Qed.

(** X20. The store is down while a buyback is sized.  When rule 2 applies
    and the first request of [getRiskMetrics] fails, [makeDecision] returns
    the NOOP decision "Error in decision making", whose signals are zeroed
    (the z-score and the momentum of the call are not reported), after two
    error lines in the log.  Nothing is stored: [policy:latest] still holds
    the decision of an earlier call.  The histories have been updated
    all the same. *)
Theorem makeDecision_store_down policy mood market slot rest e (w : World) :
  Js.ge (AggregatedMood.zScore mood) (Config.hypeThreshold policy)
  && Js.ge (MarketSignal.momentum market) (Config.momentumPositive policy)
  = false ->
  Js.le (AggregatedMood.zScore mood) (Config.fudThreshold policy)
  && Js.le (MarketSignal.momentum market) (Config.momentumNegative policy)
  = true ->
  failure slot = Some e ->
  let w1 := interference slot (after (updateEmaHistory mood) w) in
  fst (run (makeDecision policy mood market) (slot :: rest) w) =
  (Returned {| PolicyDecision.timestamp := now w1;
               PolicyDecision.action := NOOP;
               PolicyDecision.reason := Text.lit "Error in decision making";
               PolicyDecision.signals :=
                 {| Signals.moodZScore := 0%float;
                    Signals.priceMomentum := 0%float;
                    Signals.liquidityOk := false |};
               PolicyDecision.executionParams := None |},
   Tracking.logged
     {| Logger.level := Logger.error;
        Logger.message := "Decision making failed";
        Logger.context := [("error", Logger.VStr (Text.lit e))] |}
     (Tracking.logged
        {| Logger.level := Logger.error;
           Logger.message := "Failed to get risk metrics";
           Logger.context := [("error", Logger.VStr (Text.lit e))] |}
        w1)).
Proof.
  intros H1 H2 Hfail. cbv zeta. unfold makeDecision.
  rewrite run_try_catch, run_bind.
  rewrite run_synchronous by apply HistoryFacts.updateEmaHistory_synchronous.
  unfold after. destruct (exec (updateEmaHistory mood) w) as [[[]|e0] w0] eqn:E0.
  2:{ rewrite HistoryFacts.exec_updateEmaHistory in E0. discriminate. }
  cbn [fst snd].
  unfold decisionLogic. cbv zeta. rewrite H1, H2.
  rewrite run_bind.
  unfold RiskManager.getRiskMetrics, RiskManager.getDailySpent,
    Effects.new_Date, Effects.redis_read.
  cbn [run try_catch bind await sync]. rewrite Hfail.
  reflexivity.
Qed.

(** A FUD mood while the store does not answer. *)
Lemma makeDecision_store_down_witness :
  exists d w',
    fst (run (makeDecision Config.default_policy (Sample.mood (-2) 0 0)
                (Sample.market (-0.5) 20000))
           [Scenario.broken "ECONNREFUSED"] (Sample.funded 1000))
    = (Returned d, w') /\
    PolicyDecision.action d = NOOP /\
    Redis.policy_latest (Redis.published (redis w')) = None.
Proof.
  eexists. eexists. split.
  - exact (makeDecision_store_down Config.default_policy (Sample.mood (-2) 0 0)
             (Sample.market (-0.5) 20000) (Scenario.broken "ECONNREFUSED") []
             "ECONNREFUSED" (Sample.funded 1000) eq_refl eq_refl eq_refl).
  - split; reflexivity.
Defined.

(** [JSON.stringify] followed by [JSON.parse] on the numbers. *)
Lemma number_cases :
  Json.number (-0)%float = Some 0%float /\
  Json.number 0%float = Some 0%float /\
  Json.number PrimFloat.nan = None /\
  Json.number PrimFloat.infinity = None /\
  Json.number PrimFloat.neg_infinity = None /\
  (forall x,
     Js.isNaN x = false -> PrimFloat.is_infinity x = false ->
     Js.strict_eq x 0 = false -> Json.number x = Some x).
Proof.
  repeat (split; [reflexivity|]).
  intros x Hnan Hinf Hzero. unfold Json.number, Js.print_parse.
  unfold Js.strict_eq in Hzero. now rewrite Hnan, Hinf, Hzero.
Qed.

(** X21. [getLatestDecision] returns what [JSON.parse] reads in the text
    the last [makeDecision] stored, which is not always the decision that
    [makeDecision] returned.  Run one after the other, each alone: the
    action, the reason, the liquidity flag and the instant of the timestamp
    (now a string) are those of the decision; the z-score and the momentum
    come back as [null] when they are NaN or infinite, as [0] when they are
    [-0], and unchanged otherwise, and so do the execution parameters that
    are present.  When the request fails, [getLatestDecision] logs the
    error and returns [null], which is also its answer when no decision has
    been made yet. *)
Theorem getLatestDecision_round_trip policy mood market (w : World) :
  let read (x : float) : option float :=
    if negb (PrimFloat.eqb x x) || PrimFloat.eqb (PrimFloat.abs x) PrimFloat.infinity
    then None
    else Some (if PrimFloat.eqb x 0 then 0%float else x) in
  let read_optional (x : option float) : option (option float) :=
    match x with
    | Some v => Some (read v)
    | None => None
    end in
  (exists d,
     result (makeDecision policy mood market) w = Returned d /\
     result DecisionQueries.getLatestDecision
       (after (makeDecision policy mood market) w)
     = Returned
         (Some
            {| ParsedDecision.timestamp :=
                 IsoString.toISOString (PolicyDecision.timestamp d);
               ParsedDecision.action := PolicyDecision.action d;
               ParsedDecision.reason := PolicyDecision.reason d;
               ParsedDecision.signals :=
                 {| ParsedSignals.moodZScore :=
                      read (AggregatedMood.zScore mood);
                    ParsedSignals.priceMomentum :=
                      read (MarketSignal.momentum market);
                    ParsedSignals.liquidityOk :=
                      Js.gt (MarketSignal.liquidity market) 10000 |};
               ParsedDecision.executionParams :=
                 match PolicyDecision.executionParams d with
                 | Some params =>
                     Some {| ParsedExecutionParams.size :=
                               read_optional (ExecutionParams.size params);
                             ParsedExecutionParams.maxSlippage :=
                               read_optional (ExecutionParams.maxSlippage params);
                             ParsedExecutionParams.dcaFactor :=
                               read_optional (ExecutionParams.dcaFactor params) |}
                 | None => None
                 end |})) /\
  (read (-0)%float = Some 0%float /\
   read PrimFloat.nan = None /\
   read PrimFloat.infinity = None /\
   read PrimFloat.neg_infinity = None) /\
  (forall v, Redis.policy_latest (Redis.published (redis v)) = None ->
     result DecisionQueries.getLatestDecision v = Returned None) /\
  (forall slot rest v, failure slot <> None ->
     answer DecisionQueries.getLatestDecision (slot :: rest) v = Returned None).
Proof.
  cbv zeta. split; [|split; [|split]].
  - destruct (exec_makeDecision policy mood market w)
      as (d & entry & e & _ & Hs & E).
    exists d. unfold result, after. rewrite E. cbn [fst snd].
    split; [reflexivity|].
    unfold exec, DecisionQueries.getLatestDecision, Tracking.logged,
      Stored.publish.
    cbn [run try_catch bind await fst redis with_log with_redis with_engine
         Redis.published Redis.with_published Redis.policy_latest].
    unfold Json.parse_stringify. cbv zeta. rewrite Hs.
    cbn [Signals.moodZScore Signals.priceMomentum Signals.liquidityOk].
    reflexivity.
  - repeat split; reflexivity.
  - intros v Hnone.
    unfold result, exec, DecisionQueries.getLatestDecision.
    cbn [run try_catch bind await fst]. now rewrite Hnone.
  - intros slot rest v Hfail.
    unfold answer, DecisionQueries.getLatestDecision.
    cbn [run try_catch bind await].
    destruct (failure slot); [reflexivity | congruence].
Qed.

End DecisionStoreFacts.

(* ===================================================================== *)
(** * executor/worker: which decisions are executed *)
(* ===================================================================== *)

Module ExecutorWorkerFacts.

Import Task TaskFacts ExecutorWorker.

#[local] Abbreviation latest w := (Redis.policy_latest (Redis.published (redis w))).

Lemma execute_returns config decision : returns (Executor.execute config decision).
Proof.
  intros w. unfold Executor.execute. rewrite exec_bind.
  cbn [exec run Effects.new_Date sync fst].
  apply ExecutorFacts.try_catch_returns.
  intros e. apply ExecutorFacts.failure_handler_returns.
Qed.

(** [execute] does not write [policy:latest]. *)
Lemma execute_keeps_latest config decision :
  keeps (fun w => latest w) (Executor.execute config decision).
Proof.
  unfold Executor.execute, Executor.executeBuyback, Executor.executeBurn,
    Executor.createResult, Executor.storeResult, RiskManager.recordExecution,
    RiskManager.canExecute, SolanaClient.executeSwap,
    SolanaClient.getTokenBalance, SolanaClient.burnTokens,
    SolanaClient.new_PublicKey, SolanaClient.treasuryPubkey.
  keeps_tac.
Qed.

(** A turn that finds a decision it has already processed, or an older
    one, does nothing. *)
Lemma exec_turn_processed config last d w :
  latest w = Some d -> PolicyDecision.timestamp d <= last ->
  exec (turn config last) w = (Returned last, w).
Proof.
  intros Hd Hle. unfold turn.
  rewrite exec_try_catch, exec_bind.
  cbn [exec run await fst]. rewrite Hd. cbv zeta.
  cbn [Json.parse_stringify ParsedDecision.timestamp ParsedDecision.action
       IsoString.getTime].
  replace (_ <=? _) with true by (symmetry; now apply Z.leb_le).
  reflexivity.
Qed.

(** A turn that finds a newer decision. *)
Lemma exec_turn_new config last d w :
  latest w = Some d -> last < PolicyDecision.timestamp d ->
  exec (turn config last) w =
  (Returned (PolicyDecision.timestamp d),
   match PolicyDecision.action d with
   | NOOP | HODL_TREASURY => w
   | BUYBACK | BURN =>
       after (Executor.execute config (Json.as_decision (Json.parse_stringify d)))
         (Tracking.logged
            {| Logger.level := Logger.info;
               Logger.message := "Executing decision";
               Logger.context :=
                 [("action", Logger.VStr
                               (Text.lit (DecisionEngine.action_name
                                            (PolicyDecision.action d))))] |} w)
   end).
Proof.
  intros Hd Hlt. unfold turn.
  rewrite exec_try_catch, exec_bind.
  cbn [exec run await fst]. rewrite Hd. cbv zeta.
  cbn [Json.parse_stringify ParsedDecision.timestamp ParsedDecision.action
       IsoString.getTime].
  replace (_ <=? _) with false by (symmetry; apply Z.leb_gt; lia).
  rewrite exec_bind.
  destruct (PolicyDecision.action d) eqn:Ha; try reflexivity;
    rewrite exec_bind; cbn [exec run Effects.logger sync fst];
    rewrite exec_bind; unfold after, Tracking.logged;
    match goal with
    | |- context [exec (Executor.execute _ ?parsed) ?v] =>
        destruct (execute_returns config parsed v) as (r & v' & E); rewrite E
    end; reflexivity.
Qed.

(** X22. The worker hands a stored decision to the executor at most once.
    After a turn that found the decision [d] in [policy:latest], the last
    processed timestamp is at least the timestamp of [d], whether [d] was
    executed or not and whether its execution succeeded or failed; the next
    turn finds the same decision, changes nothing and keeps the timestamp: a
    failed execution is not tried again.  A decision whose timestamp is not
    greater than the last processed one (it was stored in the same
    millisecond as the one before it, say) is never executed. *)
Theorem turn_at_most_once config (last : Z) (d : PolicyDecision.t) (w : World) :
  latest w = Some d ->
  let last' := Z.max last (PolicyDecision.timestamp d) in
  let w' := after (turn config last) w in
  result (turn config last) w = Returned last' /\
  latest w' = Some d /\
  exec (turn config last') w' = (Returned last', w') /\
  (PolicyDecision.timestamp d <= last -> w' = w).
Proof.
  intros Hd last' w'.
  assert (Hturn : result (turn config last) w = Returned last' /\ latest w' = Some d
                  /\ (PolicyDecision.timestamp d <= last -> w' = w)).
  { subst w' last'. unfold result, after.
    destruct (Z_le_gt_dec (PolicyDecision.timestamp d) last) as [Hle|Hgt].
    - rewrite (exec_turn_processed config last d w Hd Hle). cbn [fst snd].
      rewrite Z.max_l by lia. auto.
    - rewrite (exec_turn_new config last d w Hd) by lia. cbn [fst snd].
      rewrite Z.max_r by lia. split; [reflexivity|]. split; [|lia].
      destruct (PolicyDecision.action d); try exact Hd;
        rewrite (after_keeps (fun v => latest v) _ _
                   (execute_keeps_latest config _)); exact Hd. }
  destruct Hturn as (Hres & Hlatest & Hsame).
  split; [exact Hres|]. split; [exact Hlatest|]. split; [|exact Hsame].
  apply (exec_turn_processed config last' d w' Hlatest).
  subst last'. lia.
Qed.

(** X23. The worker does not execute NOOP and HODL decisions: a turn that
    finds a new decision of one of these two kinds marks it processed and
    leaves the world as it is.  The loss counter, the spend of the day and
    the last execution time are therefore not touched by the decisions that
    ask for no action. *)
Theorem turn_skips_idle config (last : Z) (d : PolicyDecision.t) (w : World) :
  latest w = Some d ->
  last < PolicyDecision.timestamp d ->
  PolicyDecision.action d = NOOP \/ PolicyDecision.action d = HODL_TREASURY ->
  exec (turn config last) w = (Returned (PolicyDecision.timestamp d), w).
Proof.
  intros Hd Hlt Ha. rewrite (exec_turn_new config last d w Hd Hlt).
  destruct Ha as [-> | ->]; reflexivity.
Qed.

(** A refused buyback is in [policy:latest]: the first turn executes (and
    records) it, the second turn does nothing. *)
Lemma turn_at_most_once_witness :
  let w := Scenario.decided (Sample.buyback 10) (Sample.halted 1000 "maintenance") in
  let w' := after (turn Sample.auto_config 0) w in
  RiskState.consecutiveLosses w' = 1 /\
  exec (turn Sample.auto_config 1704067200000) w' = (Returned 1704067200000, w').
Proof.
  intros w w'.
  destruct (turn_at_most_once Sample.auto_config 0 (Sample.buyback 10) w eq_refl)
    as (_ & _ & Hnext & _).
  split; [vm_compute; reflexivity | exact Hnext].
Defined.

(** Two failures are on record when a NOOP decision arrives: they stay. *)
Lemma turn_skips_idle_witness :
  let w := Scenario.decided (Sample.plain NOOP)
             (after (RiskManager.recordExecution 10 false)
                (after (RiskManager.recordExecution 10 false)
                   (Sample.funded 1000))) in
  RiskState.consecutiveLosses w = 2 /\
  exec (turn Sample.auto_config 0) w = (Returned 1704067200000, w).
Proof.
  intros w. split; [vm_compute; reflexivity|].
  exact (turn_skips_idle Sample.auto_config 0 (Sample.plain NOOP) w
           eq_refl eq_refl (or_introl eq_refl)).
Defined.

End ExecutorWorkerFacts.

(* ===================================================================== *)
(** * sentiment/aggregator: the three EMAs *)
(* ===================================================================== *)

Module AggregatorEmaFacts.

Import Task TaskFacts SentimentAggregator.

(** The mood of a non-empty batch carries what the three [add] calls
    return. *)
Lemma aggregate_mood tweet tweets w :
  exists mood,
    result (aggregate (tweet :: tweets)) w = Returned mood /\
    let a := aggregator w in
    let raw := AggregatedMood.rawScore mood in
    AggregatedMood.ema5 mood
    = fst (MathUtils.ExponentialMovingAverage_add (Fields.ema5 a) raw) /\
    AggregatedMood.ema15 mood
    = fst (MathUtils.ExponentialMovingAverage_add (Fields.ema15 a) raw) /\
    AggregatedMood.ema60 mood
    = fst (MathUtils.ExponentialMovingAverage_add (Fields.ema60 a) raw) /\
    AggregatedMood.volume mood = length (tweet :: tweets) /\
    AggregatedMood.timestamp mood = now w /\
    let history :=
      Fields.historicalScores (aggregator (after (aggregate (tweet :: tweets)) w)) in
    AggregatedMood.zScore mood
    = MathUtils.calculateZScore raw (MathUtils.calculateMean history)
        (MathUtils.calculateStdDev history).
Proof.
  unfold result, after, exec, aggregate.
  destruct (fold_left _ _ _) as [totalSentiment totalWeight].
  set (raw := if Js.gt totalWeight 0 then _ else _).
  cbn -[Nat.ltb raw MathUtils.calculateZScore MathUtils.calculateMean
        MathUtils.calculateStdDev analyzeTopics length].
  destruct (_ <? _)%nat;
    cbn -[Nat.ltb raw MathUtils.calculateZScore MathUtils.calculateMean
          MathUtils.calculateStdDev analyzeTopics length];
    eexists; split; try reflexivity; repeat split; reflexivity.
Qed.

(** X24. The EMAs of a mood.  After a non-empty batch, [getCurrentEMAs]
    returns the three EMAs of the mood that [aggregate] has just returned.
    Each of them is the raw score of the batch when its accumulator has not
    been fed yet (after construction or [reset]), and
    [alpha * rawScore + (1 - alpha) * previous] afterwards. *)
Theorem aggregate_emas tweet tweets (w : World) :
  let a := aggregator w in
  let w' := after (aggregate (tweet :: tweets)) w in
  exists mood,
    result (aggregate (tweet :: tweets)) w = Returned mood /\
    result getCurrentEMAs w'
    = Returned (AggregatedMood.ema5 mood, AggregatedMood.ema15 mood,
                AggregatedMood.ema60 mood) /\
    let raw := AggregatedMood.rawScore mood in
    let next (e : MathUtils.ExponentialMovingAverage) :=
      match MathUtils.ema e with
      | None => raw
      | Some previous =>
          (MathUtils.alpha e * raw + (1 - MathUtils.alpha e) * previous)%float
      end in
    AggregatedMood.ema5 mood = next (Fields.ema5 a) /\
    AggregatedMood.ema15 mood = next (Fields.ema15 a) /\
    AggregatedMood.ema60 mood = next (Fields.ema60 a).
Proof.
  cbv zeta.
  destruct (aggregate_mood tweet tweets w) as (mood & Hres & H5 & H15 & H60 & _).
  destruct (SentimentAggregatorFacts.aggregate_nonempty tweet tweets w)
    as (mood' & Hres' & Hagg).
  rewrite Hres in Hres'. injection Hres' as <-. cbv zeta in Hagg.
  exists mood. split; [exact Hres|]. split.
  - unfold result, exec, getCurrentEMAs. cbn [run bind this sync fst].
    rewrite Hagg, H5, H15, H60. reflexivity.
  - rewrite H5, H15, H60. repeat split; reflexivity.
Qed.

(** X25. [reset] forgets what [aggregate] did: after a batch and a [reset]
    the aggregator is in the state a [reset] alone would have left.  An
    aggregator that has only been constructed, fed and reset is as
    constructed: its smoothing factors and its history bound never
    change. *)
Theorem reset_forgets tweets (w : World) :
  aggregator (after reset (after (aggregate tweets) w))
  = aggregator (after reset w) /\
  (forall policy,
     aggregator (after reset w) = create policy ->
     aggregator (after reset (after (aggregate tweets) w)) = create policy) /\
  (forall policy,
     aggregator w = create policy -> aggregator (after reset w) = create policy).
Proof.
  assert (Hsame : aggregator (after reset (after (aggregate tweets) w))
                  = aggregator (after reset w)).
  { destruct tweets as [|tweet tweets].
    - unfold after at 2. rewrite SentimentAggregatorFacts.exec_aggregate_nil.
      reflexivity.
    - destruct (SentimentAggregatorFacts.aggregate_nonempty tweet tweets w)
        as (mood & _ & Hagg).
      cbv zeta in Hagg. unfold after at 1 3, exec, reset.
      cbn [run bind this assign sync fst snd aggregator with_aggregator].
      rewrite Hagg. reflexivity. }
  split; [exact Hsame|]. split.
  - intros policy H. now rewrite Hsame.
  - intros policy H. unfold after, exec, reset.
    cbn [run bind this assign sync fst snd aggregator with_aggregator].
    rewrite H. reflexivity.
Qed.

End AggregatorEmaFacts.

(* ===================================================================== *)
(** * sentiment/aggregator: the topic breakdown *)
(* ===================================================================== *)

Module TopicFacts.

Import SentimentAggregator.

(** A text that contains "$yourcoin" contains "yourcoin". *)
Lemma includes_cashtag text :
  includes text "$yourcoin" = true -> includes text "yourcoin" = true.
Proof.
  induction text as [|c rest IH]; [discriminate|].
  cbn [includes]. intros H. apply orb_true_iff in H.
  apply orb_true_iff. right.
  destruct H as [H|H].
  - cbn [String.prefix] in H.
    destruct (ascii_dec "$"%char c); [|discriminate].
    destruct rest as [|c' rest']; [discriminate|].
    cbn [includes]. apply orb_true_iff. now left.
  - destruct rest as [|c' rest']; [discriminate|].
    specialize (IH H). exact IH.
Qed.

Lemma topic_test text :
  includes text "$yourcoin" || includes text "yourcoin" = includes text "yourcoin".
Proof.
  destruct (includes text "$yourcoin") eqn:E; [|reflexivity].
  now rewrite (includes_cashtag _ E).
Qed.

Lemma topic_counts tweets : forall ourCoinCount generalCount,
  fold_left
    (fun '(ourCoinCount, generalCount) tweet =>
       let text := toLowerCase (ProcessedTweet.text tweet) in
       if includes text "$yourcoin" || includes text "yourcoin"
       then (S ourCoinCount, generalCount)
       else (ourCoinCount, S generalCount))
    tweets (ourCoinCount, generalCount)
  = ((ourCoinCount + length (List.filter Topics.mentions_coin tweets))%nat,
     (generalCount
      + (length tweets - length (List.filter Topics.mentions_coin tweets)))%nat).
Proof.
  induction tweets as [|tweet tweets IH]; intros a b.
  - cbn. f_equal; lia.
  - cbn [fold_left List.filter length]. cbv zeta. rewrite topic_test.
    fold (Topics.mentions_coin tweet).
    pose proof (List.filter_length_le Topics.mentions_coin tweets) as Hle.
    destruct (Topics.mentions_coin tweet); rewrite IH; cbn [length]; f_equal; lia.
Qed.

(** X26. The topic breakdown counts every tweet once: a tweet is "ours"
    exactly when its text, lowercased, contains "yourcoin" (the test for
    "$yourcoin" adds nothing), and the two shares are the counts divided by
    the number of tweets; both are 0 for an empty batch. *)
Theorem analyzeTopics_counts (tweets : list ProcessedTweet.t) :
  let total := length tweets in
  let ours := length (List.filter Topics.mentions_coin tweets) in
  (ours <= total)%nat /\
  analyzeTopics tweets =
  {| TopicBreakdown.ourCoin :=
       if (0 <? total)%nat then (Js.of_nat ours / Js.of_nat total)%float
       else 0%float;
     TopicBreakdown.generalMarket :=
       if (0 <? total)%nat
       then (Js.of_nat (total - ours) / Js.of_nat total)%float
       else 0%float |}.
Proof.
  cbv zeta.
  pose proof (List.filter_length_le Topics.mentions_coin tweets) as Hle.
  split; [exact Hle|].
  unfold analyzeTopics. rewrite topic_counts. cbn [Nat.add].
  replace (length (List.filter Topics.mentions_coin tweets)
           + (length tweets - length (List.filter Topics.mentions_coin tweets)))%nat
    with (length tweets) by lia.
  reflexivity.
Qed.

End TopicFacts.

(* ===================================================================== *)
(** * Zeros and NaN *)
(* ===================================================================== *)

Module BlankFacts.

Import Task TaskFacts.

(** A product with [0] is a zero or NaN. *)
Lemma blank_mul_zero (a : float) : Numbers.blank (a * 0) = true.
Proof.
  unfold Numbers.blank. rewrite FloatAxioms.mul_spec.
  change (Prim2SF 0) with (S754_zero false).
  destruct (Prim2SF a) as [s|s| |s m e]; reflexivity.
Qed.

Lemma blank_zero_mul (a : float) : Numbers.blank (0 * a) = true.
Proof.
  unfold Numbers.blank. rewrite FloatAxioms.mul_spec.
  change (Prim2SF 0) with (S754_zero false).
  destruct (Prim2SF a) as [s|s| |s m e]; reflexivity.
Qed.

Lemma blank_mul_half (a : float) :
  Numbers.blank a = true -> Numbers.blank (a * 0.5) = true.
Proof.
  unfold Numbers.blank. rewrite FloatAxioms.mul_spec.
  destruct (Prim2SF a) as [s|s| |s m e]; try discriminate; intros _;
    vm_compute; reflexivity.
Qed.

Lemma blank_zero_sub (a : float) :
  Numbers.blank a = true -> Numbers.blank (0 - a) = true.
Proof.
  unfold Numbers.blank. rewrite FloatAxioms.sub_spec.
  change (Prim2SF 0) with (S754_zero false).
  destruct (Prim2SF a) as [[]|s| |s m e]; try discriminate; reflexivity.
Qed.

Lemma blank_zero_add (a : float) :
  Numbers.blank a = true -> Numbers.blank (0 + a) = true.
Proof.
  unfold Numbers.blank. rewrite FloatAxioms.add_spec.
  change (Prim2SF 0) with (S754_zero false).
  destruct (Prim2SF a) as [[]|s| |s m e]; try discriminate; reflexivity.
Qed.

Lemma blank_not_ltb (a b : float) :
  Numbers.blank a = true -> Numbers.blank b = true -> PrimFloat.ltb a b = false.
Proof.
  unfold Numbers.blank. rewrite FloatAxioms.ltb_spec. unfold SFltb.
  destruct (Prim2SF a) as [s|s| |s m e]; try discriminate;
    destruct (Prim2SF b) as [s'|s'| |s' m' e']; try discriminate; reflexivity.
Qed.

Lemma blank_falsy (a : float) : Numbers.blank a = true -> Js.truthy a = false.
Proof.
  unfold Numbers.blank, Js.truthy, Js.isNaN.
  rewrite !FloatAxioms.eqb_spec.
  change (Prim2SF 0) with (S754_zero false). unfold SFeqb.
  destruct (Prim2SF a) as [s|s| |s m e]; try discriminate; reflexivity.
Qed.

End BlankFacts.

(* ===================================================================== *)
(** * policy/decision-engine: a treasury that is not funded *)
(* ===================================================================== *)

Module UnfundedFacts.

Import Task TaskFacts DecisionEngine.

(** On a store without balance and without spend, an amount that is a zero
    or NaN passes the two balance checks. *)
Lemma gate_blank policy amount w :
  Numbers.blank amount = true ->
  RiskState.treasuryBalance w = 0%float ->
  RiskState.dailySpent w = 0%float ->
  RiskState.killSwitchActive w = false ->
  RiskState.consecutiveLosses w < Config.maxConsecutiveLosses policy ->
  Verdict.gate policy amount w = Verdict.permitted.
Proof.
  intros Hblank Hbalance Hspent Hswitch Hlosses.
  unfold Verdict.gate. cbv zeta. rewrite Hbalance, Hspent, Hswitch.
  unfold Js.lt, Js.gt.
  rewrite (BlankFacts.blank_not_ltb _ _ (BlankFacts.blank_zero_sub _ Hblank)
             (BlankFacts.blank_zero_mul _)).
  rewrite (BlankFacts.blank_not_ltb _ _ (BlankFacts.blank_zero_mul _)
             (BlankFacts.blank_zero_add _ Hblank)).
  replace (_ >=? _) with false; [reflexivity|].
  symmetry. rewrite Z.geb_leb. apply Z.leb_gt. exact Hlosses.
Qed.

(** X27. A treasury without a known balance still buys back, in name.  On a
    store that holds no treasury balance and no spend for the day, with the
    kill switch off and the loss counter below its limit, a mood and market
    that meet rule 2 make [makeDecision] return a BUYBACK decision, for every
    policy; its size, [0.01 * |zScore| * 0 * 0.5], is a zero or NaN, which
    [executeBuyback] takes for a missing size. *)
Theorem makeDecision_unfunded_buyback policy mood market (w : World) :
  Js.ge (AggregatedMood.zScore mood) (Config.hypeThreshold policy)
  && Js.ge (MarketSignal.momentum market) (Config.momentumPositive policy)
  = false ->
  Js.le (AggregatedMood.zScore mood) (Config.fudThreshold policy)
  && Js.le (MarketSignal.momentum market) (Config.momentumNegative policy)
  = true ->
  RiskState.treasuryBalance w = 0%float ->
  RiskState.dailySpent w = 0%float ->
  RiskState.killSwitchActive w = false ->
  RiskState.consecutiveLosses w < Config.maxConsecutiveLosses policy ->
  exists d size,
    result (makeDecision policy mood market) w = Returned d /\
    PolicyDecision.action d = BUYBACK /\
    PolicyDecision.size d = Some size /\
    Js.truthy size = false /\
    PolicyDecision.size_or_0 d = 0%float.
Proof.
  intros H1 H2 Hbalance Hspent Hswitch Hlosses.
  rewrite DecisionEngineFacts.result_makeDecision,
    DecisionEngineFacts.result_decisionLogic.
  rewrite H1, H2. cbv zeta.
  rewrite DecisionEngineFacts.gate_after_updateEmaHistory.
  replace (RiskState.treasuryBalance (after (updateEmaHistory mood) w))
    with 0%float
    by (unfold after; rewrite HistoryFacts.exec_updateEmaHistory;
        symmetry; exact Hbalance).
  set (size := (0.01 * abs (AggregatedMood.zScore mood) * 0 * 0.5)%float).
  assert (Hblank : Numbers.blank size = true).
  { apply BlankFacts.blank_mul_half, BlankFacts.blank_mul_zero. }
  rewrite (gate_blank policy size w Hblank Hbalance Hspent Hswitch Hlosses).
  cbn [negb RiskManager.allowed Verdict.permitted].
  eexists. exists size. split; [reflexivity|].
  split; [reflexivity|]. split; [reflexivity|].
  pose proof (BlankFacts.blank_falsy size Hblank) as Hfalsy.
  split; [exact Hfalsy|].
  unfold PolicyDecision.size_or_0, PolicyDecision.size, Js.or_else.
  cbn [PolicyDecision.executionParams ExecutionParams.size].
  now rewrite Hfalsy.
Qed.

(** The services have just started on an empty store and the mood is
    fearful. *)
Lemma makeDecision_unfunded_buyback_witness :
  exists d size,
    result (makeDecision Config.default_policy (Sample.mood (-2) 0 0)
              (Sample.market (-0.5) 20000)) Sample.fresh = Returned d /\
    PolicyDecision.action d = BUYBACK /\
    PolicyDecision.size d = Some size /\
    Js.truthy size = false.
Proof.
  destruct (makeDecision_unfunded_buyback Config.default_policy
              (Sample.mood (-2) 0 0) (Sample.market (-0.5) 20000) Sample.fresh
              eq_refl eq_refl eq_refl eq_refl eq_refl eq_refl)
    as (d & size & Hd & Ha & Hs & Ht & _).
  exists d, size. repeat split; assumption.
Defined.

End UnfundedFacts.

(* ===================================================================== *)
(** * policy/decision-engine: the same mood twice *)
(* ===================================================================== *)

Module RepeatedMoodFacts.

Import Task TaskFacts MathUtils History.

(** A pushed history ends in the value pushed. *)
Lemma bounded_push_ends history v :
  (length history <= 100)%nat ->
  exists pre,
    bounded_push 100 history v = (pre ++ [v])%list /\
    length pre = Nat.min (length history) 99.
Proof.
  intros Hlen.
  destruct (Nat.eq_dec (length history) 100%nat) as [Hfull|Hroom].
  - rewrite HistoryFacts.bounded_push_full by lia.
    exists (tl history). split; [reflexivity|].
    destruct history; cbn [tl length] in *; lia.
  - rewrite HistoryFacts.bounded_push_room by lia.
    exists history. split; [reflexivity | lia].
Qed.

(** Two pushes in a row: the history ends in the two values pushed. *)
Lemma bounded_push_twice history v v' :
  (length history <= 100)%nat ->
  exists pre,
    bounded_push 100 (bounded_push 100 history v) v' = (pre ++ [v; v'])%list.
Proof.
  intros Hlen.
  destruct (bounded_push_ends history v Hlen) as (p & -> & Hp).
  assert (Hlen' : (length (p ++ [v]) <= 100)%nat)
    by (rewrite length_app; cbn [length]; lia).
  destruct (Nat.eq_dec (length (p ++ [v])) 100%nat) as [Hfull|Hroom].
  - rewrite HistoryFacts.bounded_push_full by lia.
    rewrite length_app in Hfull. cbn [length] in Hfull.
    destruct p as [|x p]; [cbn in Hfull; lia|].
    exists p. cbn [tl app]. rewrite <- app_assoc. reflexivity.
  - rewrite HistoryFacts.bounded_push_room by lia.
    exists p. rewrite <- app_assoc. reflexivity.
Qed.

(** X28. An unchanged mood cannot burn.  When [makeDecision] is called again
    with the EMAs of the call before (the policy worker reads the latest
    mood once a minute, new or not), the second call does not decide BURN:
    the last two samples of each history are equal, and equal samples are no
    crossover. *)
Theorem makeDecision_same_mood policy policy' mood market mood' market'
  (w : World) d' :
  engine_reachable (engine w) ->
  AggregatedMood.ema15 mood' = AggregatedMood.ema15 mood ->
  AggregatedMood.ema60 mood' = AggregatedMood.ema60 mood ->
  result (DecisionEngine.makeDecision policy' mood' market')
    (after (DecisionEngine.makeDecision policy mood market) w) = Returned d' ->
  PolicyDecision.action d' <> BURN.
Proof.
  intros Hreach H15 H60 Hd' Hburn.
  pose proof (CrossoverFacts.burn_needs_down _ _ _ _ _ Hd' Hburn) as Hdown.
  cbv zeta in Hdown. clear Hd' Hburn.
  destruct (HistoryFacts.engine_reachable_bounded _ Hreach) as [Hlen Hcap].
  set (w1 := after (DecisionEngine.makeDecision policy mood market) w) in *.
  destruct (HistoryFacts.makeDecision_histories policy mood market [] w
              ltac:(constructor) Hlen) as [E15 E60].
  fold (exec (DecisionEngine.makeDecision policy mood market) w) in E15, E60.
  fold (after (DecisionEngine.makeDecision policy mood market) w) in E15, E60.
  fold w1 in E15, E60.
  assert (Hlen1 : length (Fields.ema15History (engine w1))
                  = length (Fields.ema60History (engine w1))).
  { rewrite E15, E60, !HistoryFacts.length_bounded_push by lia. lia. }
  destruct (HistoryFacts.makeDecision_histories policy' mood' market' [] w1
              ltac:(constructor) Hlen1) as [F15 F60].
  rewrite (HistoryFacts.makeDecision_engine policy' mood' market' [] w1
             ltac:(constructor)) in F15, F60.
  rewrite F15, F60, E15, E60, H15, H60 in Hdown.
  destruct (bounded_push_twice (Fields.ema15History (engine w))
              (AggregatedMood.ema15 mood) (AggregatedMood.ema15 mood) Hcap)
    as (p & P15).
  destruct (bounded_push_twice (Fields.ema60History (engine w))
              (AggregatedMood.ema60 mood) (AggregatedMood.ema60 mood)
              ltac:(lia)) as (q & P60).
  rewrite P15, P60, MathUtilsFacts.detectCrossover_last_two in Hdown.
  unfold Js.le, Js.ge, Js.lt, Js.gt in Hdown.
  destruct (PrimFloat.ltb (AggregatedMood.ema15 mood) (AggregatedMood.ema60 mood))
    eqn:Hlt.
  - rewrite (NumberFacts.ltb_not_leb _ _ Hlt) in Hdown.
    destruct (_ && _); discriminate.
  - rewrite andb_false_r in Hdown. destruct (_ && _); discriminate.
Qed.

(** A new engine reads the same mood twice. *)
Lemma makeDecision_same_mood_witness :
  let mood := Sample.mood 0 0.5 0.8 in
  let market := Sample.market 0.01 20000 in
  exists d',
    result (DecisionEngine.makeDecision Config.default_policy mood market)
      (after (DecisionEngine.makeDecision Config.default_policy mood market)
         Sample.fresh) = Returned d' /\
    PolicyDecision.action d' <> BURN.
Proof.
  intros mood market. eexists. split; [vm_compute; reflexivity|].
  eapply (makeDecision_same_mood Config.default_policy Config.default_policy
            mood market mood market Sample.fresh);
    [apply engine_created | reflexivity | reflexivity | vm_compute; reflexivity].
Defined.

End RepeatedMoodFacts.

(* ===================================================================== *)
(** * lib/utils/math and sentiment/aggregator: the sign of a z-score *)
(* ===================================================================== *)

Module ZScoreFacts.

Import Task TaskFacts MathUtils.

(** Rounding keeps the sign it is given. *)
Lemma binary_round_aux_sign prec emax s m e l :
  match binary_round_aux prec emax s m e l with
  | S754_zero s' | S754_infinity s' | S754_finite s' _ _ => s' = s
  | S754_nan => True
  end.
Proof.
  unfold binary_round_aux.
  destruct (shr_fexp prec emax m e l) as [mrs1 e1].
  destruct (shr_fexp prec emax _ e1 loc_Exact) as [mrs2 e2].
  destruct (shr_m mrs2); [reflexivity | | exact I].
  destruct (_ <=? _)%Z; reflexivity.
Qed.

(** A square root is never below zero. *)
Lemma sqrt_sign (v : float) :
  match Prim2SF (PrimFloat.sqrt v) with
  | S754_infinity s | S754_finite s _ _ => s = false
  | _ => True
  end.
Proof.
  rewrite FloatAxioms.sqrt_spec. unfold SF64sqrt, SFsqrt.
  destruct (Prim2SF v) as [s|[]| |[] m e]; try exact I; try reflexivity.
  destruct (SFsqrt_core_binary prec emax (Z.pos m) e) as [[mz ez] lz].
  pose proof (binary_round_aux_sign prec emax false mz ez lz) as H.
  destruct (binary_round_aux prec emax false mz ez lz); auto.
Qed.

Lemma calculateStdDev_sign (values : list float) :
  match Prim2SF (calculateStdDev values) with
  | S754_infinity s | S754_finite s _ _ => s = false
  | _ => True
  end.
Proof.
  unfold calculateStdDev. destruct values as [|x values]; [exact I|].
  cbv zeta. apply sqrt_sign.
Qed.

(** The sign of a quotient by a number that is not below zero. *)
Lemma div_sign (x y : float) :
  match Prim2SF y with
  | S754_infinity s | S754_finite s _ _ => s = false
  | _ => True
  end ->
  PrimFloat.eqb y 0 = false ->
  (PrimFloat.ltb (x / y) 0 = true -> PrimFloat.ltb x 0 = true) /\
  (PrimFloat.ltb 0 (x / y) = true -> PrimFloat.ltb 0 x = true).
Proof.
  rewrite FloatAxioms.eqb_spec, !FloatAxioms.ltb_spec, FloatAxioms.div_spec.
  change (Prim2SF 0) with (S754_zero false).
  unfold SFeqb, SFltb, SF64div, SFdiv.
  destruct (Prim2SF y) as [sy|sy| |sy my ey]; cbn; intros Hy Hnz;
    try discriminate; subst;
    destruct (Prim2SF x) as [sx|sx| |sx mx ex]; cbn;
    try (split; discriminate); try (split; intros H; exact H);
    try (destruct sx; split; (discriminate || reflexivity)).
  destruct (SFdiv_core_binary prec emax (Z.pos mx) ex (Z.pos my) ey)
    as [[mz ez] lz].
  pose proof (binary_round_aux_sign prec emax (xorb sx false) mz ez lz) as H.
  rewrite xorb_false_r in *.
  destruct (binary_round_aux prec emax sx mz ez lz) as [s|s| |s m e];
    cbn; subst; split; intros H'; try discriminate; exact H'.
Qed.

(** X29. The sign of a z-score taken against a computed standard deviation.
    [calculateStdDev] never returns a number below zero, so
    [calculateZScore(value, mean, calculateStdDev(values))] is below zero
    only when [value - mean] is, and above zero only when [value - mean] is
    (it may be 0 or NaN in both cases).  For the mood of a non-empty batch:
    a negative z-score means that the raw score of the batch is below the
    mean of the score history, a positive one that it is above. *)
Theorem zScore_sign :
  (forall values, Js.lt (calculateStdDev values) 0 = false) /\
  (forall value mean values,
     let z := calculateZScore value mean (calculateStdDev values) in
     (Js.lt z 0 = true -> Js.lt (value - mean) 0 = true) /\
     (Js.gt z 0 = true -> Js.gt (value - mean) 0 = true)) /\
  (forall tweet tweets w,
     let w' := after (SentimentAggregator.aggregate (tweet :: tweets)) w in
     let mean := calculateMean (Fields.historicalScores (aggregator w')) in
     exists mood,
       result (SentimentAggregator.aggregate (tweet :: tweets)) w = Returned mood /\
       (Js.lt (AggregatedMood.zScore mood) 0 = true ->
        Js.lt (AggregatedMood.rawScore mood - mean) 0 = true) /\
       (Js.gt (AggregatedMood.zScore mood) 0 = true ->
        Js.gt (AggregatedMood.rawScore mood - mean) 0 = true)).
Proof.
  assert (Hz : forall value mean values,
             let z := calculateZScore value mean (calculateStdDev values) in
             (Js.lt z 0 = true -> Js.lt (value - mean) 0 = true) /\
             (Js.gt z 0 = true -> Js.gt (value - mean) 0 = true)).
  { intros value mean values. cbv zeta. unfold calculateZScore, Js.strict_eq.
    destruct (PrimFloat.eqb (calculateStdDev values) 0) eqn:E.
    - split; discriminate.
    - exact (div_sign (value - mean) (calculateStdDev values)
               (calculateStdDev_sign values) E). }
  split; [|split; [exact Hz|]].
  - intros values. unfold Js.lt. rewrite FloatAxioms.ltb_spec.
    change (Prim2SF 0) with (S754_zero false). unfold SFltb.
    pose proof (calculateStdDev_sign values) as H.
    destruct (Prim2SF (calculateStdDev values)) as [s|s| |s m e];
      cbn; subst; reflexivity.
  - intros tweet tweets w. cbv zeta.
    destruct (AggregatorEmaFacts.aggregate_mood tweet tweets w)
      as (mood & Hres & _ & _ & _ & _ & _ & Hzs).
    cbv zeta in Hzs. exists mood. split; [exact Hres|].
    rewrite Hzs. apply Hz.
Qed.

End ZScoreFacts.

(* ===================================================================== *)
(** * executor/executor: what is stored *)
(* ===================================================================== *)

Module ExecutionStoreFacts.

Import Task TaskFacts Executor.

#[local] Abbreviation published_of := (fun w : World => Redis.published (redis w)).

Lemma recordExecution_keeps_published amount success :
  keeps published_of (RiskManager.recordExecution amount success).
Proof. unfold RiskManager.recordExecution. keeps_tac. Qed.

Lemma executeBuyback_keeps_published config decision :
  keeps published_of (executeBuyback config decision).
Proof.
  unfold executeBuyback, createResult, RiskManager.canExecute,
    SolanaClient.executeSwap.
  keeps_tac.
Qed.

Lemma executeBurn_keeps_published config decision :
  keeps published_of (executeBurn config decision).
Proof.
  unfold executeBurn, createResult, SolanaClient.getTokenBalance,
    SolanaClient.burnTokens, SolanaClient.new_PublicKey,
    SolanaClient.treasuryPubkey.
  keeps_tac.
Qed.

(** X30. Run alone with auto-execution enabled, [execute] stores the result
    it returns: it is the value of [execution:latest], it is in the history
    under its timestamp, and the timestamp is in the timeline; the policy
    keys are left as they are.  This holds for every action, NOOP and HODL
    included, and for failed executions as well as successful ones. *)
Theorem execute_publishes config decision (w : World) :
  Config.enableAutoExecution (Config.features config) = true ->
  let w' := after (execute config decision) w in
  let p := Redis.published (redis w) in
  let p' := Redis.published (redis w') in
  exists r,
    result (execute config decision) w = Returned r /\
    Redis.execution_latest p' = Some r /\
    Redis.execution_history p'
    = <[ExecutionResult.timestamp r := r]> (Redis.execution_history p) /\
    Redis.execution_history p' !! ExecutionResult.timestamp r = Some r /\
    Redis.execution_timeline p'
    = {[ ExecutionResult.timestamp r ]} ∪ Redis.execution_timeline p /\
    Redis.policy_latest p' = Redis.policy_latest p /\
    Redis.policy_history p' = Redis.policy_history p /\
    Redis.policy_timeline p' = Redis.policy_timeline p.
Proof.
  intros Hon. cbv zeta.
  destruct (ExecutorFacts.exec_execute config decision w Hon) as (r & w1 & E1 & E).
  cbv zeta in E, E1.
  pose proof (f_equal snd E) as E'. cbn [snd] in E'.
  fold (after (execute config decision) w) in E'. rewrite E'.
  unfold result. rewrite E. cbn [fst].
  exists r. split; [reflexivity|].
  set (w2 := after (RiskManager.recordExecution _ _) w1).
  assert (H1 : Redis.published (redis w1) = Redis.published (redis w)).
  { assert (Hkeeps : keeps published_of
                       (match PolicyDecision.action decision with
                        | BUYBACK => executeBuyback config decision
                        | BURN => executeBurn config decision
                        | _ => createResult decision true
                                 (Some (Text.lit "No action required")) None None
                        end)).
    { destruct (PolicyDecision.action decision);
        [unfold createResult; keeps_tac
        | apply executeBuyback_keeps_published
        | apply executeBurn_keeps_published
        | unfold createResult; keeps_tac]. }
    pose proof (after_keeps published_of _ w Hkeeps) as Hk.
    unfold after in Hk. rewrite E1 in Hk. exact Hk. }
  assert (H2 : Redis.published (redis w2) = Redis.published (redis w1)).
  { exact (after_keeps published_of _ w1
             (recordExecution_keeps_published _ _)). }
  assert (H3 : Redis.published (redis (after (storeResult r) w2))
               = Stored.publish_result r (Redis.published (redis w2)))
    by reflexivity.
  unfold Tracking.logged. cbn [redis with_log].
  rewrite H3, H2, H1. unfold Stored.publish_result.
  cbn [Redis.policy_latest Redis.policy_history Redis.policy_timeline
       Redis.execution_latest Redis.execution_history Redis.execution_timeline].
  split; [reflexivity|]. split; [reflexivity|].
  split; [apply lookup_insert_eq|]. repeat split; reflexivity.
Qed.

Lemma execute_publishes_witness :
  exists r,
    Redis.execution_latest
      (Redis.published
         (redis (after (execute Sample.auto_config (Sample.buyback 10))
                   (Sample.funded 1000))))
    = Some r /\
    ExecutionResult.success r = false.
Proof.
  destruct (execute_publishes Sample.auto_config (Sample.buyback 10)
              (Sample.funded 1000) eq_refl) as (r & Hr & Hlatest & _).
  exists r. split; [exact Hlatest|].
  revert Hr. vm_compute. intros Hr. injection Hr as <-. reflexivity.
Defined.

End ExecutionStoreFacts.
